(** * MediConnect Pro, ml-service: risk prediction and vitals analysis

    A shallow embedding of [app/ml/risk_predictor.py],
    [app/ml/vitals_analyzer.py], the schema classes of
    [app/schemas/prediction.py] they construct and the thresholds of
    [app/config.py], followed by the properties of the analytical core.

    Two embeddings follow one another.  The first takes numbers as
    exact rationals; it carries the properties that do not depend on
    rounding (orders, shapes, the structure of the loops).  The second,
    [Binary64], takes numbers as the code has them, IEEE 754 binary64
    values, and lets a key of an [Optional] schema field hold Python's
    [None]; it carries the properties whose outcome depends on rounding,
    on the sign of zero or on a [None] value.

    Modelling conventions of the first embedding.
    - A Python number is an exact rational ([Q]).  Equality of numbers
      is [==].
    - A NumPy division can be a division by zero; it yields an IEEE
      special value instead of raising, so its result is an [npfloat].
    - A dictionary read with [d.get(k, default)] is a record whose
      fields are options: [None] is an absent key.  A present key holds a
      value of the type its request schema declares.
    - A call that can raise (a schema constructor that validates its
      fields, an index out of range, a missing dictionary key) returns an
      [option]; [None] is the raised exception.
    - An f-string is kept as the list of its literal and formatted
      parts ([text]); the rendering of a number to characters is not
      modelled. *)

From Stdlib Require Import Floats.
From Stdlib Require Import QArith Qminmax Qabs Qround Lqa Lia ZArith String List.
From stdpp Require Import base option list gmap strings sorting.

Set Warnings "-inexact-float".

Local Open Scope string_scope.
Local Open Scope list_scope.
Local Open Scope Q_scope.

(** ** Numbers *)

(** [x > y] on Python numbers. *)
Definition Qgtb (x y : Q) : bool := negb (Qle_bool x y).

(** [x < y] on Python numbers. *)
Definition Qltb (x y : Q) : bool := Qgtb y x.

(** The builtin [min(a, b)]: the first argument unless the second is
    strictly smaller. *)
Definition py_min (a b : Q) : Q := if Qltb b a then b else a.

(** [sum(values)]. *)
Definition Qsum (values : list Q) : Q := foldr Qplus 0 values.

(** [len(values)] as a number. *)
Definition Qlen {A} (l : list A) : Q := inject_Z (Z.of_nat (length l)).

(** A NumPy [float64]: finite, or one of the special values a division
    by zero produces. *)
Inductive npfloat : Type :=
| Finite (q : Q)
| PosInf
| NegInf
| NaN.

(** [a / b] on NumPy floats with finite operands: a zero divisor gives
    [nan] (for [0 / 0]) or the infinity of the sign of [a], with a
    warning and no exception. *)
Definition np_div (a b : Q) : npfloat :=
  if Qeq_bool b 0 then
    if Qeq_bool a 0 then NaN
    else if Qgtb a 0 then PosInf else NegInf
  else Finite (a / b).

(** [np.abs]. *)
Definition np_abs (x : npfloat) : npfloat :=
  match x with
  | Finite q => Finite (Qabs q)
  | PosInf | NegInf => PosInf
  | NaN => NaN
  end.

(** [x > c] for a NumPy float and a finite number; every comparison with
    [nan] is false. *)
Definition np_gt (x : npfloat) (c : Q) : bool :=
  match x with
  | Finite q => Qgtb q c
  | PosInf => true
  | NegInf | NaN => false
  end.

(** [x * c] for a NumPy float and a positive constant. *)
Definition np_scale (x : npfloat) (c : Q) : npfloat :=
  match x with
  | Finite q => Finite (q * c)
  | other => other
  end.

(** ** Text built by f-strings *)

Inductive fragment : Type :=
| Lit (s : string)
| Fmt (x : Q) (spec : string)
| FmtNp (x : npfloat) (spec : string).

Definition text : Type := list fragment.

(** The empty format specification of a bare [{x}]. *)
Definition plain : string := EmptyString.

(** [sep.join(parts)]. *)
Fixpoint join (sep : text) (parts : list text) : text :=
  match parts with
  | [] => []
  | [p] => p
  | p :: rest => p ++ sep ++ join sep rest
  end.

(** ** app/config.py *)

Module Config.

Record Settings : Type := {
  risk_low_threshold : Q;
  risk_medium_threshold : Q;
  risk_high_threshold : Q
}.

(** The declared defaults of the risk prediction thresholds. *)
Definition settings : Settings := {|
  risk_low_threshold := 0.3;
  risk_medium_threshold := 0.6;
  risk_high_threshold := 0.8
|}.

End Config.

(** ** app/schemas/prediction.py *)

Inductive RiskLevel : Type := LOW | MEDIUM | HIGH | CRITICAL.

Global Instance RiskLevel_eq_dec : EqDecision RiskLevel.
Proof. solve_decision. Defined.

Record RiskFactor : Type := {
  factor : string;
  impact : Q;
  description : text
}.

(** The constructor [RiskFactor(factor=, impact=, description=)]: the
    field is declared [ge=0, le=1], and a value outside raises a
    validation error. *)
Definition RiskFactor_new (f : string) (i : Q) (d : text) : option RiskFactor :=
  if Qle_bool 0 i && Qle_bool i 1
  then Some {| factor := f; impact := i; description := d |}
  else None.

Record Recommendation : Type := {
  category : string;
  priority : string;
  rec_description : string;
  actionItems : list string
}.

(** The dictionary [predict_comprehensive_risk] returns. *)
Record ComprehensiveRisk : Type := {
  riskLevel : RiskLevel;
  riskScore : Q;
  confidence : Q;
  riskFactors : list RiskFactor;
  primaryConcerns : list string;
  recommendations : list Recommendation
}.

(** ** app/ml/risk_predictor.py *)

(** [factors.append(RiskFactor(...))] under [if cond:]. *)
Definition append_if (cond : bool) (new : option RiskFactor)
    (factors : list RiskFactor) : option (list RiskFactor) :=
  if cond then rf ← new; Some (factors ++ [rf]) else Some factors.

(** What [predict] returns: [(risk_score, confidence, risk_factors)]. *)
Definition Prediction : Type := (Q * Q * list RiskFactor)%type.

Module RiskPredictor.

(** [RiskPredictor.determine_risk_level]. *)
Definition determine_risk_level (risk_score : Q) : RiskLevel :=
  if Qltb risk_score (Config.risk_low_threshold Config.settings) then LOW
  else if Qltb risk_score (Config.risk_medium_threshold Config.settings) then MEDIUM
  else if Qltb risk_score (Config.risk_high_threshold Config.settings) then HIGH
  else CRITICAL.

End RiskPredictor.

Module HeartDiseasePredictor.

(** The feature dictionary, with the keys of [HeartDiseaseRiskRequest]. *)
Record Data : Type := {
  age : option Q;
  gender : option string;
  chestPainType : option Q;
  restingBP : option Q;
  cholesterol : option Q;
  fastingBloodSugar : option bool;
  restingECG : option Q;
  maxHeartRate : option Q;
  exerciseInducedAngina : option bool;
  oldpeak : option Q;
  slope : option Q;
  numMajorVessels : option Q;
  thalassemia : option Q
}.

(** [_prepare_features]: the 1 x 13 feature row. *)
Definition _prepare_features (data : Data) : list Q :=
  [ default 50 (age data);
    if bool_decide (gender data = Some "male") then 1 else 0;
    default 0 (chestPainType data);
    default 120 (restingBP data);
    default 200 (cholesterol data);
    if default false (fastingBloodSugar data) then 1 else 0;
    default 0 (restingECG data);
    default 150 (maxHeartRate data);
    if default false (exerciseInducedAngina data) then 1 else 0;
    default 0 (oldpeak data);
    default 1 (slope data);
    default 0 (numMajorVessels data);
    default 0 (thalassemia data) ].

(** [_calculate_risk_score]. *)
Definition _calculate_risk_score (data : Data) : Q :=
  let score := 0.0 in
  (* Age factor *)
  let age := default 50 (age data) in
  let score :=
    if Qgtb age 65 then score + 0.3
    else if Qgtb age 55 then score + 0.2
    else if Qgtb age 45 then score + 0.1
    else score in
  (* Blood pressure *)
  let bp := default 120 (restingBP data) in
  let score :=
    if Qgtb bp 140 then score + 0.25
    else if Qgtb bp 130 then score + 0.15
    else score in
  (* Cholesterol *)
  let cholesterol := default 200 (cholesterol data) in
  let score :=
    if Qgtb cholesterol 240 then score + 0.2
    else if Qgtb cholesterol 200 then score + 0.1
    else score in
  (* Other factors *)
  let score :=
    if default false (fastingBloodSugar data) then score + 0.15 else score in
  let score :=
    if default false (exerciseInducedAngina data) then score + 0.2 else score in
  (* Normalize to 0-1 *)
  py_min score 1.0.

(** [_identify_risk_factors]. *)
Definition _identify_risk_factors (data : Data) (risk_score : Q)
    : option (list RiskFactor) :=
  let factors := [] in
  let age := default 50 (age data) in
  factors ← append_if (Qgtb age 55)
    (RiskFactor_new "Age"
       (py_min ((age - 55) / 30) 0.3)
       [Lit "Age "; Fmt age plain; Lit " increases cardiovascular risk"])
    factors;
  let bp := default 120 (restingBP data) in
  factors ← append_if (Qgtb bp 130)
    (RiskFactor_new "High Blood Pressure"
       (py_min ((bp - 130) / 50) 0.3)
       [Lit "Blood pressure "; Fmt bp plain; Lit " mmHg is elevated"])
    factors;
  let cholesterol := default 200 (cholesterol data) in
  factors ← append_if (Qgtb cholesterol 200)
    (RiskFactor_new "High Cholesterol"
       (py_min ((cholesterol - 200) / 100) 0.25)
       [Lit "Cholesterol level "; Fmt cholesterol plain; Lit " mg/dL is high"])
    factors;
  factors ← append_if (default false (exerciseInducedAngina data))
    (RiskFactor_new "Exercise-Induced Angina"
       0.2
       [Lit "Chest pain during exercise indicates cardiac stress"])
    factors;
  Some factors.

(** [predict]. *)
Definition predict (data : Data) : option Prediction :=
  (* Feature engineering *)
  let features := _prepare_features data in
  let risk_score := _calculate_risk_score data in
  let confidence := 0.85 in
  risk_factors ← _identify_risk_factors data risk_score;
  Some (risk_score, confidence, risk_factors).

End HeartDiseasePredictor.

Module DiabetesPredictor.

(** The feature dictionary, with the keys of [DiabetesRiskRequest] the
    scorer and the aggregator use. *)
Record Data : Type := {
  age : option Q;
  gender : option string;
  bmi : option Q;
  glucoseLevel : option Q;
  bloodPressure : option Q
}.

(** [_calculate_risk_score]. *)
Definition _calculate_risk_score (data : Data) : Q :=
  let score := 0.0 in
  (* BMI factor *)
  let bmi := default 25 (bmi data) in
  let score :=
    if Qgtb bmi 30 then score + 0.3
    else if Qgtb bmi 25 then score + 0.15
    else score in
  (* Glucose level *)
  let glucose := default 100 (glucoseLevel data) in
  let score :=
    if Qgtb glucose 126 then score + 0.4
    else if Qgtb glucose 100 then score + 0.2
    else score in
  (* Blood pressure *)
  let bp := default 80 (bloodPressure data) in
  let score := if Qgtb bp 90 then score + 0.15 else score in
  (* Age *)
  let age := default 40 (age data) in
  let score := if Qgtb age 45 then score + 0.15 else score in
  py_min score 1.0.

(** [_identify_risk_factors]. *)
Definition _identify_risk_factors (data : Data) (risk_score : Q)
    : option (list RiskFactor) :=
  let factors := [] in
  let bmi := default 25 (bmi data) in
  factors ← append_if (Qgtb bmi 25)
    (RiskFactor_new "Elevated BMI"
       (py_min ((bmi - 25) / 15) 0.3)
       [Lit "BMI of "; Fmt bmi ".1f"; Lit " increases diabetes risk"])
    factors;
  let glucose := default 100 (glucoseLevel data) in
  factors ← append_if (Qgtb glucose 100)
    (RiskFactor_new "Elevated Glucose"
       (py_min ((glucose - 100) / 100) 0.4)
       [Lit "Fasting glucose "; Fmt glucose plain; Lit " mg/dL is elevated"])
    factors;
  Some factors.

(** [predict]. *)
Definition predict (data : Data) : option Prediction :=
  let risk_score := _calculate_risk_score data in
  let confidence := 0.82 in
  risk_factors ← _identify_risk_factors data risk_score;
  Some (risk_score, confidence, risk_factors).

End DiabetesPredictor.

Module StrokePredictor.

(** The feature dictionary, with the keys of [StrokeRiskRequest] the
    scorer and the aggregator use. *)
Record Data : Type := {
  age : option Q;
  gender : option string;
  hypertension : option bool;
  heartDisease : option bool;
  avgGlucoseLevel : option Q;
  bmi : option Q;
  smokingStatus : option string
}.

(** [data.get("smokingStatus") in ["formerly smoked", "smokes"]]. *)
Definition smoker (data : Data) : bool :=
  match smokingStatus data with
  | Some status => bool_decide (status ∈ ["formerly smoked"; "smokes"])
  | None => false
  end.

(** [_calculate_risk_score]. *)
Definition _calculate_risk_score (data : Data) : Q :=
  let score := 0.0 in
  (* Age *)
  let age := default 50 (age data) in
  let score :=
    if Qgtb age 65 then score + 0.3
    else if Qgtb age 55 then score + 0.15
    else score in
  (* Hypertension *)
  let score := if default false (hypertension data) then score + 0.25 else score in
  (* Heart disease *)
  let score := if default false (heartDisease data) then score + 0.25 else score in
  (* Glucose level *)
  let glucose := default 100 (avgGlucoseLevel data) in
  let score := if Qgtb glucose 125 then score + 0.15 else score in
  (* BMI *)
  let bmi := default 25 (bmi data) in
  let score := if Qgtb bmi 30 then score + 0.1 else score in
  (* Smoking *)
  let score := if smoker data then score + 0.15 else score in
  py_min score 1.0.

(** [_identify_risk_factors]. *)
Definition _identify_risk_factors (data : Data) (risk_score : Q)
    : option (list RiskFactor) :=
  let factors := [] in
  factors ← append_if (default false (hypertension data))
    (RiskFactor_new "Hypertension"
       0.25
       [Lit "Hypertension significantly increases stroke risk"])
    factors;
  factors ← append_if (default false (heartDisease data))
    (RiskFactor_new "Heart Disease"
       0.25
       [Lit "Existing heart disease increases stroke risk"])
    factors;
  factors ← append_if (smoker data)
    (RiskFactor_new "Smoking"
       0.15
       [Lit "Smoking damages blood vessels and increases risk"])
    factors;
  Some factors.

(** [predict]. *)
Definition predict (data : Data) : option Prediction :=
  let risk_score := _calculate_risk_score data in
  let confidence := 0.80 in
  risk_factors ← _identify_risk_factors data risk_score;
  Some (risk_score, confidence, risk_factors).

End StrokePredictor.

(** The patient history dictionary, with the keys of
    [PatientHistoryInput] the aggregator reads. *)
Module Patient.

Record t : Type := {
  age : option Q;
  gender : option string;
  bmi : option Q;
  chronicConditions : option (list string);
  smokingStatus : option string
}.

End Patient.

(** One reading of the [recentVitals] list, with the keys of
    [VitalSignInput]; the timestamp is an instant on a linear clock. *)
Module Vital.

Record t : Type := {
  type : option string;
  value : option Q;
  unit : option string;
  timestamp : Z
}.

End Vital.

Module GeneralRiskPredictor.

(** [_get_latest_vital]: the loop returns at the first reading whose
    type matches. *)
Fixpoint _get_latest_vital (vitals_data : list Vital.t) (vital_type : string)
    (default_value : Q) : Q :=
  match vitals_data with
  | [] => default_value
  | vital :: rest =>
      if bool_decide (Vital.type vital = Some vital_type)
      then default default_value (Vital.value vital)
      else _get_latest_vital rest vital_type default_value
  end.

(** [_assess_heart_risk]. *)
Definition _assess_heart_risk (patient_data : Patient.t)
    (vitals_data : list Vital.t) : option Prediction :=
  let data := {|
    HeartDiseasePredictor.age := Some (default 50 (Patient.age patient_data));
    HeartDiseasePredictor.gender := Some (default "male" (Patient.gender patient_data));
    HeartDiseasePredictor.restingBP :=
      Some (_get_latest_vital vitals_data "bloodPressure" 120);
    HeartDiseasePredictor.cholesterol := Some 200;
    HeartDiseasePredictor.fastingBloodSugar := Some false;
    HeartDiseasePredictor.maxHeartRate :=
      Some (_get_latest_vital vitals_data "heartRate" 150);
    HeartDiseasePredictor.chestPainType := None;
    HeartDiseasePredictor.restingECG := None;
    HeartDiseasePredictor.exerciseInducedAngina := None;
    HeartDiseasePredictor.oldpeak := None;
    HeartDiseasePredictor.slope := None;
    HeartDiseasePredictor.numMajorVessels := None;
    HeartDiseasePredictor.thalassemia := None
  |} in
  HeartDiseasePredictor.predict data.

(** [_assess_diabetes_risk]. *)
Definition _assess_diabetes_risk (patient_data : Patient.t)
    (vitals_data : list Vital.t) : option Prediction :=
  let data := {|
    DiabetesPredictor.age := Some (default 40 (Patient.age patient_data));
    DiabetesPredictor.gender := Some (default "male" (Patient.gender patient_data));
    DiabetesPredictor.bmi := Some (default 25 (Patient.bmi patient_data));
    DiabetesPredictor.glucoseLevel :=
      Some (_get_latest_vital vitals_data "bloodGlucose" 100);
    DiabetesPredictor.bloodPressure :=
      Some (_get_latest_vital vitals_data "bloodPressure" 80)
  |} in
  DiabetesPredictor.predict data.

(** [_assess_stroke_risk]. *)
Definition _assess_stroke_risk (patient_data : Patient.t)
    (vitals_data : list Vital.t) : option Prediction :=
  let data := {|
    StrokePredictor.age := Some (default 50 (Patient.age patient_data));
    StrokePredictor.gender := Some (default "male" (Patient.gender patient_data));
    StrokePredictor.hypertension :=
      Some (bool_decide
              ("hypertension" ∈ default [] (Patient.chronicConditions patient_data)));
    StrokePredictor.heartDisease :=
      Some (bool_decide
              ("heart disease" ∈ default [] (Patient.chronicConditions patient_data)));
    StrokePredictor.avgGlucoseLevel :=
      Some (_get_latest_vital vitals_data "bloodGlucose" 100);
    StrokePredictor.bmi := Some (default 25 (Patient.bmi patient_data));
    StrokePredictor.smokingStatus :=
      Some (default "never smoked" (Patient.smokingStatus patient_data))
  |} in
  StrokePredictor.predict data.

(** [_identify_primary_concerns]. *)
Definition _identify_primary_concerns (heart_risk diabetes_risk stroke_risk : Q)
    : list string :=
  let concerns := [] in
  let concerns :=
    if Qgtb heart_risk 0.6
    then concerns ++ ["Elevated cardiovascular disease risk"] else concerns in
  let concerns :=
    if Qgtb diabetes_risk 0.6
    then concerns ++ ["High diabetes risk"] else concerns in
  let concerns :=
    if Qgtb stroke_risk 0.6
    then concerns ++ ["Increased stroke risk"] else concerns in
  match concerns with
  | [] => concerns ++ ["Overall health status is good"]
  | _ => concerns
  end.

(** [_generate_recommendations]. *)
Definition _generate_recommendations (risk_level : RiskLevel)
    (heart diabetes stroke : Q) : list Recommendation :=
  let recommendations := [] in
  let recommendations :=
    if bool_decide (risk_level ∈ [HIGH; CRITICAL])
    then recommendations ++ [{|
      category := "Immediate Action";
      priority := "high";
      rec_description := "Schedule consultation with healthcare provider";
      actionItems := [
        "Book appointment with primary care physician";
        "Bring recent test results and medication list";
        "Monitor symptoms closely" ] |}]
    else recommendations in
  let recommendations :=
    if Qgtb heart 0.5
    then recommendations ++ [{|
      category := "Cardiovascular Health";
      priority := "medium";
      rec_description := "Improve heart health through lifestyle changes";
      actionItems := [
        "Engage in 30 minutes of moderate exercise daily";
        "Reduce sodium intake to less than 2,300mg per day";
        "Monitor blood pressure regularly";
        "Consider stress reduction techniques" ] |}]
    else recommendations in
  let recommendations :=
    if Qgtb diabetes 0.5
    then recommendations ++ [{|
      category := "Metabolic Health";
      priority := "medium";
      rec_description := "Reduce diabetes risk";
      actionItems := [
        "Maintain healthy weight (BMI < 25)";
        "Limit refined carbohydrates and sugars";
        "Monitor blood glucose levels";
        "Increase fiber intake" ] |}]
    else recommendations in
  recommendations.

(** The part of [predict_comprehensive_risk] after the three
    assessments (lines 372 to 396): combine the risks, merge the
    factors, derive the level, the recommendations and the concerns. *)
Definition combine_risks (heart diabetes stroke : Prediction) : ComprehensiveRisk :=
  let '(heart_risk, heart_conf, heart_factors) := heart in
  let '(diabetes_risk, diabetes_conf, diabetes_factors) := diabetes in
  let '(stroke_risk, stroke_conf, stroke_factors) := stroke in
  (* Combine risks *)
  let overall_risk := heart_risk * 0.4 + diabetes_risk * 0.3 + stroke_risk * 0.3 in
  let overall_confidence := (heart_conf + diabetes_conf + stroke_conf) / 3 in
  (* Combine risk factors *)
  let all_factors := heart_factors ++ diabetes_factors ++ stroke_factors in
  (* Determine risk level *)
  let risk_level := RiskPredictor.determine_risk_level overall_risk in
  (* Generate recommendations *)
  let recommendations :=
    _generate_recommendations risk_level heart_risk diabetes_risk stroke_risk in
  {| riskLevel := risk_level;
     riskScore := overall_risk;
     confidence := overall_confidence;
     riskFactors := all_factors;
     primaryConcerns :=
       _identify_primary_concerns heart_risk diabetes_risk stroke_risk;
     recommendations := recommendations |}.

(** [predict_comprehensive_risk]. *)
Definition predict_comprehensive_risk (patient_data : Patient.t)
    (vitals_data : list Vital.t) : option ComprehensiveRisk :=
  heart ← _assess_heart_risk patient_data vitals_data;
  diabetes ← _assess_diabetes_risk patient_data vitals_data;
  stroke ← _assess_stroke_risk patient_data vitals_data;
  Some (combine_risks heart diabetes stroke).

End GeneralRiskPredictor.

(** ** NumPy, pandas and SciPy operations used by the analyzer *)

(** Insertion of [x] before the first element it is below. *)
Fixpoint insert_by {A} (le : A → A → bool) (x : A) (l : list A) : list A :=
  match l with
  | [] => [x]
  | y :: l' => if le x y then x :: l else y :: insert_by le x l'
  end.

(** A stable sort by insertion. *)
Definition sort_by {A} (le : A → A → bool) (l : list A) : list A :=
  foldr (insert_by le) [] l.

(** [np.sort]. *)
Definition np_sort (values : list Q) : list Q := sort_by Qle_bool values.

(** [np.arange(n)]: the indices 0, 1, ..., n-1. *)
Definition np_arange (n : nat) : list Q :=
  map (fun i : nat => inject_Z (Z.of_nat i)) (seq 0 n).

(** [np.mean], on a non-empty array. *)
Definition np_mean (values : list Q) : Q := Qsum values / Qlen values.

(** [np.var]: the population variance. *)
Definition np_var (values : list Q) : Q :=
  let m := np_mean values in
  np_mean (map (fun v => (v - m) * (v - m)) values).

(** [np.min]; raises on an empty array. *)
Definition np_min (values : list Q) : option Q :=
  match values with
  | [] => None
  | v :: rest => Some (foldl (fun acc w => if Qltb w acc then w else acc) v rest)
  end.

(** [np.max]; raises on an empty array. *)
Definition np_max (values : list Q) : option Q :=
  match values with
  | [] => None
  | v :: rest => Some (foldl (fun acc w => if Qgtb w acc then w else acc) v rest)
  end.

(** [np.percentile(values, q)] with linear interpolation between the
    order statistics, on a non-empty array. *)
Definition np_percentile (values : list Q) (q : Q) : Q :=
  let a := np_sort values in
  let virtual_index := (Qlen a - 1) * (q / 100) in
  let previous := Z.to_nat (Qfloor virtual_index) in
  let next := Nat.min (previous + 1) (length a - 1) in
  let gamma := virtual_index - inject_Z (Qfloor virtual_index) in
  let lo := nth previous a 0 in
  let hi := nth next a 0 in
  lo + (hi - lo) * gamma.

(** [np.median], on a non-empty array. *)
Definition np_median (values : list Q) : Q :=
  let a := np_sort values in
  let n := length a in
  if Nat.even n
  then (nth (n / 2 - 1)%nat a 0 + nth (n / 2)%nat a 0) / 2
  else nth (n / 2)%nat a 0.

(** The least-squares slope [stats.linregress] reports: the covariance
    of [x] and [y] over the variance of [x]. *)
Definition linregress_slope (x y : list Q) : Q :=
  let xmean := np_mean x in
  let ymean := np_mean y in
  let ssxm := np_mean (map (fun xi => (xi - xmean) * (xi - xmean)) x) in
  let ssxym := np_mean (zip_with (fun xi yi => (xi - xmean) * (yi - ymean)) x y) in
  ssxym / ssxm.

(** The intercept [stats.linregress] reports. *)
Definition linregress_intercept (x y : list Q) : Q :=
  np_mean y - linregress_slope x y * np_mean x.

(** One reading of a vitals series, as [analyze_trend] receives it and
    as a row of the data frame built from it. *)
Module Reading.

Record t : Type := {
  type : string;
  value : Q;
  unit : string;
  timestamp : Z
}.

End Reading.

(** [df.sort_values("timestamp")]; rows with equal timestamps keep
    their order. *)
Definition sort_values_timestamp (df : list Reading.t) : list Reading.t :=
  sort_by (fun a b => Z.leb (Reading.timestamp a) (Reading.timestamp b)) df.

(** ** app/ml/vitals_analyzer.py *)

(** An entry of the list [_detect_anomalies] returns. *)
Module Anomaly.

Record t : Type := {
  timestamp : Z;
  value : Q;
  severity : string;
  reason : text;
  deviation : npfloat
}.

End Anomaly.

(** An entry of the list [_generate_forecast] returns. *)
Module Forecast.

Record t : Type := {
  period : nat;
  value : Q;
  confidence_lower : Q;
  confidence_upper : Q
}.

End Forecast.

(** An entry of the table [normal_ranges]. *)
Module NormalRange.

Record t : Type := {
  min : Q;
  max : Q;
  unit : string
}.

End NormalRange.

(** The dictionary [_assess_vital_risk] returns; the last three keys
    are absent for an unknown vital type and in the empty analysis. *)
Module RiskAssessment.

Record t : Type := {
  riskLevel : string;
  message : text;
  normalRange : option NormalRange.t;
  averageValue : option Q;
  deviation : option Q
}.

End RiskAssessment.

(** The dictionary [analyze_trend] returns. *)
Module TrendAnalysis.

Record t : Type := {
  statistics : gmap string Q;
  trend : string;
  anomalies : list Anomaly.t;
  forecast : list Forecast.t;
  riskAssessment : RiskAssessment.t
}.

End TrendAnalysis.

Module VitalsAnalyzer.

Section Analyzer.

(** The square root behind [np.std]. *)
Variable np_sqrt : Q → Q.

(** The two-sided p-value [stats.linregress] reports for the
    hypothesis that the slope is zero (Student's t-test on the
    correlation of [x] and [y]). *)
Variable linregress_pvalue : list Q → list Q → Q.

(** [np.std]: the population standard deviation. *)
Definition np_std (values : list Q) : Q := np_sqrt (np_var values).

(** [_calculate_statistics]. *)
Definition _calculate_statistics (values : list Q) : option (gmap string Q) :=
  minimum ← np_min values;
  maximum ← np_max values;
  Some ({[
    "mean" := np_mean values;
    "median" := np_median values;
    "std" := np_std values;
    "min" := minimum;
    "max" := maximum;
    "q25" := np_percentile values 25;
    "q75" := np_percentile values 75;
    "count" := Qlen values;
    "variance" := np_var values;
    "coefficient_of_variation" :=
      if negb (Qeq_bool (np_mean values) 0)
      then np_std values / np_mean values * 100
      else 0
  ]} : gmap string Q).

(** [_determine_trend]. *)
Definition _determine_trend (values : list Q) (timestamps : list Z) : string :=
  if (length values <? 3)%nat then "insufficient_data"
  else
    (* Linear regression *)
    let x := np_arange (length values) in
    let slope := linregress_slope x values in
    let p_value := linregress_pvalue x values in
    (* Check significance *)
    if Qgtb p_value 0.05 then "stable"
    (* Check direction *)
    else if Qgtb slope 0 then "increasing"
    else if Qltb slope 0 then "decreasing"
    else "stable".

(** The body of the loop of [_detect_anomalies] for one row and its
    z-score. *)
Definition anomaly_of_row (lower_bound upper_bound : Q)
    (row : Reading.t) (z_score : npfloat) : list Anomaly.t :=
  let value := Reading.value row in
  let timestamp := Reading.timestamp row in
  let is_anomaly := false in
  let reason : list text := [] in
  (* Z-score threshold (3 standard deviations) *)
  let '(is_anomaly, reason) :=
    if np_gt z_score 3
    then (true, reason ++ [[Lit "Z-score: "; FmtNp z_score ".2f"; Lit " (>3 SD)"]])
    else (is_anomaly, reason) in
  (* IQR threshold *)
  let '(is_anomaly, reason) :=
    if Qltb value lower_bound || Qgtb value upper_bound
    then (true, reason ++ [[Lit "Outside IQR bounds ["; Fmt lower_bound ".1f";
                            Lit ", "; Fmt upper_bound ".1f"; Lit "]"]])
    else (is_anomaly, reason) in
  if is_anomaly
  then [ {| Anomaly.timestamp := timestamp;
            Anomaly.value := value;
            Anomaly.severity := if np_gt z_score 4 then "high" else "medium";
            Anomaly.reason := join [Lit "; "] reason;
            Anomaly.deviation := z_score |} ]
  else [].

(** [_detect_anomalies]. *)
Definition _detect_anomalies (df : list Reading.t) : list Anomaly.t :=
  let values := map Reading.value df in
  let mean := np_mean values in
  let std := np_std values in
  (* Z-score method *)
  let z_scores := map (fun v => np_abs (np_div (v - mean) std)) values in
  (* IQR method *)
  let q1 := np_percentile values 25 in
  let q3 := np_percentile values 75 in
  let iqr := q3 - q1 in
  let lower_bound := q1 - 1.5 * iqr in
  let upper_bound := q3 + 1.5 * iqr in
  concat (zip_with (anomaly_of_row lower_bound upper_bound) df z_scores).

(** [_generate_forecast]. *)
Definition _generate_forecast (values : list Q) (periods : nat)
    : list Forecast.t :=
  if (length values <? 3)%nat then []
  else
    let window := Nat.min 7 (length values) in
    (* Simple moving average *)
    let ma := np_mean (drop (length values - window) values) in
    (* Calculate trend *)
    let x := np_arange (length values) in
    let slope := linregress_slope x values in
    map (fun i : nat =>
           let forecast_value := ma + slope * inject_Z (Z.of_nat i) in
           {| Forecast.period := i;
              Forecast.value := forecast_value;
              Forecast.confidence_lower := forecast_value - np_std values;
              Forecast.confidence_upper := forecast_value + np_std values |})
        (seq 1 periods).

(** The table [normal_ranges] of [_assess_vital_risk]. *)
Definition normal_ranges : gmap string NormalRange.t := {[
  "heartRate" :=
    {| NormalRange.min := 60; NormalRange.max := 100; NormalRange.unit := "bpm" |};
  "bloodPressureSystolic" :=
    {| NormalRange.min := 90; NormalRange.max := 120; NormalRange.unit := "mmHg" |};
  "bloodPressureDiastolic" :=
    {| NormalRange.min := 60; NormalRange.max := 80; NormalRange.unit := "mmHg" |};
  "oxygenSaturation" :=
    {| NormalRange.min := 95; NormalRange.max := 100; NormalRange.unit := "%" |};
  "temperature" :=
    {| NormalRange.min := 36.5; NormalRange.max := 37.5; NormalRange.unit := "Â°C" |};
  "respiratoryRate" :=
    {| NormalRange.min := 12; NormalRange.max := 20; NormalRange.unit := "brpm" |};
  "bloodGlucose" :=
    {| NormalRange.min := 70; NormalRange.max := 140; NormalRange.unit := "mg/dL" |}
]}.

(** [_assess_vital_risk]. *)
Definition _assess_vital_risk (vital_type : string)
    (statistics : gmap string Q) (anomalies : list Anomaly.t)
    (trend : string) : option RiskAssessment.t :=
  match normal_ranges !! vital_type with
  | None =>
      Some {| RiskAssessment.riskLevel := "unknown";
              RiskAssessment.message := [Lit "Unknown vital type"];
              RiskAssessment.normalRange := None;
              RiskAssessment.averageValue := None;
              RiskAssessment.deviation := None |}
  | Some normal_range =>
      mean_value ← statistics !! "mean";
      let range_min := NormalRange.min normal_range in
      let range_max := NormalRange.max normal_range in
      (* Determine risk level *)
      let risk_level := "low" in
      let message := [Lit "Vital signs within normal range"] in
      let '(risk_level, message) :=
        if Qltb mean_value range_min then
          let deviation := ((range_min - mean_value) / range_min) * 100 in
          if Qgtb deviation 20
          then ("high", [Lit "Average "; Lit vital_type;
                         Lit " significantly below normal"])
          else if Qgtb deviation 10
          then ("medium", [Lit "Average "; Lit vital_type; Lit " below normal"])
          else (risk_level, message)
        else if Qgtb mean_value range_max then
          let deviation := ((mean_value - range_max) / range_max) * 100 in
          if Qgtb deviation 20
          then ("high", [Lit "Average "; Lit vital_type;
                         Lit " significantly above normal"])
          else if Qgtb deviation 10
          then ("medium", [Lit "Average "; Lit vital_type; Lit " above normal"])
          else (risk_level, message)
        else (risk_level, message) in
      (* Increase risk if many anomalies *)
      let '(risk_level, message) :=
        if (5 <? length anomalies)%nat
        then ("high",
              message ++ [Lit "; "; Fmt (Qlen anomalies) plain; Lit " anomalies detected"])
        else if (2 <? length anomalies)%nat
        then (if String.eqb risk_level "low" then "medium" else risk_level,
              message ++ [Lit "; "; Fmt (Qlen anomalies) plain; Lit " anomalies detected"])
        else (risk_level, message) in
      (* Consider trend *)
      let message :=
        if String.eqb trend "increasing" && Qgtb mean_value range_max
        then message ++ [Lit "; increasing trend"]
        else if String.eqb trend "decreasing" && Qltb mean_value range_min
        then message ++ [Lit "; decreasing trend"]
        else message in
      Some {| RiskAssessment.riskLevel := risk_level;
              RiskAssessment.message := message;
              RiskAssessment.normalRange := Some normal_range;
              RiskAssessment.averageValue := Some mean_value;
              RiskAssessment.deviation :=
                Some (Qabs (mean_value - (range_min + range_max) / 2)) |}
  end.

(** [_empty_analysis]. *)
Definition _empty_analysis : TrendAnalysis.t := {|
  TrendAnalysis.statistics := ∅;
  TrendAnalysis.trend := "no_data";
  TrendAnalysis.anomalies := [];
  TrendAnalysis.forecast := [];
  TrendAnalysis.riskAssessment :=
    {| RiskAssessment.riskLevel := "unknown";
       RiskAssessment.message := [Lit "No data available"];
       RiskAssessment.normalRange := None;
       RiskAssessment.averageValue := None;
       RiskAssessment.deviation := None |}
|}.

(** [analyze_trend]. *)
Definition analyze_trend (vitals : list Reading.t) (vital_type : string)
    (days : nat) : option TrendAnalysis.t :=
  match vitals with
  | [] => Some _empty_analysis
  | _ =>
      (* Convert to DataFrame *)
      let df := sort_values_timestamp vitals in
      let values := map Reading.value df in
      let timestamps := map Reading.timestamp df in
      (* Calculate statistics *)
      statistics ← _calculate_statistics values;
      (* Determine trend *)
      let trend := _determine_trend values timestamps in
      (* Detect anomalies *)
      let anomalies := _detect_anomalies df in
      (* Generate forecast *)
      let forecast := _generate_forecast values 3 in
      (* Risk assessment *)
      risk_assessment ← _assess_vital_risk vital_type statistics anomalies trend;
      Some {| TrendAnalysis.statistics := statistics;
              TrendAnalysis.trend := trend;
              TrendAnalysis.anomalies := anomalies;
              TrendAnalysis.forecast := forecast;
              TrendAnalysis.riskAssessment := risk_assessment |}
  end.

End Analyzer.

End VitalsAnalyzer.

Module AnomalyDetector.

(** An entry of the list [detect_sudden_changes] returns. *)
Record Change (T : Type) : Type := {
  timestamp : T;
  previous_value : Q;
  current_value : Q;
  change_percent : npfloat;
  severity : string
}.
Arguments timestamp {T} _.
Arguments previous_value {T} _.
Arguments current_value {T} _.
Arguments change_percent {T} _.
Arguments severity {T} _.

(** The body of the loop of [detect_sudden_changes] at index [i];
    an index outside an array raises. *)
Definition sudden_change_step {T} (values : list Q) (timestamps : list T)
    (threshold : Q) (changes : list (Change T)) (i : nat)
    : option (list (Change T)) :=
  current ← values !! i;
  previous ← values !! (i - 1)%nat;
  (* Calculate percentage change *)
  let pct_change := np_div (Qabs (current - previous)) previous in
  if np_gt pct_change threshold
  then
    ts ← timestamps !! i;
    Some (changes ++ [ {| timestamp := ts;
                          previous_value := previous;
                          current_value := current;
                          change_percent := np_scale pct_change 100;
                          severity := if np_gt pct_change 0.3 then "high" else "medium" |} ])
  else Some changes.

(** [detect_sudden_changes]: the loop over [range(1, len(values))]. *)
Definition detect_sudden_changes {T} (values : list Q) (timestamps : list T)
    (threshold : Q) : option (list (Change T)) :=
  foldl (fun acc i => changes ← acc; sudden_change_step values timestamps threshold changes i)
        (Some []) (seq 1 (length values - 1)).

End AnomalyDetector.

(** ** Further NumPy and pandas operations *)

(** [x < c] for a NumPy float and a finite number; every comparison with
    [nan] is false. *)
Definition np_lt (x : npfloat) (c : Q) : bool :=
  match x with
  | Finite q => Qltb q c
  | NegInf => true
  | PosInf | NaN => false
  end.

(** [x != 0] for a NumPy float; [nan] differs from every number. *)
Definition np_nonzero (x : npfloat) : bool :=
  match x with
  | Finite q => negb (Qeq_bool q 0)
  | PosInf | NegInf | NaN => true
  end.

(** [a / b] for a finite number and a NumPy float. *)
Definition np_div_by (a : Q) (b : npfloat) : npfloat :=
  match b with
  | Finite q => np_div a q
  | PosInf | NegInf => Finite 0
  | NaN => NaN
  end.

(** ** app/ml/vitals_analyzer.py, continued *)

(** The dictionary [compare_vitals] returns; which keys are present
    depends on the branch. *)
Module Comparison.

Record t : Type := {
  patientMean : option Q;
  populationMean : option Q;
  zScore : option npfloat;
  percentile : option npfloat;
  comparison : string
}.

End Comparison.

(** The methods [compare_vitals] and [_interpret_comparison] of the class
    [VitalsAnalyzer]. *)
Module VitalsComparison.

Section Comparing.

(** The square root behind the standard deviation of pandas. *)
Variable np_sqrt : Q → Q.

(** [stats.norm.cdf] on finite numbers: the distribution function of the
    standard normal law. *)
Variable norm_cdf : Q → Q.

(** [Series.std()] of pandas: the sample standard deviation, with
    [n - 1] in the denominator; [nan] for a single value. *)
Definition pd_std (values : list Q) : npfloat :=
  if (length values <=? 1)%nat then NaN
  else
    let m := np_mean values in
    Finite (np_sqrt (Qsum (map (fun v => (v - m) * (v - m)) values)
                     / (Qlen values - 1))).

(** [stats.norm.cdf] on a NumPy float. *)
Definition norm_cdf_np (x : npfloat) : npfloat :=
  match x with
  | Finite q => Finite (norm_cdf q)
  | PosInf => Finite 1
  | NegInf => Finite 0
  | NaN => NaN
  end.

(** [_interpret_comparison]. *)
Definition _interpret_comparison (z_score : npfloat) : string :=
  if np_lt (np_abs z_score) 1 then "within_normal_range"
  else if np_lt (np_abs z_score) 2 then "slightly_abnormal"
  else "significantly_abnormal".

(** [compare_vitals]; an absent [population_stats] is [None], and an
    empty dictionary is as false as [None]. *)
Definition compare_vitals (patient_vitals : list Reading.t)
    (population_stats : option (gmap string Q)) : Comparison.t :=
  match patient_vitals with
  | [] =>
      {| Comparison.patientMean := None;
         Comparison.populationMean := None;
         Comparison.zScore := None;
         Comparison.percentile := None;
         Comparison.comparison := "no_data" |}
  | _ =>
      let values := map Reading.value patient_vitals in
      let patient_mean := np_mean values in
      let no_population :=
        {| Comparison.patientMean := Some patient_mean;
           Comparison.populationMean := None;
           Comparison.zScore := None;
           Comparison.percentile := None;
           Comparison.comparison := "no_population_data" |} in
      match population_stats with
      | None => no_population
      | Some stats =>
          if (size stats =? 0)%nat then no_population
          else
            let pop_mean := default patient_mean (stats !! "mean") in
            let pop_std := default (pd_std values) (Finite <$> stats !! "std") in
            (* Calculate z-score *)
            let z_score :=
              if np_nonzero pop_std
              then np_div_by (patient_mean - pop_mean) pop_std
              else Finite 0 in
            (* Percentile *)
            let percentile := np_scale (norm_cdf_np z_score) 100 in
            {| Comparison.patientMean := Some patient_mean;
               Comparison.populationMean := Some pop_mean;
               Comparison.zScore := Some z_score;
               Comparison.percentile := Some percentile;
               Comparison.comparison := _interpret_comparison z_score |}
      end
  end.

End Comparing.

End VitalsComparison.

(** The method [detect_multivariate_anomalies] of the class
    [AnomalyDetector]; the data frame is the map of its columns, all of
    one length. *)
Module MultivariateAnomalies.

(** The entry the method returns. *)
Record Entry : Type := {
  type : string;
  vitals : list string;
  severity : string;
  description : string;
  recommendation : string
}.

(** [detect_multivariate_anomalies]. *)
Definition detect_multivariate_anomalies (vitals_data : gmap string (list Q))
    : list Entry :=
  let anomalies := [] in
  (* Check for unusual combinations *)
  match vitals_data !! "heartRate", vitals_data !! "oxygenSaturation" with
  | Some hr, Some o2 =>
      (* High heart rate + low oxygen = concerning *)
      let concerning := zip_with (fun h o => Qgtb h 100 && Qltb o 92) hr o2 in
      if existsb id concerning
      then anomalies ++ [ {|
        type := "multivariate";
        vitals := ["heartRate"; "oxygenSaturation"];
        severity := "high";
        description := "High heart rate with low oxygen saturation";
        recommendation := "Immediate medical attention recommended" |} ]
      else anomalies
  | _, _ => anomalies
  end.

End MultivariateAnomalies.

(** ** The request handlers *)

(** What a handler gives back: the response it returns, or the HTTP
    error its [except Exception] clause raises. *)
Inductive HandlerResult (A : Type) : Type :=
| Returned (response : A)
| HTTPException (status_code : nat).
Arguments Returned {A} _.
Arguments HTTPException {A} _.

(** [try: ... except Exception: raise HTTPException(status_code=500)]. *)
Definition try_or_500 {A} (body : option A) : HandlerResult A :=
  match body with
  | Some response => Returned response
  | None => HTTPException 500
  end.

(** app/api/v1/predictions.py: the handlers of the three condition
    scorers and of the trend analysis.  The fresh identifier and the
    clock readings are arguments. *)
Module PredictionsApi.

(** The response schema [RiskPredictionResponse]. *)
Record RiskPredictionResponse : Type := {
  patientId : string;
  predictionId : string;
  timestamp : Z;
  riskLevel : RiskLevel;
  riskScore : Q;
  confidence : Q;
  riskFactors : list RiskFactor;
  primaryConcerns : list string;
  recommendations : option (list Recommendation);
  modelVersion : string;
  metadata : option (gmap string string)
}.

(** The constructor of [RiskPredictionResponse]: [riskScore] and
    [confidence] are declared [ge=0, le=1], and a value outside raises a
    validation error. *)
Definition RiskPredictionResponse_new (patient_id prediction_id : string)
    (now : Z) (level : RiskLevel) (score conf : Q) (factors : list RiskFactor)
    (concerns : list string) (recs : option (list Recommendation))
    (version : string) : option RiskPredictionResponse :=
  if Qle_bool 0 score && Qle_bool score 1 && Qle_bool 0 conf && Qle_bool conf 1
  then Some {| patientId := patient_id;
               predictionId := prediction_id;
               timestamp := now;
               riskLevel := level;
               riskScore := score;
               confidence := conf;
               riskFactors := factors;
               primaryConcerns := concerns;
               recommendations := recs;
               modelVersion := version;
               metadata := None |}
  else None.

(** The request schema [HeartDiseaseRiskRequest]. *)
Record HeartDiseaseRiskRequest : Type := {
  hd_patientId : string;
  hd_age : Q;
  hd_gender : string;
  hd_chestPainType : Q;
  hd_restingBP : Q;
  hd_cholesterol : Q;
  hd_fastingBloodSugar : bool;
  hd_restingECG : Q;
  hd_maxHeartRate : Q;
  hd_exerciseInducedAngina : bool;
  hd_oldpeak : Q;
  hd_slope : Q;
  hd_numMajorVessels : Q;
  hd_thalassemia : Q
}.

(** [request.dict()] as the scorer reads it: every key is present. *)
Definition heart_dict (request : HeartDiseaseRiskRequest)
    : HeartDiseasePredictor.Data := {|
  HeartDiseasePredictor.age := Some (hd_age request);
  HeartDiseasePredictor.gender := Some (hd_gender request);
  HeartDiseasePredictor.chestPainType := Some (hd_chestPainType request);
  HeartDiseasePredictor.restingBP := Some (hd_restingBP request);
  HeartDiseasePredictor.cholesterol := Some (hd_cholesterol request);
  HeartDiseasePredictor.fastingBloodSugar := Some (hd_fastingBloodSugar request);
  HeartDiseasePredictor.restingECG := Some (hd_restingECG request);
  HeartDiseasePredictor.maxHeartRate := Some (hd_maxHeartRate request);
  HeartDiseasePredictor.exerciseInducedAngina :=
    Some (hd_exerciseInducedAngina request);
  HeartDiseasePredictor.oldpeak := Some (hd_oldpeak request);
  HeartDiseasePredictor.slope := Some (hd_slope request);
  HeartDiseasePredictor.numMajorVessels := Some (hd_numMajorVessels request);
  HeartDiseasePredictor.thalassemia := Some (hd_thalassemia request)
|}.

(** [predict_heart_disease_risk]. *)
Definition predict_heart_disease_risk (request : HeartDiseaseRiskRequest)
    (prediction_id : string) (now : Z) : HandlerResult RiskPredictionResponse :=
  try_or_500 (
    let data := heart_dict request in
    '(risk_score, confidence, risk_factors) ← HeartDiseasePredictor.predict data;
    let risk_level := RiskPredictor.determine_risk_level risk_score in
    RiskPredictionResponse_new (hd_patientId request) prediction_id now
      risk_level risk_score confidence risk_factors
      ["Cardiovascular health assessment"] None "heart_disease_v1.0").

(** The request schema [DiabetesRiskRequest], with the fields the scorer
    reads. *)
Record DiabetesRiskRequest : Type := {
  db_patientId : string;
  db_age : Q;
  db_gender : string;
  db_bmi : Q;
  db_glucoseLevel : Q;
  db_bloodPressure : Q
}.

(** [request.dict()] as the scorer reads it. *)
Definition diabetes_dict (request : DiabetesRiskRequest)
    : DiabetesPredictor.Data := {|
  DiabetesPredictor.age := Some (db_age request);
  DiabetesPredictor.gender := Some (db_gender request);
  DiabetesPredictor.bmi := Some (db_bmi request);
  DiabetesPredictor.glucoseLevel := Some (db_glucoseLevel request);
  DiabetesPredictor.bloodPressure := Some (db_bloodPressure request)
|}.

(** [predict_diabetes_risk]. *)
Definition predict_diabetes_risk (request : DiabetesRiskRequest)
    (prediction_id : string) (now : Z) : HandlerResult RiskPredictionResponse :=
  try_or_500 (
    let data := diabetes_dict request in
    '(risk_score, confidence, risk_factors) ← DiabetesPredictor.predict data;
    let risk_level := RiskPredictor.determine_risk_level risk_score in
    RiskPredictionResponse_new (db_patientId request) prediction_id now
      risk_level risk_score confidence risk_factors
      ["Diabetes risk assessment"] None "diabetes_v1.0").

(** The request schema [StrokeRiskRequest], with the fields the scorer
    reads. *)
Record StrokeRiskRequest : Type := {
  st_patientId : string;
  st_age : Q;
  st_gender : string;
  st_hypertension : bool;
  st_heartDisease : bool;
  st_avgGlucoseLevel : Q;
  st_bmi : Q;
  st_smokingStatus : string
}.

(** [request.dict()] as the scorer reads it. *)
Definition stroke_dict (request : StrokeRiskRequest) : StrokePredictor.Data := {|
  StrokePredictor.age := Some (st_age request);
  StrokePredictor.gender := Some (st_gender request);
  StrokePredictor.hypertension := Some (st_hypertension request);
  StrokePredictor.heartDisease := Some (st_heartDisease request);
  StrokePredictor.avgGlucoseLevel := Some (st_avgGlucoseLevel request);
  StrokePredictor.bmi := Some (st_bmi request);
  StrokePredictor.smokingStatus := Some (st_smokingStatus request)
|}.

(** [predict_stroke_risk]. *)
Definition predict_stroke_risk (request : StrokeRiskRequest)
    (prediction_id : string) (now : Z) : HandlerResult RiskPredictionResponse :=
  try_or_500 (
    let data := stroke_dict request in
    '(risk_score, confidence, risk_factors) ← StrokePredictor.predict data;
    let risk_level := RiskPredictor.determine_risk_level risk_score in
    RiskPredictionResponse_new (st_patientId request) prediction_id now
      risk_level risk_score confidence risk_factors
      ["Stroke risk assessment"] None "stroke_v1.0").

End PredictionsApi.

(** app/api/v1/anomalies.py: the handler of single-series detection. *)
Module AnomaliesApi.

(** The request schema [AnomalyDetectionRequest]. *)
Record AnomalyDetectionRequest : Type := {
  patientId : string;
  vitalType : string;
  values : list Q;
  timestamps : list string;
  threshold : Q
}.

(** The dictionary [detect_anomalies] returns. *)
Record DetectionResponse : Type := {
  r_patientId : string;
  r_vitalType : string;
  anomaliesDetected : nat;
  anomalies : list (AnomalyDetector.Change string);
  r_timestamp : Z
}.

(** [detect_anomalies]. *)
Definition detect_anomalies (request : AnomalyDetectionRequest) (now : Z)
    : HandlerResult DetectionResponse :=
  try_or_500 (
    (* Detect sudden changes *)
    sudden_changes ← AnomalyDetector.detect_sudden_changes
                       (values request) (timestamps request) (threshold request);
    Some {| r_patientId := patientId request;
            r_vitalType := vitalType request;
            anomaliesDetected := length sudden_changes;
            anomalies := sudden_changes;
            r_timestamp := now |}).

End AnomaliesApi.

(** * The binary64 embedding

    The same source files once more, with the numbers as the code has
    them: a Python [float] and a NumPy [float64] are IEEE 754 binary64
    values (the primitive type [float]: every operation rounds to
    nearest even, a division by zero yields a signed infinity or [nan],
    zero has a sign, every comparison with [nan] is false), and a key
    of an [Optional] schema field can hold Python's [None].  The
    properties whose outcome depends on rounding, on the sign of zero
    or on a [None] value are settled on this embedding.

    - An integer the code reads (an age, a bound of a normal range, a
      length) is the binary64 value of that integer; below 2^53 every
      comparison, subtraction and true division the code applies to it
      gives the same result as on the Python [int].
    - A dictionary field declared [Optional] is an [option (option _)]:
      [None] is an absent key, [Some None] a key holding Python's
      [None].
    - A comparison of [None] with a number raises a [TypeError]; a
      call that can raise returns an [option], as before.
    - [np.add.reduce] (the summation behind [np.mean], [np.var] and
      [np.std]) and [np.percentile] are parameters of the analyzer:
      NumPy's order of summation depends on the length of the array.
      For the short arrays of the examples they are instantiated below. *)

Module Binary64.

Local Open Scope float_scope.

(** ** Numbers *)

(** [x > y] on floats; false when either side is [nan]. *)
Definition gtb (x y : float) : bool := y <? x.

(** The builtin [min(a, b)]: the first argument unless the second is
    strictly smaller. *)
Definition py_min (a b : float) : float := if b <? a then b else a.

(** The float of a length or of an index. *)
Definition of_nat (n : nat) : float := of_uint63 (Uint63Axioms.of_Z (Z.of_nat n)).

(** The integer part of a float that is not negative, as an index. *)
Definition floor_index (x : float) : nat :=
  match Prim2SF x with
  | S754_finite false m e => Z.to_nat (Z.shiftl (Zpos m) e)
  | _ => 0%nat
  end.

(** ** Text built by f-strings *)

Inductive fragment : Type :=
| Lit (s : string)
| Fmt (x : float) (spec : string)
| FmtInt (n : nat) (spec : string).

Definition text : Type := list fragment.

(** [sep.join(parts)]. *)
Fixpoint join (sep : text) (parts : list text) : text :=
  match parts with
  | [] => []
  | [p] => p
  | p :: rest => p ++ sep ++ join sep rest
  end.

(** ** app/config.py *)

Module Config.

Record Settings : Type := {
  risk_low_threshold : float;
  risk_medium_threshold : float;
  risk_high_threshold : float
}.

(** The declared defaults of the risk prediction thresholds. *)
Definition settings : Settings := {|
  risk_low_threshold := 0.3;
  risk_medium_threshold := 0.6;
  risk_high_threshold := 0.8
|}.

End Config.

(** ** app/schemas/prediction.py *)

Record RiskFactor : Type := {
  factor : string;
  impact : float;
  description : text
}.

(** The constructor [RiskFactor(factor=, impact=, description=)]: the
    field is declared [ge=0, le=1], and a value outside (or [nan])
    raises a validation error. *)
Definition RiskFactor_new (f : string) (i : float) (d : text) : option RiskFactor :=
  if (0 <=? i) && (i <=? 1)
  then Some {| factor := f; impact := i; description := d |}
  else None.

(** The dictionary [predict_comprehensive_risk] returns. *)
Record ComprehensiveRisk : Type := {
  riskLevel : RiskLevel;
  riskScore : float;
  confidence : float;
  riskFactors : list RiskFactor;
  primaryConcerns : list string;
  recommendations : list Recommendation
}.

(** ** app/ml/risk_predictor.py *)

(** [factors.append(RiskFactor(...))] under [if cond:]. *)
Definition append_if (cond : bool) (new : option RiskFactor)
    (factors : list RiskFactor) : option (list RiskFactor) :=
  if cond then rf ← new; Some (factors ++ [rf]) else Some factors.

(** What [predict] returns: [(risk_score, confidence, risk_factors)]. *)
Definition Prediction : Type := (float * float * list RiskFactor)%type.

Module RiskPredictor.

(** [RiskPredictor.determine_risk_level]. *)
Definition determine_risk_level (risk_score : float) : RiskLevel :=
  if risk_score <? Config.risk_low_threshold Config.settings then LOW
  else if risk_score <? Config.risk_medium_threshold Config.settings then MEDIUM
  else if risk_score <? Config.risk_high_threshold Config.settings then HIGH
  else CRITICAL.

End RiskPredictor.

Module HeartDiseasePredictor.

(** The feature dictionary, with the keys of [HeartDiseaseRiskRequest]. *)
Record Data : Type := {
  age : option float;
  gender : option string;
  chestPainType : option float;
  restingBP : option float;
  cholesterol : option float;
  fastingBloodSugar : option bool;
  restingECG : option float;
  maxHeartRate : option float;
  exerciseInducedAngina : option bool;
  oldpeak : option float;
  slope : option float;
  numMajorVessels : option float;
  thalassemia : option float
}.

(** [_prepare_features]: the 1 x 13 feature row. *)
Definition _prepare_features (data : Data) : list float :=
  [ default 50 (age data);
    if bool_decide (gender data = Some "male") then 1 else 0;
    default 0 (chestPainType data);
    default 120 (restingBP data);
    default 200 (cholesterol data);
    if default false (fastingBloodSugar data) then 1 else 0;
    default 0 (restingECG data);
    default 150 (maxHeartRate data);
    if default false (exerciseInducedAngina data) then 1 else 0;
    default 0 (oldpeak data);
    default 1 (slope data);
    default 0 (numMajorVessels data);
    default 0 (thalassemia data) ].

(** [_calculate_risk_score]. *)
Definition _calculate_risk_score (data : Data) : float :=
  let score := 0.0 in
  (* Age factor *)
  let age := default 50 (age data) in
  let score :=
    if gtb age 65 then score + 0.3
    else if gtb age 55 then score + 0.2
    else if gtb age 45 then score + 0.1
    else score in
  (* Blood pressure *)
  let bp := default 120 (restingBP data) in
  let score :=
    if gtb bp 140 then score + 0.25
    else if gtb bp 130 then score + 0.15
    else score in
  (* Cholesterol *)
  let cholesterol := default 200 (cholesterol data) in
  let score :=
    if gtb cholesterol 240 then score + 0.2
    else if gtb cholesterol 200 then score + 0.1
    else score in
  (* Other factors *)
  let score :=
    if default false (fastingBloodSugar data) then score + 0.15 else score in
  let score :=
    if default false (exerciseInducedAngina data) then score + 0.2 else score in
  (* Normalize to 0-1 *)
  py_min score 1.0.

(** [_identify_risk_factors]. *)
Definition _identify_risk_factors (data : Data) (risk_score : float)
    : option (list RiskFactor) :=
  let factors := [] in
  let age := default 50 (age data) in
  factors ← append_if (gtb age 55)
    (RiskFactor_new "Age"
       (py_min ((age - 55) / 30) 0.3)
       [Lit "Age "; Fmt age plain; Lit " increases cardiovascular risk"])
    factors;
  let bp := default 120 (restingBP data) in
  factors ← append_if (gtb bp 130)
    (RiskFactor_new "High Blood Pressure"
       (py_min ((bp - 130) / 50) 0.3)
       [Lit "Blood pressure "; Fmt bp plain; Lit " mmHg is elevated"])
    factors;
  let cholesterol := default 200 (cholesterol data) in
  factors ← append_if (gtb cholesterol 200)
    (RiskFactor_new "High Cholesterol"
       (py_min ((cholesterol - 200) / 100) 0.25)
       [Lit "Cholesterol level "; Fmt cholesterol plain; Lit " mg/dL is high"])
    factors;
  factors ← append_if (default false (exerciseInducedAngina data))
    (RiskFactor_new "Exercise-Induced Angina"
       0.2
       [Lit "Chest pain during exercise indicates cardiac stress"])
    factors;
  Some factors.

(** [predict]. *)
Definition predict (data : Data) : option Prediction :=
  (* Feature engineering *)
  let features := _prepare_features data in
  let risk_score := _calculate_risk_score data in
  let confidence := 0.85 in
  risk_factors ← _identify_risk_factors data risk_score;
  Some (risk_score, confidence, risk_factors).

End HeartDiseasePredictor.

Module DiabetesPredictor.

(** The feature dictionary; [bmi] is the key the aggregator fills from
    an [Optional] field. *)
Record Data : Type := {
  age : option float;
  gender : option string;
  bmi : option (option float);
  glucoseLevel : option float;
  bloodPressure : option float
}.

(** [_calculate_risk_score]; [bmi > 30] raises on [None]. *)
Definition _calculate_risk_score (data : Data) : option float :=
  let score := 0.0 in
  (* BMI factor *)
  bmi ← default (Some 25) (bmi data);
  let score :=
    if gtb bmi 30 then score + 0.3
    else if gtb bmi 25 then score + 0.15
    else score in
  (* Glucose level *)
  let glucose := default 100 (glucoseLevel data) in
  let score :=
    if gtb glucose 126 then score + 0.4
    else if gtb glucose 100 then score + 0.2
    else score in
  (* Blood pressure *)
  let bp := default 80 (bloodPressure data) in
  let score := if gtb bp 90 then score + 0.15 else score in
  (* Age *)
  let age := default 40 (age data) in
  let score := if gtb age 45 then score + 0.15 else score in
  Some (py_min score 1.0).

(** [_identify_risk_factors]. *)
Definition _identify_risk_factors (data : Data) (risk_score : float)
    : option (list RiskFactor) :=
  let factors := [] in
  bmi ← default (Some 25) (bmi data);
  factors ← append_if (gtb bmi 25)
    (RiskFactor_new "Elevated BMI"
       (py_min ((bmi - 25) / 15) 0.3)
       [Lit "BMI of "; Fmt bmi ".1f"; Lit " increases diabetes risk"])
    factors;
  let glucose := default 100 (glucoseLevel data) in
  factors ← append_if (gtb glucose 100)
    (RiskFactor_new "Elevated Glucose"
       (py_min ((glucose - 100) / 100) 0.4)
       [Lit "Fasting glucose "; Fmt glucose plain; Lit " mg/dL is elevated"])
    factors;
  Some factors.

(** [predict]. *)
Definition predict (data : Data) : option Prediction :=
  risk_score ← _calculate_risk_score data;
  let confidence := 0.82 in
  risk_factors ← _identify_risk_factors data risk_score;
  Some (risk_score, confidence, risk_factors).

End DiabetesPredictor.

Module StrokePredictor.

(** The feature dictionary; [bmi] and [smokingStatus] are the keys the
    aggregator fills from [Optional] fields. *)
Record Data : Type := {
  age : option float;
  gender : option string;
  hypertension : option bool;
  heartDisease : option bool;
  avgGlucoseLevel : option float;
  bmi : option (option float);
  smokingStatus : option (option string)
}.

(** [data.get("smokingStatus") in ["formerly smoked", "smokes"]]. *)
Definition smoker (data : Data) : bool :=
  match smokingStatus data with
  | Some (Some status) => bool_decide (status ∈ ["formerly smoked"; "smokes"])
  | Some None | None => false
  end.

(** [_calculate_risk_score]; [bmi > 30] raises on [None]. *)
Definition _calculate_risk_score (data : Data) : option float :=
  let score := 0.0 in
  (* Age *)
  let age := default 50 (age data) in
  let score :=
    if gtb age 65 then score + 0.3
    else if gtb age 55 then score + 0.15
    else score in
  (* Hypertension *)
  let score := if default false (hypertension data) then score + 0.25 else score in
  (* Heart disease *)
  let score := if default false (heartDisease data) then score + 0.25 else score in
  (* Glucose level *)
  let glucose := default 100 (avgGlucoseLevel data) in
  let score := if gtb glucose 125 then score + 0.15 else score in
  (* BMI *)
  bmi ← default (Some 25) (bmi data);
  let score := if gtb bmi 30 then score + 0.1 else score in
  (* Smoking *)
  let score := if smoker data then score + 0.15 else score in
  Some (py_min score 1.0).

(** [_identify_risk_factors]. *)
Definition _identify_risk_factors (data : Data) (risk_score : float)
    : option (list RiskFactor) :=
  let factors := [] in
  factors ← append_if (default false (hypertension data))
    (RiskFactor_new "Hypertension"
       0.25
       [Lit "Hypertension significantly increases stroke risk"])
    factors;
  factors ← append_if (default false (heartDisease data))
    (RiskFactor_new "Heart Disease"
       0.25
       [Lit "Existing heart disease increases stroke risk"])
    factors;
  factors ← append_if (smoker data)
    (RiskFactor_new "Smoking"
       0.15
       [Lit "Smoking damages blood vessels and increases risk"])
    factors;
  Some factors.

(** [predict]. *)
Definition predict (data : Data) : option Prediction :=
  risk_score ← _calculate_risk_score data;
  let confidence := 0.80 in
  risk_factors ← _identify_risk_factors data risk_score;
  Some (risk_score, confidence, risk_factors).

End StrokePredictor.

(** The patient history dictionary, with the keys the aggregator
    reads.  [PatientHistoryInput.dict()] always holds the keys [bmi] and
    [smokingStatus], with the value [None] when the request omits them. *)
Module Patient.

Record t : Type := {
  age : option float;
  gender : option string;
  bmi : option (option float);
  chronicConditions : option (list string);
  smokingStatus : option (option string)
}.

End Patient.

(** One reading of the [recentVitals] list. *)
Module Vital.

Record t : Type := {
  type : option string;
  value : option float;
  unit : option string;
  timestamp : Z
}.

End Vital.

Module GeneralRiskPredictor.

(** [_get_latest_vital]: the loop returns at the first reading whose
    type matches. *)
Fixpoint _get_latest_vital (vitals_data : list Vital.t) (vital_type : string)
    (default_value : float) : float :=
  match vitals_data with
  | [] => default_value
  | vital :: rest =>
      if bool_decide (Vital.type vital = Some vital_type)
      then default default_value (Vital.value vital)
      else _get_latest_vital rest vital_type default_value
  end.

(** [_assess_heart_risk]. *)
Definition _assess_heart_risk (patient_data : Patient.t)
    (vitals_data : list Vital.t) : option Prediction :=
  let data := {|
    HeartDiseasePredictor.age := Some (default 50 (Patient.age patient_data));
    HeartDiseasePredictor.gender := Some (default "male" (Patient.gender patient_data));
    HeartDiseasePredictor.restingBP :=
      Some (_get_latest_vital vitals_data "bloodPressure" 120);
    HeartDiseasePredictor.cholesterol := Some 200;
    HeartDiseasePredictor.fastingBloodSugar := Some false;
    HeartDiseasePredictor.maxHeartRate :=
      Some (_get_latest_vital vitals_data "heartRate" 150);
    HeartDiseasePredictor.chestPainType := None;
    HeartDiseasePredictor.restingECG := None;
    HeartDiseasePredictor.exerciseInducedAngina := None;
    HeartDiseasePredictor.oldpeak := None;
    HeartDiseasePredictor.slope := None;
    HeartDiseasePredictor.numMajorVessels := None;
    HeartDiseasePredictor.thalassemia := None
  |} in
  HeartDiseasePredictor.predict data.

(** [_assess_diabetes_risk]; [patient_data.get("bmi", 25)] is [None]
    when the key holds [None]. *)
Definition _assess_diabetes_risk (patient_data : Patient.t)
    (vitals_data : list Vital.t) : option Prediction :=
  let data := {|
    DiabetesPredictor.age := Some (default 40 (Patient.age patient_data));
    DiabetesPredictor.gender := Some (default "male" (Patient.gender patient_data));
    DiabetesPredictor.bmi := Some (default (Some 25) (Patient.bmi patient_data));
    DiabetesPredictor.glucoseLevel :=
      Some (_get_latest_vital vitals_data "bloodGlucose" 100);
    DiabetesPredictor.bloodPressure :=
      Some (_get_latest_vital vitals_data "bloodPressure" 80)
  |} in
  DiabetesPredictor.predict data.

(** [_assess_stroke_risk]. *)
Definition _assess_stroke_risk (patient_data : Patient.t)
    (vitals_data : list Vital.t) : option Prediction :=
  let data := {|
    StrokePredictor.age := Some (default 50 (Patient.age patient_data));
    StrokePredictor.gender := Some (default "male" (Patient.gender patient_data));
    StrokePredictor.hypertension :=
      Some (bool_decide
              ("hypertension" ∈ default [] (Patient.chronicConditions patient_data)));
    StrokePredictor.heartDisease :=
      Some (bool_decide
              ("heart disease" ∈ default [] (Patient.chronicConditions patient_data)));
    StrokePredictor.avgGlucoseLevel :=
      Some (_get_latest_vital vitals_data "bloodGlucose" 100);
    StrokePredictor.bmi := Some (default (Some 25) (Patient.bmi patient_data));
    StrokePredictor.smokingStatus :=
      Some (default (Some "never smoked") (Patient.smokingStatus patient_data))
  |} in
  StrokePredictor.predict data.

(** [_identify_primary_concerns]. *)
Definition _identify_primary_concerns (heart_risk diabetes_risk stroke_risk : float)
    : list string :=
  let concerns := [] in
  let concerns :=
    if gtb heart_risk 0.6
    then concerns ++ ["Elevated cardiovascular disease risk"] else concerns in
  let concerns :=
    if gtb diabetes_risk 0.6
    then concerns ++ ["High diabetes risk"] else concerns in
  let concerns :=
    if gtb stroke_risk 0.6
    then concerns ++ ["Increased stroke risk"] else concerns in
  match concerns with
  | [] => concerns ++ ["Overall health status is good"]
  | _ => concerns
  end.

(** [_generate_recommendations]. *)
Definition _generate_recommendations (risk_level : RiskLevel)
    (heart diabetes stroke : float) : list Recommendation :=
  let recommendations := [] in
  let recommendations :=
    if bool_decide (risk_level ∈ [HIGH; CRITICAL])
    then recommendations ++ [{|
      category := "Immediate Action";
      priority := "high";
      rec_description := "Schedule consultation with healthcare provider";
      actionItems := [
        "Book appointment with primary care physician";
        "Bring recent test results and medication list";
        "Monitor symptoms closely" ] |}]
    else recommendations in
  let recommendations :=
    if gtb heart 0.5
    then recommendations ++ [{|
      category := "Cardiovascular Health";
      priority := "medium";
      rec_description := "Improve heart health through lifestyle changes";
      actionItems := [
        "Engage in 30 minutes of moderate exercise daily";
        "Reduce sodium intake to less than 2,300mg per day";
        "Monitor blood pressure regularly";
        "Consider stress reduction techniques" ] |}]
    else recommendations in
  let recommendations :=
    if gtb diabetes 0.5
    then recommendations ++ [{|
      category := "Metabolic Health";
      priority := "medium";
      rec_description := "Reduce diabetes risk";
      actionItems := [
        "Maintain healthy weight (BMI < 25)";
        "Limit refined carbohydrates and sugars";
        "Monitor blood glucose levels";
        "Increase fiber intake" ] |}]
    else recommendations in
  recommendations.

(** The part of [predict_comprehensive_risk] after the three
    assessments (lines 372 to 396). *)
Definition combine_risks (heart diabetes stroke : Prediction) : ComprehensiveRisk :=
  let '(heart_risk, heart_conf, heart_factors) := heart in
  let '(diabetes_risk, diabetes_conf, diabetes_factors) := diabetes in
  let '(stroke_risk, stroke_conf, stroke_factors) := stroke in
  (* Combine risks *)
  let overall_risk := heart_risk * 0.4 + diabetes_risk * 0.3 + stroke_risk * 0.3 in
  let overall_confidence := (heart_conf + diabetes_conf + stroke_conf) / 3 in
  (* Combine risk factors *)
  let all_factors := heart_factors ++ diabetes_factors ++ stroke_factors in
  (* Determine risk level *)
  let risk_level := RiskPredictor.determine_risk_level overall_risk in
  (* Generate recommendations *)
  let recommendations :=
    _generate_recommendations risk_level heart_risk diabetes_risk stroke_risk in
  {| riskLevel := risk_level;
     riskScore := overall_risk;
     confidence := overall_confidence;
     riskFactors := all_factors;
     primaryConcerns :=
       _identify_primary_concerns heart_risk diabetes_risk stroke_risk;
     recommendations := recommendations |}.

(** [predict_comprehensive_risk]. *)
Definition predict_comprehensive_risk (patient_data : Patient.t)
    (vitals_data : list Vital.t) : option ComprehensiveRisk :=
  heart ← _assess_heart_risk patient_data vitals_data;
  diabetes ← _assess_diabetes_risk patient_data vitals_data;
  stroke ← _assess_stroke_risk patient_data vitals_data;
  Some (combine_risks heart diabetes stroke).

End GeneralRiskPredictor.

(** ** NumPy operations *)

(** [np.sort]. *)
Definition np_sort (values : list float) : list float :=
  sort_by PrimFloat.leb values.

(** The summation of an array of fewer than 8 elements: NumPy adds
    them one after the other, starting from [-0.0]. *)
Definition np_sum_short (values : list float) : float :=
  foldl PrimFloat.add (-0) values.

(** [np.percentile(values, q)] by NumPy's default, linear method: the
    two order statistics around the index [(n - 1) * q / 100] and
    NumPy's interpolation between them. *)
Definition np_percentile_linear (values : list float) (q : float) : float :=
  let a := np_sort values in
  let virtual_index := of_nat (length a - 1) * (q / 100) in
  let previous := floor_index virtual_index in
  let next := Nat.min (previous + 1) (length a - 1) in
  let gamma := virtual_index - of_nat previous in
  let lo := nth previous a nan in
  let hi := nth next a nan in
  let diff := hi - lo in
  if 0.5 <=? gamma then hi - diff * (1 - gamma) else lo + diff * gamma.

(** One reading of a vitals series, as a row of the data frame. *)
Module Reading.

Record t : Type := {
  type : string;
  value : float;
  unit : string;
  timestamp : Z
}.

End Reading.

(** ** app/ml/vitals_analyzer.py *)

(** An entry of the list [_detect_anomalies] returns. *)
Module Anomaly.

Record t : Type := {
  timestamp : Z;
  value : float;
  severity : string;
  reason : text;
  deviation : float
}.

End Anomaly.

(** An entry of the table [normal_ranges]. *)
Module NormalRange.

Record t : Type := {
  min : float;
  max : float;
  unit : string
}.

End NormalRange.

(** The dictionary [_assess_vital_risk] returns. *)
Module RiskAssessment.

Record t : Type := {
  riskLevel : string;
  message : text;
  normalRange : option NormalRange.t;
  averageValue : option float;
  deviation : option float
}.

End RiskAssessment.

Module VitalsAnalyzer.

Section Analyzer.

(** [np.add.reduce]: the sum of an array. *)
Variable np_sum : list float → float.

(** [np.percentile]. *)
Variable np_percentile : list float → float → float.

(** [np.mean]: the sum over the length. *)
Definition np_mean (values : list float) : float :=
  np_sum values / of_nat (length values).

(** [np.var]: the mean of the squared deviations from the mean. *)
Definition np_var (values : list float) : float :=
  let arrmean := np_mean values in
  let x := map (fun v => v - arrmean) values in
  let x := map (fun d => d * d) x in
  np_sum x / of_nat (length values).

(** [np.std]: the square root of [np.var]. *)
Definition np_std (values : list float) : float := sqrt (np_var values).

(** The body of the loop of [_detect_anomalies] for one row and its
    z-score. *)
Definition anomaly_of_row (lower_bound upper_bound : float)
    (row : Reading.t) (z_score : float) : list Anomaly.t :=
  let value := Reading.value row in
  let timestamp := Reading.timestamp row in
  let is_anomaly := false in
  let reason : list text := [] in
  (* Z-score threshold (3 standard deviations) *)
  let '(is_anomaly, reason) :=
    if gtb z_score 3
    then (true, reason ++ [[Lit "Z-score: "; Fmt z_score ".2f"; Lit " (>3 SD)"]])
    else (is_anomaly, reason) in
  (* IQR threshold *)
  let '(is_anomaly, reason) :=
    if (value <? lower_bound) || gtb value upper_bound
    then (true, reason ++ [[Lit "Outside IQR bounds ["; Fmt lower_bound ".1f";
                            Lit ", "; Fmt upper_bound ".1f"; Lit "]"]])
    else (is_anomaly, reason) in
  if is_anomaly
  then [ {| Anomaly.timestamp := timestamp;
            Anomaly.value := value;
            Anomaly.severity := if gtb z_score 4 then "high" else "medium";
            Anomaly.reason := join [Lit "; "] reason;
            Anomaly.deviation := z_score |} ]
  else [].

(** [_detect_anomalies]. *)
Definition _detect_anomalies (df : list Reading.t) : list Anomaly.t :=
  let values := map Reading.value df in
  let mean := np_mean values in
  let std := np_std values in
  (* Z-score method *)
  let z_scores := map (fun v => abs ((v - mean) / std)) values in
  (* IQR method *)
  let q1 := np_percentile values 25 in
  let q3 := np_percentile values 75 in
  let iqr := q3 - q1 in
  let lower_bound := q1 - 1.5 * iqr in
  let upper_bound := q3 + 1.5 * iqr in
  concat (zip_with (anomaly_of_row lower_bound upper_bound) df z_scores).

End Analyzer.

(** The table [normal_ranges] of [_assess_vital_risk]. *)
Definition normal_ranges : gmap string NormalRange.t := {[
  "heartRate" :=
    {| NormalRange.min := 60; NormalRange.max := 100; NormalRange.unit := "bpm" |};
  "bloodPressureSystolic" :=
    {| NormalRange.min := 90; NormalRange.max := 120; NormalRange.unit := "mmHg" |};
  "bloodPressureDiastolic" :=
    {| NormalRange.min := 60; NormalRange.max := 80; NormalRange.unit := "mmHg" |};
  "oxygenSaturation" :=
    {| NormalRange.min := 95; NormalRange.max := 100; NormalRange.unit := "%" |};
  "temperature" :=
    {| NormalRange.min := 36.5; NormalRange.max := 37.5; NormalRange.unit := "Â°C" |};
  "respiratoryRate" :=
    {| NormalRange.min := 12; NormalRange.max := 20; NormalRange.unit := "brpm" |};
  "bloodGlucose" :=
    {| NormalRange.min := 70; NormalRange.max := 140; NormalRange.unit := "mg/dL" |}
]}.

(** [_assess_vital_risk]. *)
Definition _assess_vital_risk (vital_type : string)
    (statistics : gmap string float) (anomalies : list Anomaly.t)
    (trend : string) : option RiskAssessment.t :=
  match normal_ranges !! vital_type with
  | None =>
      Some {| RiskAssessment.riskLevel := "unknown";
              RiskAssessment.message := [Lit "Unknown vital type"];
              RiskAssessment.normalRange := None;
              RiskAssessment.averageValue := None;
              RiskAssessment.deviation := None |}
  | Some normal_range =>
      mean_value ← statistics !! "mean";
      let range_min := NormalRange.min normal_range in
      let range_max := NormalRange.max normal_range in
      (* Determine risk level *)
      let risk_level := "low" in
      let message := [Lit "Vital signs within normal range"] in
      let '(risk_level, message) :=
        if mean_value <? range_min then
          let deviation := ((range_min - mean_value) / range_min) * 100 in
          if gtb deviation 20
          then ("high", [Lit "Average "; Lit vital_type;
                         Lit " significantly below normal"])
          else if gtb deviation 10
          then ("medium", [Lit "Average "; Lit vital_type; Lit " below normal"])
          else (risk_level, message)
        else if gtb mean_value range_max then
          let deviation := ((mean_value - range_max) / range_max) * 100 in
          if gtb deviation 20
          then ("high", [Lit "Average "; Lit vital_type;
                         Lit " significantly above normal"])
          else if gtb deviation 10
          then ("medium", [Lit "Average "; Lit vital_type; Lit " above normal"])
          else (risk_level, message)
        else (risk_level, message) in
      (* Increase risk if many anomalies *)
      let '(risk_level, message) :=
        if (5 <? length anomalies)%nat
        then ("high",
              message ++ [Lit "; "; FmtInt (length anomalies) plain;
                          Lit " anomalies detected"])
        else if (2 <? length anomalies)%nat
        then (if String.eqb risk_level "low" then "medium" else risk_level,
              message ++ [Lit "; "; FmtInt (length anomalies) plain;
                          Lit " anomalies detected"])
        else (risk_level, message) in
      (* Consider trend *)
      let message :=
        if String.eqb trend "increasing" && gtb mean_value range_max
        then message ++ [Lit "; increasing trend"]
        else if String.eqb trend "decreasing" && (mean_value <? range_min)
        then message ++ [Lit "; decreasing trend"]
        else message in
      Some {| RiskAssessment.riskLevel := risk_level;
              RiskAssessment.message := message;
              RiskAssessment.normalRange := Some normal_range;
              RiskAssessment.averageValue := Some mean_value;
              RiskAssessment.deviation :=
                Some (abs (mean_value - (range_min + range_max) / 2)) |}
  end.

End VitalsAnalyzer.

Module AnomalyDetector.

(** An entry of the list [detect_sudden_changes] returns. *)
Record Change (T : Type) : Type := {
  timestamp : T;
  previous_value : float;
  current_value : float;
  change_percent : float;
  severity : string
}.
Arguments timestamp {T} _.
Arguments previous_value {T} _.
Arguments current_value {T} _.
Arguments change_percent {T} _.
Arguments severity {T} _.

(** The body of the loop of [detect_sudden_changes] at index [i];
    an index outside an array raises. *)
Definition sudden_change_step {T} (values : list float) (timestamps : list T)
    (threshold : float) (changes : list (Change T)) (i : nat)
    : option (list (Change T)) :=
  current ← values !! i;
  previous ← values !! (i - 1)%nat;
  (* Calculate percentage change *)
  let pct_change := abs (current - previous) / previous in
  if gtb pct_change threshold
  then
    ts ← timestamps !! i;
    Some (changes ++ [ {| timestamp := ts;
                          previous_value := previous;
                          current_value := current;
                          change_percent := pct_change * 100;
                          severity := if gtb pct_change 0.3 then "high" else "medium" |} ])
  else Some changes.

(** [detect_sudden_changes]: the loop over [range(1, len(values))]. *)
Definition detect_sudden_changes {T} (values : list float) (timestamps : list T)
    (threshold : float) : option (list (Change T)) :=
  foldl (fun acc i => changes ← acc; sudden_change_step values timestamps threshold changes i)
        (Some []) (seq 1 (length values - 1)).

End AnomalyDetector.

(** app/api/v1/anomalies.py: the handler of single-series detection. *)
Module AnomaliesApi.

(** The request schema [AnomalyDetectionRequest]. *)
Record AnomalyDetectionRequest : Type := {
  patientId : string;
  vitalType : string;
  values : list float;
  timestamps : list string;
  threshold : float
}.

(** The dictionary [detect_anomalies] returns. *)
Record DetectionResponse : Type := {
  r_patientId : string;
  r_vitalType : string;
  anomaliesDetected : nat;
  anomalies : list (AnomalyDetector.Change string);
  r_timestamp : Z
}.

(** [detect_anomalies]. *)
Definition detect_anomalies (request : AnomalyDetectionRequest) (now : Z)
    : HandlerResult DetectionResponse :=
  try_or_500 (
    (* Detect sudden changes *)
    sudden_changes ← AnomalyDetector.detect_sudden_changes
                       (values request) (timestamps request) (threshold request);
    Some {| r_patientId := patientId request;
            r_vitalType := vitalType request;
            anomaliesDetected := length sudden_changes;
            anomalies := sudden_changes;
            r_timestamp := now |}).

End AnomaliesApi.

End Binary64.

(** * Vocabulary of the properties

    Predicates, reference functions that follow the wording of the
    specification, example inputs, and computable instances of the two
    library functions the analyzer is parametrised by. *)

(** ** Bounds *)

(** All impacts of a factor list lie in the unit interval. *)
Definition impacts_bounded (factors : list RiskFactor) : Prop :=
  Forall (fun rf => 0 <= impact rf <= 1) factors.

(** ** Example patients and feature maps *)

(** The cardiovascular example whose contributions add up to 1.1. *)
Definition heart_capped_example : HeartDiseasePredictor.Data := {|
  HeartDiseasePredictor.age := Some 70;
  HeartDiseasePredictor.gender := None;
  HeartDiseasePredictor.chestPainType := None;
  HeartDiseasePredictor.restingBP := Some 150;
  HeartDiseasePredictor.cholesterol := Some 250;
  HeartDiseasePredictor.fastingBloodSugar := Some true;
  HeartDiseasePredictor.restingECG := None;
  HeartDiseasePredictor.maxHeartRate := None;
  HeartDiseasePredictor.exerciseInducedAngina := Some true;
  HeartDiseasePredictor.oldpeak := None;
  HeartDiseasePredictor.slope := None;
  HeartDiseasePredictor.numMajorVessels := None;
  HeartDiseasePredictor.thalassemia := None
|}.

(** A patient aged 70 with hypertension and heart disease who smokes. *)
Definition stroke_only_patient : Patient.t := {|
  Patient.age := Some 70;
  Patient.gender := None;
  Patient.bmi := None;
  Patient.chronicConditions := Some ["hypertension"; "heart disease"];
  Patient.smokingStatus := Some "smokes"
|}.

(** ** The most recent reading *)

(** The reading with the greatest timestamp among the readings of a
    type, in the words of the specification "the most recent reading of
    that type"; the later of two readings with equal timestamps wins. *)
Fixpoint most_recent_reading (vitals_data : list Vital.t) (vital_type : string)
    : option Vital.t :=
  match vitals_data with
  | [] => None
  | vital :: rest =>
      if bool_decide (Vital.type vital = Some vital_type) then
        match most_recent_reading rest vital_type with
        | Some later =>
            if (Vital.timestamp vital <=? Vital.timestamp later)%Z
            then Some later else Some vital
        | None => Some vital
        end
      else most_recent_reading rest vital_type
  end.

(** A list of readings in the order of their timestamps. *)
Fixpoint time_sorted (vitals_data : list Vital.t) : bool :=
  match vitals_data with
  | [] => true
  | vital :: rest =>
      match rest with
      | [] => true
      | next :: _ => (Vital.timestamp vital <=? Vital.timestamp next)%Z
      end && time_sorted rest
  end.

(** Two heart-rate readings, 72 at instant 1 and 95 at instant 2. *)
Definition two_heart_rates : list Vital.t := [
  {| Vital.type := Some "heartRate"; Vital.value := Some 72;
     Vital.unit := Some "bpm"; Vital.timestamp := 1 |};
  {| Vital.type := Some "heartRate"; Vital.value := Some 95;
     Vital.unit := Some "bpm"; Vital.timestamp := 2 |} ].

(** ** Series for the analyzer *)

(** A computable square root for running the analyzer: the root of the
    reduced fraction, rounded down to nine decimals. *)
Definition Qsqrt_approx (q : Q) : Q :=
  let r := Qred q in
  Z.sqrt (Qnum r * Zpos (Qden r) * 10 ^ 18) # (Qden r * 10 ^ 9).

(** Three readings of 98 at the instants 1, 2 and 3. *)
Definition three_equal_readings : list Reading.t := [
  {| Reading.type := "oxygenSaturation"; Reading.value := 98;
     Reading.unit := "%"; Reading.timestamp := 1 |};
  {| Reading.type := "oxygenSaturation"; Reading.value := 98;
     Reading.unit := "%"; Reading.timestamp := 2 |};
  {| Reading.type := "oxygenSaturation"; Reading.value := 98;
     Reading.unit := "%"; Reading.timestamp := 3 |} ].

(** The points (x, y) lie on the line y = a + b x: a series without
    noise. *)
Definition on_line (a b : Q) (x y : list Q) : Prop :=
  Forall2 (fun xi yi => yi == a + b * xi) x y.

(** The residual sum of squares of the least-squares line. *)
Definition residual_sum (x y : list Q) : Q :=
  let slope := linregress_slope x y in
  let intercept := linregress_intercept x y in
  Qsum (zip_with (fun xi yi =>
                    (yi - (intercept + slope * xi)) * (yi - (intercept + slope * xi)))
                 x y).

(** A computable stand-in for the p-value, for running the classifier:
    0 on an exact fit with a non-zero slope, 1 otherwise. *)
Definition exact_fit_pvalue (x y : list Q) : Q :=
  if Qeq_bool (residual_sum x y) 0 && negb (Qeq_bool (linregress_slope x y) 0)
  then 0 else 1.

(** ** Orders on levels and feature maps *)

(** The position of a level in the ordered enumeration. *)
Definition RiskLevel_rank (level : RiskLevel) : nat :=
  match level with
  | LOW => 0
  | MEDIUM => 1
  | HIGH => 2
  | CRITICAL => 3
  end.

(** The cardiovascular score as a function of the five features it
    reads. *)
Definition heart_score_of (age bp cholesterol : Q) (sugar angina : bool) : Q :=
  HeartDiseasePredictor._calculate_risk_score {|
    HeartDiseasePredictor.age := Some age;
    HeartDiseasePredictor.gender := None;
    HeartDiseasePredictor.chestPainType := None;
    HeartDiseasePredictor.restingBP := Some bp;
    HeartDiseasePredictor.cholesterol := Some cholesterol;
    HeartDiseasePredictor.fastingBloodSugar := Some sugar;
    HeartDiseasePredictor.restingECG := None;
    HeartDiseasePredictor.maxHeartRate := None;
    HeartDiseasePredictor.exerciseInducedAngina := Some angina;
    HeartDiseasePredictor.oldpeak := None;
    HeartDiseasePredictor.slope := None;
    HeartDiseasePredictor.numMajorVessels := None;
    HeartDiseasePredictor.thalassemia := None |}.

(** The metabolic score as a function of the four features it reads. *)
Definition diabetes_score_of (bmi glucose bp age : Q) : Q :=
  DiabetesPredictor._calculate_risk_score {|
    DiabetesPredictor.age := Some age;
    DiabetesPredictor.gender := None;
    DiabetesPredictor.bmi := Some bmi;
    DiabetesPredictor.glucoseLevel := Some glucose;
    DiabetesPredictor.bloodPressure := Some bp |}.

(** The cerebrovascular score as a function of the six features it
    reads. *)
Definition stroke_score_of (age glucose bmi : Q) (hypertension disease : bool)
    (status : option string) : Q :=
  StrokePredictor._calculate_risk_score {|
    StrokePredictor.age := Some age;
    StrokePredictor.gender := None;
    StrokePredictor.hypertension := Some hypertension;
    StrokePredictor.heartDisease := Some disease;
    StrokePredictor.avgGlucoseLevel := Some glucose;
    StrokePredictor.bmi := Some bmi;
    StrokePredictor.smokingStatus := status |}.

(** A flag that is on in the second map whenever it is on in the
    first. *)
Definition flag_le (a b : bool) : Prop := a = true → b = true.

(** The features of the second map are at least those of the first,
    after defaults. *)
Definition heart_features_le (d d' : HeartDiseasePredictor.Data) : Prop :=
  default 50 (HeartDiseasePredictor.age d) <= default 50 (HeartDiseasePredictor.age d')
  ∧ default 120 (HeartDiseasePredictor.restingBP d)
    <= default 120 (HeartDiseasePredictor.restingBP d')
  ∧ default 200 (HeartDiseasePredictor.cholesterol d)
    <= default 200 (HeartDiseasePredictor.cholesterol d')
  ∧ flag_le (default false (HeartDiseasePredictor.fastingBloodSugar d))
            (default false (HeartDiseasePredictor.fastingBloodSugar d'))
  ∧ flag_le (default false (HeartDiseasePredictor.exerciseInducedAngina d))
            (default false (HeartDiseasePredictor.exerciseInducedAngina d')).

Definition diabetes_features_le (d d' : DiabetesPredictor.Data) : Prop :=
  default 25 (DiabetesPredictor.bmi d) <= default 25 (DiabetesPredictor.bmi d')
  ∧ default 100 (DiabetesPredictor.glucoseLevel d)
    <= default 100 (DiabetesPredictor.glucoseLevel d')
  ∧ default 80 (DiabetesPredictor.bloodPressure d)
    <= default 80 (DiabetesPredictor.bloodPressure d')
  ∧ default 40 (DiabetesPredictor.age d) <= default 40 (DiabetesPredictor.age d').

Definition stroke_features_le (d d' : StrokePredictor.Data) : Prop :=
  default 50 (StrokePredictor.age d) <= default 50 (StrokePredictor.age d')
  ∧ default 100 (StrokePredictor.avgGlucoseLevel d)
    <= default 100 (StrokePredictor.avgGlucoseLevel d')
  ∧ default 25 (StrokePredictor.bmi d) <= default 25 (StrokePredictor.bmi d')
  ∧ flag_le (default false (StrokePredictor.hypertension d))
            (default false (StrokePredictor.hypertension d'))
  ∧ flag_le (default false (StrokePredictor.heartDisease d))
            (default false (StrokePredictor.heartDisease d'))
  ∧ flag_le (StrokePredictor.smoker d) (StrokePredictor.smoker d').

(** ** Further example inputs *)

(** A cardiovascular feature map of age 50 with fasting blood sugar set
    and nothing else. *)
Definition heart_unexplained_example : HeartDiseasePredictor.Data := {|
  HeartDiseasePredictor.age := Some 50;
  HeartDiseasePredictor.gender := None;
  HeartDiseasePredictor.chestPainType := None;
  HeartDiseasePredictor.restingBP := None;
  HeartDiseasePredictor.cholesterol := None;
  HeartDiseasePredictor.fastingBloodSugar := Some true;
  HeartDiseasePredictor.restingECG := None;
  HeartDiseasePredictor.maxHeartRate := None;
  HeartDiseasePredictor.exerciseInducedAngina := None;
  HeartDiseasePredictor.oldpeak := None;
  HeartDiseasePredictor.slope := None;
  HeartDiseasePredictor.numMajorVessels := None;
  HeartDiseasePredictor.thalassemia := None
|}.

(** The position of a vitals risk level in the order low, medium,
    high. *)
Definition vital_level_rank (level : string) : nat :=
  if String.eqb level "high" then 2
  else if String.eqb level "medium" then 1
  else 0.

(** ** Anomaly entries *)

(** The part of a reason the z-score rule writes. *)
Definition zscore_reason (z_score : npfloat) : text :=
  [Lit "Z-score: "; FmtNp z_score ".2f"; Lit " (>3 SD)"].

(** What every entry of [_detect_anomalies] satisfies: a severity of
    "high" or "medium", "high" exactly for a z-score above 4, a reason
    that is not empty, and one that starts with the z-score rule
    whenever the z-score exceeds 3. *)
Definition anomaly_well_formed (a : Anomaly.t) : Prop :=
  (Anomaly.severity a = "high" ∨ Anomaly.severity a = "medium")
  ∧ (Anomaly.severity a = "high" ↔ np_gt (Anomaly.deviation a) 4 = true)
  ∧ Anomaly.reason a ≠ []
  ∧ (np_gt (Anomaly.deviation a) 3 = true →
     ∃ rest, Anomaly.reason a = zscore_reason (Anomaly.deviation a) ++ rest).

(** ** Handler results *)

(** What a condition handler is shown to return: a response for the
    patient of the request, with a score in [0,1], the level derived
    from it, bounded impacts and no recommendations. *)
Definition handler_returns (result : HandlerResult PredictionsApi.RiskPredictionResponse)
    (patient_id : string) : Prop :=
  ∃ r, result = Returned r
       ∧ PredictionsApi.patientId r = patient_id
       ∧ 0 <= PredictionsApi.riskScore r <= 1
       ∧ PredictionsApi.riskLevel r
         = RiskPredictor.determine_risk_level (PredictionsApi.riskScore r)
       ∧ impacts_bounded (PredictionsApi.riskFactors r)
       ∧ PredictionsApi.recommendations r = None.

(** ** Vocabulary of the binary64 properties *)

(** The percent deviation of a mean from the boundary of the range it
    violates, in the words of the specification and in binary64
    arithmetic; 0 for a mean that is neither below nor above the
    range. *)
Definition percent_deviation (range : Binary64.NormalRange.t) (mean : float) : float :=
  if (mean <? Binary64.NormalRange.min range)%float
  then ((Binary64.NormalRange.min range - mean) / Binary64.NormalRange.min range * 100)%float
  else if (Binary64.NormalRange.max range <? mean)%float
  then ((mean - Binary64.NormalRange.max range) / Binary64.NormalRange.max range * 100)%float
  else 0%float.

(** The entry the specification describes for index [i]: present when
    the ratio |v[i] - v[i-1]| / v[i-1], computed in binary64, exceeds
    the threshold, with that ratio times 100 as change_percent and the
    severity "high" above 0.3. *)
Definition flagged_change {T} (values : list float) (timestamps : list T)
    (threshold : float) (i : nat) : list (Binary64.AnomalyDetector.Change T) :=
  match values !! i, values !! (i - 1)%nat, timestamps !! i with
  | Some current, Some previous, Some ts =>
      let ratio := (abs (current - previous) / previous)%float in
      if (threshold <? ratio)%float
      then [ {| Binary64.AnomalyDetector.timestamp := ts;
                Binary64.AnomalyDetector.previous_value := previous;
                Binary64.AnomalyDetector.current_value := current;
                Binary64.AnomalyDetector.change_percent := (ratio * 100)%float;
                Binary64.AnomalyDetector.severity :=
                  if (0.3 <? ratio)%float then "high" else "medium" |} ]
      else []
  | _, _, _ => []
  end.

(** The entries of the indices 1, ..., len(values) - 1, in order. *)
Definition sudden_changes_spec {T} (values : list float) (timestamps : list T)
    (threshold : float) : list (Binary64.AnomalyDetector.Change T) :=
  flat_map (flagged_change values timestamps threshold) (seq 1 (length values - 1)).

(** The change at index [i] exceeds the threshold, as the loop of
    [detect_sudden_changes] tests it. *)
Definition change_flagged (values : list float) (threshold : float) (i : nat) : bool :=
  match values !! i, values !! (i - 1)%nat with
  | Some current, Some previous =>
      Binary64.gtb (abs (current - previous) / previous)%float threshold
  | _, _ => false
  end.

(** A binary64 value that is [nan] or has the sign [s]. *)
Definition nan_or_signed (s : bool) (x : spec_float) : Prop :=
  match x with
  | S754_nan => True
  | S754_zero s' | S754_infinity s' | S754_finite s' _ _ => s' = s
  end.

(** An entry of [_detect_anomalies] that the z-score rule triggered:
    its reason starts with the text of that rule. *)
Definition zscore_triggered (a : Binary64.Anomaly.t) : Prop :=
  ∃ rest,
    Binary64.Anomaly.reason a
    = [Binary64.Lit "Z-score: "; Binary64.Fmt (Binary64.Anomaly.deviation a) ".2f";
       Binary64.Lit " (>3 SD)"] ++ rest.

(** Three readings of the same value [v], one instant apart. *)
Definition equal_readings (v : float) : list Binary64.Reading.t :=
  map (fun t => {| Binary64.Reading.type := "temperature";
                   Binary64.Reading.value := v;
                   Binary64.Reading.unit := "Â°C";
                   Binary64.Reading.timestamp := t |}) [1; 2; 3]%Z.

(** The float nearest to 0.1 * 2^-520. *)
Definition tiny_value : float := 0x1.999999999999ap-524%float.

(** A binary64 value that is a zero, a positive number or positive
    infinity. *)
Definition sf_nonneg (x : spec_float) : Prop :=
  match x with
  | S754_zero _ => True
  | S754_infinity s | S754_finite s _ _ => s = false
  | S754_nan => False
  end.

(** A float in the unit interval: what the schema fields declared
    [ge=0, le=1] accept. *)
Definition unit_interval (x : float) : bool := ((0 <=? x) && (x <=? 1))%float.

(** The impacts of a factor list lie in the unit interval. *)
Definition impacts_in_unit_interval (factors : list Binary64.RiskFactor) : Prop :=
  Forall (fun rf => unit_interval (Binary64.impact rf) = true) factors.

(** The patient history [PatientHistoryInput(age=45, gender="male")]
    gives as a dictionary: the keys [bmi] and [smokingStatus] hold
    [None]. *)
Definition patient_without_bmi : Binary64.Patient.t := {|
  Binary64.Patient.age := Some 45%float;
  Binary64.Patient.gender := Some "male";
  Binary64.Patient.bmi := Some None;
  Binary64.Patient.chronicConditions := Some [];
  Binary64.Patient.smokingStatus := Some None
|}.

(** The same history with a bmi of 25. *)
Definition patient_with_bmi : Binary64.Patient.t := {|
  Binary64.Patient.age := Some 45%float;
  Binary64.Patient.gender := Some "male";
  Binary64.Patient.bmi := Some (Some 25%float);
  Binary64.Patient.chronicConditions := Some [];
  Binary64.Patient.smokingStatus := Some None
|}.

(** The feature map [_assess_diabetes_risk] builds for the patient
    without bmi and no vitals. *)
Definition diabetes_features_without_bmi : Binary64.DiabetesPredictor.Data := {|
  Binary64.DiabetesPredictor.age := Some 45%float;
  Binary64.DiabetesPredictor.gender := Some "male";
  Binary64.DiabetesPredictor.bmi := Some None;
  Binary64.DiabetesPredictor.glucoseLevel := Some 100%float;
  Binary64.DiabetesPredictor.bloodPressure := Some 80%float
|}.

(** The feature map [_assess_stroke_risk] builds for the patient
    without bmi and no vitals. *)
Definition stroke_features_without_bmi : Binary64.StrokePredictor.Data := {|
  Binary64.StrokePredictor.age := Some 45%float;
  Binary64.StrokePredictor.gender := Some "male";
  Binary64.StrokePredictor.hypertension := Some false;
  Binary64.StrokePredictor.heartDisease := Some false;
  Binary64.StrokePredictor.avgGlucoseLevel := Some 100%float;
  Binary64.StrokePredictor.bmi := Some None;
  Binary64.StrokePredictor.smokingStatus := Some None
|}.

(** ** The scores a scorer can return *)

(** One step of a scorer: to each sum so far, add one of the weights of
    the step, or nothing. *)
Definition choices (weights : list float) (sums : list float) : list float :=
  flat_map (fun s => map (fun w => (s + w)%float) weights ++ [s]) sums.

(** The cap [min(score, 1.0)]. *)
Definition capped (sums : list float) : list float :=
  map (fun s => Binary64.py_min s 1) sums.

(** The sums of the cardiovascular scorer, step by step: age, blood
    pressure, cholesterol, fasting blood sugar, angina. *)
Definition heart_scores : list float :=
  capped (choices [0.2] (choices [0.15] (choices [0.2; 0.1]
    (choices [0.25; 0.15] (choices [0.3; 0.2; 0.1] [0.0])))))%float.

(** The sums of the metabolic scorer: bmi, glucose, blood pressure,
    age. *)
Definition diabetes_scores : list float :=
  capped (choices [0.15] (choices [0.15] (choices [0.4; 0.2]
    (choices [0.3; 0.15] [0.0]))))%float.

(** The sums of the cerebrovascular scorer: age, hypertension, heart
    disease, glucose, bmi, smoking. *)
Definition stroke_scores : list float :=
  capped (choices [0.15] (choices [0.1] (choices [0.15] (choices [0.25]
    (choices [0.25] (choices [0.3; 0.15] [0.0]))))))%float.

(** The cardiovascular scores the aggregator can obtain: it passes a
    cholesterol of 200, no fasting blood sugar and no angina key, which
    leaves the steps of age and blood pressure. *)
Definition aggregator_heart_scores : list float :=
  capped (choices [0.25; 0.15] (choices [0.3; 0.2; 0.1] [0.0]))%float.

(** [x] is one of [l], decided with the bitwise equality of floats. *)
Definition float_in (x : float) (l : list float) : bool :=
  existsb (PrimFloat.Leibniz.eqb x) l.

(** The overall score of three condition scores. *)
Definition weighted_score (heart diabetes stroke : float) : float :=
  (heart * 0.4 + diabetes * 0.3 + stroke * 0.3)%float.

(** A patient at the maximum of every score the aggregator can reach:
    age 70, a body mass index of 35, hypertension and heart disease, a
    smoker. *)
Definition maximal_patient : Binary64.Patient.t := {|
  Binary64.Patient.age := Some 70%float;
  Binary64.Patient.gender := Some "male";
  Binary64.Patient.bmi := Some (Some 35%float);
  Binary64.Patient.chronicConditions := Some ["hypertension"; "heart disease"];
  Binary64.Patient.smokingStatus := Some (Some "smokes")
|}.

(** The vitals of the maximal patient: a blood pressure of 150 and a
    blood glucose of 130. *)
Definition maximal_vitals : list Binary64.Vital.t := [
  {| Binary64.Vital.type := Some "bloodPressure"; Binary64.Vital.value := Some 150%float;
     Binary64.Vital.unit := Some "mmHg"; Binary64.Vital.timestamp := 1 |};
  {| Binary64.Vital.type := Some "bloodGlucose"; Binary64.Vital.value := Some 130%float;
     Binary64.Vital.unit := Some "mg/dL"; Binary64.Vital.timestamp := 1 |} ].

(** A cardiovascular feature map at the maximum of every step: the sum
    of the weights is 1.1. *)
Definition heart_features_maximal : Binary64.HeartDiseasePredictor.Data := {|
  Binary64.HeartDiseasePredictor.age := Some 70%float;
  Binary64.HeartDiseasePredictor.gender := Some "male";
  Binary64.HeartDiseasePredictor.chestPainType := None;
  Binary64.HeartDiseasePredictor.restingBP := Some 150%float;
  Binary64.HeartDiseasePredictor.cholesterol := Some 250%float;
  Binary64.HeartDiseasePredictor.fastingBloodSugar := Some true;
  Binary64.HeartDiseasePredictor.restingECG := None;
  Binary64.HeartDiseasePredictor.maxHeartRate := None;
  Binary64.HeartDiseasePredictor.exerciseInducedAngina := Some true;
  Binary64.HeartDiseasePredictor.oldpeak := None;
  Binary64.HeartDiseasePredictor.slope := None;
  Binary64.HeartDiseasePredictor.numMajorVessels := None;
  Binary64.HeartDiseasePredictor.thalassemia := None
|}.

(** A cardiovascular feature map of age 60 with a blood pressure of 135
    and nothing else: the sum of the weights is 0.35. *)
Definition heart_features_moderate : Binary64.HeartDiseasePredictor.Data := {|
  Binary64.HeartDiseasePredictor.age := Some 60%float;
  Binary64.HeartDiseasePredictor.gender := Some "female";
  Binary64.HeartDiseasePredictor.chestPainType := None;
  Binary64.HeartDiseasePredictor.restingBP := Some 135%float;
  Binary64.HeartDiseasePredictor.cholesterol := None;
  Binary64.HeartDiseasePredictor.fastingBloodSugar := None;
  Binary64.HeartDiseasePredictor.restingECG := None;
  Binary64.HeartDiseasePredictor.maxHeartRate := None;
  Binary64.HeartDiseasePredictor.exerciseInducedAngina := None;
  Binary64.HeartDiseasePredictor.oldpeak := None;
  Binary64.HeartDiseasePredictor.slope := None;
  Binary64.HeartDiseasePredictor.numMajorVessels := None;
  Binary64.HeartDiseasePredictor.thalassemia := None
|}.

(** A smoker of 70 with a bmi of 25, no chronic condition and no
    vitals: the condition scores are 0.3, 0.15 and 0.3 + 0.15. *)
Definition smoker_of_seventy : Binary64.Patient.t := {|
  Binary64.Patient.age := Some 70%float;
  Binary64.Patient.gender := Some "female";
  Binary64.Patient.bmi := Some (Some 25%float);
  Binary64.Patient.chronicConditions := Some [];
  Binary64.Patient.smokingStatus := Some (Some "smokes")
|}.

(** * Properties *)

(** ** Comparisons and the builtin [min] *)

Lemma Qgtb_true (x y : Q) : Qgtb x y = true ↔ y < x.
Proof.
  unfold Qgtb. rewrite negb_true_iff, <- not_true_iff_false, Qle_bool_iff.
  split; [apply Qnot_le_lt | apply Qlt_not_le].
Qed.

Lemma Qgtb_false (x y : Q) : Qgtb x y = false ↔ x <= y.
Proof.
  unfold Qgtb. rewrite negb_false_iff, Qle_bool_iff. reflexivity.
Qed.

Lemma Qltb_true (x y : Q) : Qltb x y = true ↔ x < y.
Proof. apply Qgtb_true. Qed.

Lemma Qltb_false (x y : Q) : Qltb x y = false ↔ y <= x.
Proof. apply Qgtb_false. Qed.

(** Case analysis on every comparison of the goal, keeping the order
    fact each outcome stands for. *)
Ltac qcase :=
  repeat match goal with
  | |- context [Qgtb ?x ?y] =>
      let H := fresh "Hcmp" in
      destruct (Qgtb x y) eqn:H;
      [apply Qgtb_true in H | apply Qgtb_false in H]
  | |- context [Qltb ?x ?y] =>
      let H := fresh "Hcmp" in
      destruct (Qltb x y) eqn:H;
      [apply Qltb_true in H | apply Qltb_false in H]
  end.

Lemma py_min_le_r (a b : Q) : py_min a b <= b.
Proof. unfold py_min. qcase; lra. Qed.

Lemma py_min_glb (a b c : Q) : c <= a → c <= b → c <= py_min a b.
Proof. unfold py_min. qcase; lra. Qed.

Lemma py_min_cap (a : Q) : 0 <= a → 0 <= py_min a 1.0 <= 1.
Proof. intros Ha. unfold py_min. qcase; lra. Qed.

(** ** The schema constructor accepts every impact in the unit interval *)

Lemma RiskFactor_new_Some (f : string) (i : Q) (d : text) :
  0 <= i <= 1 →
  RiskFactor_new f i d = Some {| factor := f; impact := i; description := d |}.
Proof.
  intros [H0 H1]. unfold RiskFactor_new.
  apply Qle_bool_iff in H0, H1. rewrite H0, H1. reflexivity.
Qed.

Lemma append_if_bounded (cond : bool) (f : string) (i : Q) (d : text)
    (factors : list RiskFactor) :
  (cond = true → 0 <= i <= 1) →
  impacts_bounded factors →
  ∃ factors', append_if cond (RiskFactor_new f i d) factors = Some factors'
              ∧ impacts_bounded factors'.
Proof.
  intros Hi Hfs. destruct cond; simpl.
  - rewrite RiskFactor_new_Some by auto. simpl. eexists; split; [reflexivity|].
    apply Forall_app; split; [assumption|]. constructor; [|constructor].
    simpl. auto.
  - eauto.
Qed.

(** A linear impact, capped: in the unit interval once the feature is
    above its threshold. *)
Lemma linear_impact_bounded (x threshold width cap : Q) :
  0 < width → 0 <= cap <= 1 →
  Qgtb x threshold = true →
  0 <= py_min ((x - threshold) / width) cap <= 1.
Proof.
  intros Hw [Hc0 Hc1] Hx. apply Qgtb_true in Hx. split.
  - apply py_min_glb; [|assumption].
    apply Qle_shift_div_l; [assumption|]. lra.
  - pose proof (py_min_le_r ((x - threshold) / width) cap). lra.
Qed.

(** ** The condition scorers are total and bounded *)

(** One conditional append of a scorer: it succeeds and keeps the
    impacts bounded. *)
Ltac step_append :=
  match goal with
  | |- context [append_if ?c (RiskFactor_new ?f ?i ?d) ?fs] =>
      let fs' := fresh "fs" in
      let E := fresh "E" in
      let B := fresh "B" in
      destruct (append_if_bounded c f i d fs) as (fs' & E & B);
      [ try (intros ?; apply linear_impact_bounded; [lra | lra | assumption]);
        try (intros _; lra)
      | try assumption; try constructor
      | rewrite E; simpl ]
  end.

Lemma heart_factors_total (data : HeartDiseasePredictor.Data) (risk_score : Q) :
  ∃ factors, HeartDiseasePredictor._identify_risk_factors data risk_score = Some factors
             ∧ impacts_bounded factors.
Proof.
  unfold HeartDiseasePredictor._identify_risk_factors.
  do 4 step_append. eauto.
Qed.

Lemma diabetes_factors_total (data : DiabetesPredictor.Data) (risk_score : Q) :
  ∃ factors, DiabetesPredictor._identify_risk_factors data risk_score = Some factors
             ∧ impacts_bounded factors.
Proof.
  unfold DiabetesPredictor._identify_risk_factors.
  do 2 step_append. eauto.
Qed.

Lemma stroke_factors_total (data : StrokePredictor.Data) (risk_score : Q) :
  ∃ factors, StrokePredictor._identify_risk_factors data risk_score = Some factors
             ∧ impacts_bounded factors.
Proof.
  unfold StrokePredictor._identify_risk_factors.
  do 3 step_append. eauto.
Qed.

Lemma heart_score_bounded (data : HeartDiseasePredictor.Data) :
  0 <= HeartDiseasePredictor._calculate_risk_score data <= 1.
Proof.
  unfold HeartDiseasePredictor._calculate_risk_score.
  apply py_min_cap.
  destruct (default false (HeartDiseasePredictor.fastingBloodSugar data)),
           (default false (HeartDiseasePredictor.exerciseInducedAngina data));
    qcase; lra.
Qed.

Lemma diabetes_score_bounded (data : DiabetesPredictor.Data) :
  0 <= DiabetesPredictor._calculate_risk_score data <= 1.
Proof.
  unfold DiabetesPredictor._calculate_risk_score.
  apply py_min_cap. qcase; lra.
Qed.

Lemma stroke_score_bounded (data : StrokePredictor.Data) :
  0 <= StrokePredictor._calculate_risk_score data <= 1.
Proof.
  unfold StrokePredictor._calculate_risk_score.
  apply py_min_cap.
  destruct (default false (StrokePredictor.hypertension data)),
           (default false (StrokePredictor.heartDisease data)),
           (StrokePredictor.smoker data);
    qcase; lra.
Qed.

Lemma heart_predict_total (data : HeartDiseasePredictor.Data) :
  ∃ factors,
    HeartDiseasePredictor.predict data
    = Some (HeartDiseasePredictor._calculate_risk_score data, 0.85, factors)
    ∧ impacts_bounded factors.
Proof.
  unfold HeartDiseasePredictor.predict.
  destruct (heart_factors_total data (HeartDiseasePredictor._calculate_risk_score data))
    as (fs & E & B).
  cbv zeta. rewrite E. simpl. eauto.
Qed.

Lemma diabetes_predict_total (data : DiabetesPredictor.Data) :
  ∃ factors,
    DiabetesPredictor.predict data
    = Some (DiabetesPredictor._calculate_risk_score data, 0.82, factors)
    ∧ impacts_bounded factors.
Proof.
  unfold DiabetesPredictor.predict.
  destruct (diabetes_factors_total data (DiabetesPredictor._calculate_risk_score data))
    as (fs & E & B).
  cbv zeta. rewrite E. simpl. eauto.
Qed.

Lemma stroke_predict_total (data : StrokePredictor.Data) :
  ∃ factors,
    StrokePredictor.predict data
    = Some (StrokePredictor._calculate_risk_score data, 0.80, factors)
    ∧ impacts_bounded factors.
Proof.
  unfold StrokePredictor.predict.
  destruct (stroke_factors_total data (StrokePredictor._calculate_risk_score data))
    as (fs & E & B).
  cbv zeta. rewrite E. simpl. eauto.
Qed.

(** ** Risk levels *)

(** C8: the risk level of a score is LOW exactly below 0.3, MEDIUM
    exactly from 0.3 up to (not including) 0.6, HIGH exactly from 0.6 up
    to (not including) 0.8 and CRITICAL exactly from 0.8 on; so the
    boundary scores 0.3, 0.6 and 0.8 are MEDIUM, HIGH and CRITICAL.  It
    holds for every score, in particular for those in [0,1]. *)
Theorem determine_risk_level_bands (s : Q) :
  (RiskPredictor.determine_risk_level s = LOW ↔ s < 0.3)
  ∧ (RiskPredictor.determine_risk_level s = MEDIUM ↔ 0.3 <= s ∧ s < 0.6)
  ∧ (RiskPredictor.determine_risk_level s = HIGH ↔ 0.6 <= s ∧ s < 0.8)
  ∧ (RiskPredictor.determine_risk_level s = CRITICAL ↔ 0.8 <= s)
  ∧ RiskPredictor.determine_risk_level 0.3 = MEDIUM
  ∧ RiskPredictor.determine_risk_level 0.6 = HIGH
  ∧ RiskPredictor.determine_risk_level 0.8 = CRITICAL.
Proof.
  assert (Hb : RiskPredictor.determine_risk_level 0.3 = MEDIUM
               ∧ RiskPredictor.determine_risk_level 0.6 = HIGH
               ∧ RiskPredictor.determine_risk_level 0.8 = CRITICAL)
    by (repeat split; reflexivity).
  revert Hb. generalize (RiskPredictor.determine_risk_level 0.3),
    (RiskPredictor.determine_risk_level 0.6), (RiskPredictor.determine_risk_level 0.8).
  intros l3 l6 l8 Hb.
  unfold RiskPredictor.determine_risk_level. simpl.
  qcase; (repeat split; [ .. | apply Hb | apply Hb | apply Hb ]);
    intros; try congruence; try lra.
Qed.

(** ** The risk aggregator *)

(** C10: for the patient aged 70 with hypertension and heart disease who
    smokes, and no vitals, the comprehensive assessment lists
    "Increased stroke risk" among the primary concerns and has no
    recommendation; in general the recommendations are empty exactly when
    the level is neither HIGH nor CRITICAL and neither the cardiovascular
    nor the metabolic score exceeds 0.5, and they never depend on the
    stroke score. *)
Theorem stroke_concern_without_recommendation :
  (∃ r, GeneralRiskPredictor.predict_comprehensive_risk stroke_only_patient [] = Some r
        ∧ "Increased stroke risk" ∈ primaryConcerns r
        ∧ recommendations r = [])
  ∧ (∀ level heart diabetes stroke,
       GeneralRiskPredictor._generate_recommendations level heart diabetes stroke = []
       ↔ (level ≠ HIGH ∧ level ≠ CRITICAL ∧ heart <= 0.5 ∧ diabetes <= 0.5))
  ∧ (∀ level heart diabetes stroke stroke',
       GeneralRiskPredictor._generate_recommendations level heart diabetes stroke
       = GeneralRiskPredictor._generate_recommendations level heart diabetes stroke').
Proof.
  split; [|split].
  - eexists. split; [vm_compute; reflexivity|]. split.
    + simpl. set_solver.
    + reflexivity.
  - intros level heart diabetes stroke.
    unfold GeneralRiskPredictor._generate_recommendations.
    destruct level; simpl; qcase; simpl; split;
      try (intros H; discriminate H);
      try (intros (H1 & H2 & H3 & H4); try congruence; lra);
      try (intros _; repeat split; try discriminate; lra).
  - reflexivity.
Qed.

(** ** The latest vital *)

(** The loop of [_get_latest_vital] returns the value of the first
    reading of the type in list order, and the default when there is
    none. *)
Lemma get_latest_vital_first_match (vitals_data : list Vital.t)
    (vital_type : string) (default_value : Q) :
  GeneralRiskPredictor._get_latest_vital vitals_data vital_type default_value
  = match filter (fun v => Vital.type v = Some vital_type) vitals_data with
    | [] => default_value
    | first :: _ => default default_value (Vital.value first)
    end.
Proof.
  induction vitals_data as [|vital rest IH]; [reflexivity|].
  simpl. rewrite filter_cons. case_bool_decide as Hty.
  - rewrite decide_True by assumption. reflexivity.
  - rewrite decide_False by assumption. apply IH.
Qed.

(** With no reading of the type the default is returned. *)
Lemma get_latest_vital_absent (vitals_data : list Vital.t)
    (vital_type : string) (default_value : Q) :
  Forall (fun v => Vital.type v ≠ Some vital_type) vitals_data →
  GeneralRiskPredictor._get_latest_vital vitals_data vital_type default_value
  = default_value.
Proof.
  induction 1 as [|vital rest Hty _ IH]; [reflexivity|].
  simpl. rewrite bool_decide_eq_false_2 by assumption. apply IH.
Qed.

(** C1 (the code departs from it): on the time-sorted list of a heart
    rate of 72 at instant 1 and one of 95 at instant 2, the most recent
    heart-rate reading holds 95, and [_get_latest_vital] returns 72, the
    oldest one. *)
Theorem get_latest_vital_returns_oldest :
  time_sorted two_heart_rates = true
  ∧ (Vital.value <$> most_recent_reading two_heart_rates "heartRate") = Some (Some 95)
  ∧ GeneralRiskPredictor._get_latest_vital two_heart_rates "heartRate" 150 = 72
  ∧ ¬ (72 == 95).
Proof.
  repeat split; try reflexivity. intros H; discriminate H.
Qed.

(** ** Trend analysis of an empty series *)

(** C9: on the empty series the trend analysis returns a result (it
    raises nothing): the statistics are the empty map, the trend is
    "no_data", and the anomalies and the forecast are empty. *)
Theorem analyze_trend_empty (np_sqrt : Q → Q)
    (linregress_pvalue : list Q → list Q → Q) (vital_type : string) (days : nat) :
  ∃ r, VitalsAnalyzer.analyze_trend np_sqrt linregress_pvalue [] vital_type days = Some r
       ∧ r = VitalsAnalyzer._empty_analysis
       ∧ TrendAnalysis.statistics r = ∅
       ∧ TrendAnalysis.trend r = "no_data"
       ∧ TrendAnalysis.anomalies r = []
       ∧ TrendAnalysis.forecast r = [].
Proof.
  eexists. repeat split; reflexivity.
Qed.

(** ** NumPy division *)

Lemma np_div_nonzero (a b : Q) : ¬ b == 0 → np_div a b = Finite (a / b).
Proof.
  intros Hb. unfold np_div.
  destruct (Qeq_bool b 0) eqn:E; [|reflexivity].
  apply Qeq_bool_iff in E. contradiction.
Qed.

(** ** Series of equal values *)

Lemma Qlen_pos {A} (l : list A) : l ≠ [] → 0 < Qlen l.
Proof.
  intros Hl. unfold Qlen. destruct l as [|x l]; [contradiction|].
  change 0 with (inject_Z 0). rewrite <- Zlt_Qlt. simpl length. lia.
Qed.

Lemma Qlen_cons {A} (x : A) (l : list A) : Qlen (x :: l) == 1 + Qlen l.
Proof.
  unfold Qlen. simpl length. rewrite Nat2Z.inj_succ, <- Z.add_1_l, inject_Z_plus.
  reflexivity.
Qed.

Lemma Qsum_const (v : Q) (l : list Q) :
  Forall (fun x => x == v) l → Qsum l == Qlen l * v.
Proof.
  induction 1 as [|x l Hx _ IH].
  - unfold Qlen. simpl. ring.
  - rewrite Qlen_cons. simpl. rewrite Hx, IH. ring.
Qed.

Lemma Qsum_zero (l : list Q) : Forall (fun x => x == 0) l → Qsum l == 0.
Proof. intros H. rewrite (Qsum_const 0) by assumption. ring. Qed.

Lemma np_mean_const (v : Q) (l : list Q) :
  l ≠ [] → Forall (fun x => x == v) l → np_mean l == v.
Proof.
  intros Hl Hv. unfold np_mean. rewrite (Qsum_const v) by assumption.
  pose proof (Qlen_pos l Hl). field. lra.
Qed.

Lemma insert_by_Forall {A} (P : A → Prop) (le : A → A → bool) (x : A) (l : list A) :
  P x → Forall P l → Forall P (insert_by le x l).
Proof.
  intros Hx. induction 1 as [|y l Hy Hl IH]; simpl.
  - repeat constructor. assumption.
  - destruct (le x y); repeat constructor; assumption.
Qed.

Lemma sort_by_Forall {A} (P : A → Prop) (le : A → A → bool) (l : list A) :
  Forall P l → Forall P (sort_by le l).
Proof.
  unfold sort_by. induction 1 as [|x l Hx _ IH]; simpl; [constructor|].
  apply insert_by_Forall; assumption.
Qed.

Lemma insert_by_length {A} (le : A → A → bool) (x : A) (l : list A) :
  length (insert_by le x l) = S (length l).
Proof.
  induction l as [|y l IH]; simpl; [reflexivity|].
  destruct (le x y); simpl; [reflexivity | rewrite IH; reflexivity].
Qed.

Lemma sort_by_length {A} (le : A → A → bool) (l : list A) :
  length (sort_by le l) = length l.
Proof.
  unfold sort_by. induction l as [|x l IH]; simpl; [reflexivity|].
  rewrite insert_by_length, IH. reflexivity.
Qed.

Lemma nth_Forall {A} (P : A → Prop) (l : list A) (i : nat) (d : A) :
  Forall P l → (i < length l)%nat → P (nth i l d).
Proof.
  intros Hl. revert i. induction Hl as [|x l Hx _ IH]; intros i Hi; simpl in *.
  - lia.
  - destruct i; [assumption | apply IH; lia].
Qed.

(** ** The trend classifier *)

Lemma Qsquare_nonneg (t : Q) : 0 <= t * t.
Proof. nra. Qed.

Lemma Qsquare_pos (t : Q) : 0 < t → 0 < (0 - t) * (0 - t).
Proof. intros Ht. nra. Qed.

Lemma Qsum_nonneg (l : list Q) : Forall (fun x => 0 <= x) l → 0 <= Qsum l.
Proof.
  induction 1 as [|x l Hx _ IH]; simpl; [lra|]. lra.
Qed.

Lemma Qsum_on_line (a b : Q) (x y : list Q) :
  on_line a b x y → Qsum y == Qlen x * a + b * Qsum x.
Proof.
  induction 1 as [|xi yi x y Hi _ IH].
  - unfold Qlen. simpl. ring.
  - rewrite Qlen_cons. simpl. rewrite Hi, IH. ring.
Qed.

Lemma np_mean_on_line (a b : Q) (x y : list Q) :
  x ≠ [] → on_line a b x y → np_mean y == a + b * np_mean x.
Proof.
  intros Hx Hline. unfold np_mean.
  assert (Qlen y = Qlen x) as ->.
  { unfold Qlen. rewrite (Forall2_length _ _ _ Hline). reflexivity. }
  rewrite (Qsum_on_line a b x y Hline).
  pose proof (Qlen_pos x Hx). field. lra.
Qed.

Lemma covariance_on_line (a b xm ym : Q) (x y : list Q) :
  on_line a b x y → ym == a + b * xm →
  Qsum (zip_with (fun xi yi => (xi - xm) * (yi - ym)) x y)
  == b * Qsum (map (fun xi => (xi - xm) * (xi - xm)) x).
Proof.
  intros Hline Hm. induction Hline as [|xi yi x y Hi _ IH]; simpl.
  - ring.
  - rewrite IH, Hi, Hm. ring.
Qed.

Lemma covariance_const (c xm ym : Q) (x y : list Q) :
  Forall (fun yi => yi == c) y → ym == c →
  Qsum (zip_with (fun xi yi => (xi - xm) * (yi - ym)) x y) == 0.
Proof.
  intros Hy Hm. revert x. induction Hy as [|yi y Hi _ IH]; intros [|xi x]; simpl;
    try ring.
  rewrite IH, Hi, Hm. ring.
Qed.

Lemma residuals_on_line (a b i s : Q) (x y : list Q) :
  on_line a b x y → i == a → s == b →
  Qsum (zip_with (fun xi yi => (yi - (i + s * xi)) * (yi - (i + s * xi))) x y) == 0.
Proof.
  intros Hline Hi Hs. induction Hline as [|xi yi x y Hxy _ IH]; simpl.
  - ring.
  - rewrite IH, Hxy, Hi, Hs. ring.
Qed.

Lemma np_arange_nonneg (k n : nat) :
  Forall (fun x => 0 <= x) (map (fun i : nat => inject_Z (Z.of_nat i)) (seq k n)).
Proof.
  apply Forall_map, Forall_forall. intros i _. simpl.
  change 0 with (inject_Z 0). rewrite <- Zle_Qle. lia.
Qed.

Lemma np_arange_length (n : nat) : length (np_arange n) = n.
Proof. unfold np_arange. rewrite length_map, length_seq. reflexivity. Qed.

(** The indices 0, ..., n-1 of at least two points have a positive mean
    and a positive sum of squared deviations. *)
Lemma np_arange_spread (n : nat) :
  (2 <= n)%nat →
  0 < Qsum (map (fun xi => (xi - np_mean (np_arange n)) * (xi - np_mean (np_arange n)))
                (np_arange n)).
Proof.
  intros Hn. destruct n as [|[|k]]; [lia | lia |].
  set (xm := np_mean (np_arange (S (S k)))).
  assert (Hxm : 0 < xm).
  { unfold xm, np_mean. apply Qlt_shift_div_l.
    - apply Qlen_pos. discriminate.
    - unfold np_arange. simpl seq. simpl map. simpl Qsum.
      pose proof (Qsum_nonneg _ (np_arange_nonneg 2 k)).
      change (inject_Z (Z.of_nat 0)) with 0.
      change (inject_Z (Z.of_nat 1)) with 1. lra. }
  unfold np_arange. simpl seq. simpl map. simpl Qsum.
  change (inject_Z (Z.of_nat 0)) with 0.
  assert (Hrest : 0 <= Qsum (map (fun xi => (xi - xm) * (xi - xm))
                     (map (fun i : nat => inject_Z (Z.of_nat i)) (seq 2 k)))).
  { apply Qsum_nonneg, Forall_map, Forall_forall. intros x _. apply Qsquare_nonneg. }
  pose proof (Qsquare_nonneg (inject_Z (Z.of_nat 1) - xm)).
  pose proof (Qsquare_pos xm Hxm).
  lra.
Qed.

Lemma linregress_slope_unfold (x y : list Q) :
  linregress_slope x y
  = (Qsum (zip_with (fun xi yi => (xi - np_mean x) * (yi - np_mean y)) x y)
     / Qlen (zip_with (fun xi yi => (xi - np_mean x) * (yi - np_mean y)) x y))
    / (Qsum (map (fun xi => (xi - np_mean x) * (xi - np_mean x)) x)
       / Qlen (map (fun xi => (xi - np_mean x) * (xi - np_mean x)) x)).
Proof. reflexivity. Qed.

(** The least-squares slope of points on a line over the indices
    0, ..., n-1 is the slope of the line. *)
Lemma linregress_slope_on_line (a b : Q) (n : nat) (y : list Q) :
  (2 <= n)%nat → on_line a b (np_arange n) y →
  linregress_slope (np_arange n) y == b.
Proof.
  intros Hn Hline.
  assert (Hne : np_arange n ≠ []).
  { intros E. apply (f_equal length) in E. rewrite np_arange_length in E.
    simpl in E. lia. }
  pose proof (np_mean_on_line a b _ _ Hne Hline) as Hym.
  pose proof (covariance_on_line a b _ _ _ _ Hline Hym) as Hcov.
  pose proof (np_arange_spread n Hn) as Hspread.
  pose proof (Qlen_pos _ Hne) as Hlen.
  rewrite linregress_slope_unfold.
  assert (Qlen (zip_with (fun xi yi => (xi - np_mean (np_arange n)) * (yi - np_mean y))
                  (np_arange n) y) = Qlen (np_arange n)) as ->.
  { unfold Qlen. rewrite length_zip_with_l_eq; [reflexivity|].
    apply (Forall2_length _ _ _ Hline). }
  assert (Qlen (map (fun xi => (xi - np_mean (np_arange n)) * (xi - np_mean (np_arange n)))
                  (np_arange n)) = Qlen (np_arange n)) as ->.
  { unfold Qlen. rewrite length_map. reflexivity. }
  rewrite Hcov. field. split; lra.
Qed.

(** The least-squares slope of a constant series is 0. *)
Lemma linregress_slope_const (c : Q) (x y : list Q) :
  y ≠ [] → Forall (fun yi => yi == c) y → linregress_slope x y == 0.
Proof.
  intros Hne Hy. rewrite linregress_slope_unfold.
  rewrite (covariance_const c _ _ x y Hy (np_mean_const c y Hne Hy)).
  unfold Qdiv. ring.
Qed.

(** The stand-in p-value is 0 on a line that is not constant. *)
Lemma exact_fit_pvalue_on_line (n : nat) (a b : Q) (y : list Q) :
  (3 <= n)%nat → on_line a b (np_arange n) y → ¬ b == 0 →
  exact_fit_pvalue (np_arange n) y <= 0.05.
Proof.
  intros Hn Hline Hb.
  assert (Hne : np_arange n ≠ []).
  { intros E. apply (f_equal length) in E. rewrite np_arange_length in E.
    simpl in E. lia. }
  assert (Hslope : linregress_slope (np_arange n) y == b)
    by (apply (linregress_slope_on_line a); [lia | assumption]).
  assert (Hint : linregress_intercept (np_arange n) y == a).
  { unfold linregress_intercept.
    rewrite (np_mean_on_line a b _ _ Hne Hline), Hslope. ring. }
  unfold exact_fit_pvalue.
  assert (Qeq_bool (residual_sum (np_arange n) y) 0 = true) as ->.
  { apply Qeq_bool_iff. unfold residual_sum. cbv zeta.
    apply (residuals_on_line a b); assumption. }
  assert (Qeq_bool (linregress_slope (np_arange n) y) 0 = false) as ->.
  { apply not_true_iff_false. rewrite Qeq_bool_iff. rewrite Hslope. exact Hb. }
  simpl. lra.
Qed.

Section TrendClassifier.

(** The p-value of [stats.linregress], and the one fact about it the
    classifier relies on: for at least three points that lie exactly on
    a line that is not horizontal the t-test is significant at 0.05 (the
    library reports a p-value of 0 up to rounding). *)
Variable linregress_pvalue : list Q → list Q → Q.
Hypothesis pvalue_exact_fit :
  ∀ (n : nat) (a b : Q) (y : list Q),
    (3 <= n)%nat → on_line a b (np_arange n) y → ¬ b == 0 →
    linregress_pvalue (np_arange n) y <= 0.05.


End TrendClassifier.


(** ** The model at work *)

(** The cardiovascular scorer on the capped example: score 1, confidence
    0.85 and the four factors age, blood pressure, cholesterol and
    angina. *)
Example heart_capped_prediction :
  ∃ score factors,
    HeartDiseasePredictor.predict heart_capped_example = Some (score, 0.85, factors)
    ∧ score == 1
    ∧ map factor factors
      = ["Age"; "High Blood Pressure"; "High Cholesterol"; "Exercise-Induced Angina"].
Proof.
  do 2 eexists. split; [vm_compute; reflexivity|]. split; reflexivity.
Qed.

(** The trend analysis of five heart rates rising by 2 a day: a mean of
    70, an increasing trend, no anomaly, three forecast points and a low
    risk. *)
Example analyze_trend_rising :
  let vitals := map (fun i : Z =>
                       {| Reading.type := "heartRate";
                          Reading.value := inject_Z (64 + 2 * i);
                          Reading.unit := "bpm";
                          Reading.timestamp := i |})
                    [3; 1; 2; 5; 4]%Z in
  ∃ r mean,
    VitalsAnalyzer.analyze_trend Qsqrt_approx exact_fit_pvalue vitals "heartRate" 7
    = Some r
    ∧ TrendAnalysis.statistics r !! "mean" = Some mean ∧ mean == 70
    ∧ TrendAnalysis.trend r = "increasing"
    ∧ TrendAnalysis.anomalies r = []
    ∧ map Forecast.period (TrendAnalysis.forecast r) = [1; 2; 3]%nat
    ∧ RiskAssessment.riskLevel (TrendAnalysis.riskAssessment r) = "low".
Proof.
  do 2 eexists. split; [vm_compute; reflexivity|].
  repeat split; reflexivity.
Qed.

(** * Further properties *)

(** ** Monotonicity of the levels and of the scores *)

(** X1: the risk level never drops when the score rises: a score at
    least as large gets a level at least as high in the order LOW,
    MEDIUM, HIGH, CRITICAL. *)
Theorem determine_risk_level_monotone (s s' : Q) :
  s <= s' →
  (RiskLevel_rank (RiskPredictor.determine_risk_level s)
   <= RiskLevel_rank (RiskPredictor.determine_risk_level s'))%nat.
Proof.
  intros Hs. unfold RiskPredictor.determine_risk_level. simpl.
  qcase; simpl; try lia; exfalso; lra.
Qed.

(** The score 0.2 is LOW and the larger score 0.7 is HIGH. *)
Lemma determine_risk_level_monotone_witness :
  (RiskLevel_rank (RiskPredictor.determine_risk_level 0.2)
   <= RiskLevel_rank (RiskPredictor.determine_risk_level 0.7))%nat.
Proof.
  apply (determine_risk_level_monotone 0.2 0.7). unfold Qle. simpl. lia.
Defined.

Lemma heart_score_of_data (d : HeartDiseasePredictor.Data) :
  HeartDiseasePredictor._calculate_risk_score d
  = heart_score_of (default 50 (HeartDiseasePredictor.age d))
      (default 120 (HeartDiseasePredictor.restingBP d))
      (default 200 (HeartDiseasePredictor.cholesterol d))
      (default false (HeartDiseasePredictor.fastingBloodSugar d))
      (default false (HeartDiseasePredictor.exerciseInducedAngina d)).
Proof. reflexivity. Qed.

Lemma diabetes_score_of_data (d : DiabetesPredictor.Data) :
  DiabetesPredictor._calculate_risk_score d
  = diabetes_score_of (default 25 (DiabetesPredictor.bmi d))
      (default 100 (DiabetesPredictor.glucoseLevel d))
      (default 80 (DiabetesPredictor.bloodPressure d))
      (default 40 (DiabetesPredictor.age d)).
Proof. reflexivity. Qed.

Lemma stroke_score_of_data (d : StrokePredictor.Data) :
  StrokePredictor._calculate_risk_score d
  = stroke_score_of (default 50 (StrokePredictor.age d))
      (default 100 (StrokePredictor.avgGlucoseLevel d))
      (default 25 (StrokePredictor.bmi d))
      (default false (StrokePredictor.hypertension d))
      (default false (StrokePredictor.heartDisease d))
      (StrokePredictor.smokingStatus d).
Proof. reflexivity. Qed.

(** One feature at a time, the others fixed. *)
Ltac one_feature :=
  cbv [heart_score_of diabetes_score_of stroke_score_of
       HeartDiseasePredictor._calculate_risk_score
       DiabetesPredictor._calculate_risk_score
       StrokePredictor._calculate_risk_score py_min]; simpl;
  qcase; try lra.

Lemma py_min_mono (a a' c : Q) : a <= a' → py_min a c <= py_min a' c.
Proof. intros H. unfold py_min. qcase; lra. Qed.

(** Reduce a score to its sum of contributions and compare the sums. *)
Ltac score_sums :=
  unfold heart_score_of, diabetes_score_of, stroke_score_of,
    HeartDiseasePredictor._calculate_risk_score,
    DiabetesPredictor._calculate_risk_score,
    StrokePredictor._calculate_risk_score, StrokePredictor.smoker;
  cbn [default from_option id
       HeartDiseasePredictor.age HeartDiseasePredictor.restingBP
       HeartDiseasePredictor.cholesterol HeartDiseasePredictor.fastingBloodSugar
       HeartDiseasePredictor.exerciseInducedAngina
       DiabetesPredictor.age DiabetesPredictor.bmi DiabetesPredictor.glucoseLevel
       DiabetesPredictor.bloodPressure
       StrokePredictor.age StrokePredictor.hypertension StrokePredictor.heartDisease
       StrokePredictor.avgGlucoseLevel StrokePredictor.bmi
       StrokePredictor.smokingStatus];
  apply py_min_mono.

Lemma heart_score_age (a a' bp ch : Q) (f g : bool) :
  a <= a' → heart_score_of a bp ch f g <= heart_score_of a' bp ch f g.
Proof. intros H. score_sums. destruct f, g; qcase; lra. Qed.

Lemma heart_score_bp (a bp bp' ch : Q) (f g : bool) :
  bp <= bp' → heart_score_of a bp ch f g <= heart_score_of a bp' ch f g.
Proof. intros H. score_sums. destruct f, g; qcase; lra. Qed.

Lemma heart_score_cholesterol (a bp ch ch' : Q) (f g : bool) :
  ch <= ch' → heart_score_of a bp ch f g <= heart_score_of a bp ch' f g.
Proof. intros H. score_sums. destruct f, g; qcase; lra. Qed.

Lemma heart_score_flags (a bp ch : Q) (f f' g g' : bool) :
  flag_le f f' → flag_le g g' →
  heart_score_of a bp ch f g <= heart_score_of a bp ch f' g'.
Proof.
  unfold flag_le. intros Hf Hg. score_sums.
  destruct f, f', g, g'; try (discriminate (Hf eq_refl));
    try (discriminate (Hg eq_refl)); qcase; lra.
Qed.

Lemma heart_score_monotone (d d' : HeartDiseasePredictor.Data) :
  heart_features_le d d' →
  HeartDiseasePredictor._calculate_risk_score d
  <= HeartDiseasePredictor._calculate_risk_score d'.
Proof.
  intros (Ha & Hb & Hc & Hf & Hg). rewrite !heart_score_of_data.
  eapply Qle_trans; [apply heart_score_age, Ha|].
  eapply Qle_trans; [apply heart_score_bp, Hb|].
  eapply Qle_trans; [apply heart_score_cholesterol, Hc|].
  apply heart_score_flags; assumption.
Qed.

Lemma diabetes_score_bmi (b b' gl bp a : Q) :
  b <= b' → diabetes_score_of b gl bp a <= diabetes_score_of b' gl bp a.
Proof. intros H. score_sums. qcase; lra. Qed.

Lemma diabetes_score_glucose (b gl gl' bp a : Q) :
  gl <= gl' → diabetes_score_of b gl bp a <= diabetes_score_of b gl' bp a.
Proof. intros H. score_sums. qcase; lra. Qed.

Lemma diabetes_score_bp (b gl bp bp' a : Q) :
  bp <= bp' → diabetes_score_of b gl bp a <= diabetes_score_of b gl bp' a.
Proof. intros H. score_sums. qcase; lra. Qed.

Lemma diabetes_score_age (b gl bp a a' : Q) :
  a <= a' → diabetes_score_of b gl bp a <= diabetes_score_of b gl bp a'.
Proof. intros H. score_sums. qcase; lra. Qed.

Lemma diabetes_score_monotone (d d' : DiabetesPredictor.Data) :
  diabetes_features_le d d' →
  DiabetesPredictor._calculate_risk_score d
  <= DiabetesPredictor._calculate_risk_score d'.
Proof.
  intros (Hb & Hg & Hp & Ha). rewrite !diabetes_score_of_data.
  eapply Qle_trans; [apply diabetes_score_bmi, Hb|].
  eapply Qle_trans; [apply diabetes_score_glucose, Hg|].
  eapply Qle_trans; [apply diabetes_score_bp, Hp|].
  apply diabetes_score_age, Ha.
Qed.

Lemma stroke_score_age (a a' gl b : Q) (h hd : bool) (st : option string) :
  a <= a' → stroke_score_of a gl b h hd st <= stroke_score_of a' gl b h hd st.
Proof.
  intros H. score_sums.
  destruct h, hd, (match st with Some s => _ | None => false end); qcase; lra.
Qed.

Lemma stroke_score_glucose (a gl gl' b : Q) (h hd : bool) (st : option string) :
  gl <= gl' → stroke_score_of a gl b h hd st <= stroke_score_of a gl' b h hd st.
Proof.
  intros H. score_sums.
  destruct h, hd, (match st with Some s => _ | None => false end); qcase; lra.
Qed.

Lemma stroke_score_bmi (a gl b b' : Q) (h hd : bool) (st : option string) :
  b <= b' → stroke_score_of a gl b h hd st <= stroke_score_of a gl b' h hd st.
Proof.
  intros H. score_sums.
  destruct h, hd, (match st with Some s => _ | None => false end); qcase; lra.
Qed.

Lemma stroke_score_flags (a gl b : Q) (h h' hd hd' : bool) (st st' : option string) :
  flag_le h h' → flag_le hd hd' →
  flag_le (match st with
           | Some s => bool_decide (s ∈ ["formerly smoked"; "smokes"])
           | None => false
           end)
          (match st' with
           | Some s => bool_decide (s ∈ ["formerly smoked"; "smokes"])
           | None => false
           end) →
  stroke_score_of a gl b h hd st <= stroke_score_of a gl b h' hd' st'.
Proof.
  unfold flag_le. intros Hh Hd Hs. score_sums.
  destruct h, h', hd, hd';
    try (discriminate (Hh eq_refl)); try (discriminate (Hd eq_refl));
    destruct (match st with Some s => _ | None => false end),
             (match st' with Some s => _ | None => false end);
    try (discriminate (Hs eq_refl)); qcase; lra.
Qed.

Lemma stroke_score_monotone (d d' : StrokePredictor.Data) :
  stroke_features_le d d' →
  StrokePredictor._calculate_risk_score d
  <= StrokePredictor._calculate_risk_score d'.
Proof.
  intros (Ha & Hg & Hb & Hh & Hd & Hs). rewrite !stroke_score_of_data.
  eapply Qle_trans; [apply stroke_score_age, Ha|].
  eapply Qle_trans; [apply stroke_score_glucose, Hg|].
  eapply Qle_trans; [apply stroke_score_bmi, Hb|].
  apply stroke_score_flags; assumption.
Qed.

(** X2: a condition score never drops when a numeric feature rises or
    a flag (fasting blood sugar, angina, hypertension, heart disease,
    smoking) is switched on, absent features counting as their defaults:
    this holds for the cardiovascular, the metabolic and the
    cerebrovascular scorer. *)
Theorem scores_monotone :
  (∀ d d', heart_features_le d d' →
     HeartDiseasePredictor._calculate_risk_score d
     <= HeartDiseasePredictor._calculate_risk_score d')
  ∧ (∀ d d', diabetes_features_le d d' →
       DiabetesPredictor._calculate_risk_score d
       <= DiabetesPredictor._calculate_risk_score d')
  ∧ (∀ d d', stroke_features_le d d' →
       StrokePredictor._calculate_risk_score d
       <= StrokePredictor._calculate_risk_score d').
Proof.
  split; [|split].
  - exact heart_score_monotone.
  - exact diabetes_score_monotone.
  - exact stroke_score_monotone.
Qed.

(** The same patient at 50 and at 70 years. *)
Lemma scores_monotone_witness :
  heart_score_of 50 120 200 false false <= heart_score_of 70 120 200 false false.
Proof.
  destruct scores_monotone as (Hheart & _ & _).
  apply (Hheart
    {| HeartDiseasePredictor.age := Some 50;
       HeartDiseasePredictor.gender := None;
       HeartDiseasePredictor.chestPainType := None;
       HeartDiseasePredictor.restingBP := None;
       HeartDiseasePredictor.cholesterol := None;
       HeartDiseasePredictor.fastingBloodSugar := None;
       HeartDiseasePredictor.restingECG := None;
       HeartDiseasePredictor.maxHeartRate := None;
       HeartDiseasePredictor.exerciseInducedAngina := None;
       HeartDiseasePredictor.oldpeak := None;
       HeartDiseasePredictor.slope := None;
       HeartDiseasePredictor.numMajorVessels := None;
       HeartDiseasePredictor.thalassemia := None |}
    {| HeartDiseasePredictor.age := Some 70;
       HeartDiseasePredictor.gender := None;
       HeartDiseasePredictor.chestPainType := None;
       HeartDiseasePredictor.restingBP := None;
       HeartDiseasePredictor.cholesterol := None;
       HeartDiseasePredictor.fastingBloodSugar := None;
       HeartDiseasePredictor.restingECG := None;
       HeartDiseasePredictor.maxHeartRate := None;
       HeartDiseasePredictor.exerciseInducedAngina := None;
       HeartDiseasePredictor.oldpeak := None;
       HeartDiseasePredictor.slope := None;
       HeartDiseasePredictor.numMajorVessels := None;
       HeartDiseasePredictor.thalassemia := None |}).
  unfold heart_features_le, flag_le. simpl.
  repeat split; try (intros H; exact H); unfold Qle; simpl; lia.
Defined.

(** ** Scores and their explanations *)

Lemma heart_factors_nonempty (d : HeartDiseasePredictor.Data) (s : Q)
    (fs : list RiskFactor) :
  HeartDiseasePredictor._identify_risk_factors d s = Some fs → fs ≠ [] →
  Qgtb (default 50 (HeartDiseasePredictor.age d)) 55 = true
  ∨ Qgtb (default 120 (HeartDiseasePredictor.restingBP d)) 130 = true
  ∨ Qgtb (default 200 (HeartDiseasePredictor.cholesterol d)) 200 = true
  ∨ default false (HeartDiseasePredictor.exerciseInducedAngina d) = true.
Proof.
  unfold HeartDiseasePredictor._identify_risk_factors, append_if. cbv zeta.
  destruct (Qgtb (default 50 _) 55); [auto|].
  destruct (Qgtb (default 120 _) 130); [auto|].
  destruct (Qgtb (default 200 _) 200); [auto|].
  destruct (default false _); [auto|].
  simpl. intros [= <-] Hne. contradiction.
Qed.

Lemma diabetes_factors_nonempty (d : DiabetesPredictor.Data) (s : Q)
    (fs : list RiskFactor) :
  DiabetesPredictor._identify_risk_factors d s = Some fs → fs ≠ [] →
  Qgtb (default 25 (DiabetesPredictor.bmi d)) 25 = true
  ∨ Qgtb (default 100 (DiabetesPredictor.glucoseLevel d)) 100 = true.
Proof.
  unfold DiabetesPredictor._identify_risk_factors, append_if. cbv zeta.
  destruct (Qgtb (default 25 _) 25); [auto|].
  destruct (Qgtb (default 100 _) 100); [auto|].
  simpl. intros [= <-] Hne. contradiction.
Qed.

Lemma stroke_factors_nonempty (d : StrokePredictor.Data) (s : Q)
    (fs : list RiskFactor) :
  StrokePredictor._identify_risk_factors d s = Some fs → fs ≠ [] →
  default false (StrokePredictor.hypertension d) = true
  ∨ default false (StrokePredictor.heartDisease d) = true
  ∨ StrokePredictor.smoker d = true.
Proof.
  unfold StrokePredictor._identify_risk_factors, append_if. cbv zeta.
  destruct (default false (StrokePredictor.hypertension d)); [auto|].
  destruct (default false (StrokePredictor.heartDisease d)); [auto|].
  destruct (StrokePredictor.smoker d); [auto|].
  simpl. intros [= <-] Hne. contradiction.
Qed.

Lemma predict_inv_heart (d : HeartDiseasePredictor.Data) (s c : Q)
    (fs : list RiskFactor) :
  HeartDiseasePredictor.predict d = Some (s, c, fs) →
  s = HeartDiseasePredictor._calculate_risk_score d
  ∧ HeartDiseasePredictor._identify_risk_factors d s = Some fs.
Proof.
  unfold HeartDiseasePredictor.predict. cbv zeta.
  destruct (HeartDiseasePredictor._identify_risk_factors d _) eqn:E; simpl;
    [|discriminate].
  intros [= <- <- <-]. auto.
Qed.

Lemma predict_inv_diabetes (d : DiabetesPredictor.Data) (s c : Q)
    (fs : list RiskFactor) :
  DiabetesPredictor.predict d = Some (s, c, fs) →
  s = DiabetesPredictor._calculate_risk_score d
  ∧ DiabetesPredictor._identify_risk_factors d s = Some fs.
Proof.
  unfold DiabetesPredictor.predict. cbv zeta.
  destruct (DiabetesPredictor._identify_risk_factors d _) eqn:E; simpl;
    [|discriminate].
  intros [= <- <- <-]. auto.
Qed.

Lemma predict_inv_stroke (d : StrokePredictor.Data) (s c : Q)
    (fs : list RiskFactor) :
  StrokePredictor.predict d = Some (s, c, fs) →
  s = StrokePredictor._calculate_risk_score d
  ∧ StrokePredictor._identify_risk_factors d s = Some fs.
Proof.
  unfold StrokePredictor.predict. cbv zeta.
  destruct (StrokePredictor._identify_risk_factors d _) eqn:E; simpl;
    [|discriminate].
  intros [= <- <- <-]. auto.
Qed.

(** X3: a scorer that reports a risk factor has a score to go with it:
    at least 0.1 for the cardiovascular scorer and at least 0.15 for the
    metabolic and the cerebrovascular one.  The converse fails: a
    cardiovascular map of age 50 with fasting blood sugar set scores
    0.25 and reports no factor. *)
Theorem factors_imply_score :
  (∀ d s c fs, HeartDiseasePredictor.predict d = Some (s, c, fs) → fs ≠ [] →
     0.1 <= s)
  ∧ (∀ d s c fs, DiabetesPredictor.predict d = Some (s, c, fs) → fs ≠ [] →
       0.15 <= s)
  ∧ (∀ d s c fs, StrokePredictor.predict d = Some (s, c, fs) → fs ≠ [] →
       0.15 <= s)
  ∧ (∃ s c, HeartDiseasePredictor.predict heart_unexplained_example = Some (s, c, [])
            ∧ s == 0.25).
Proof.
  split; [|split; [|split]].
  - intros d s c fs Hp Hne. apply predict_inv_heart in Hp as [-> Hfs].
    pose proof (heart_factors_nonempty _ _ _ Hfs Hne) as Hc.
    unfold HeartDiseasePredictor._calculate_risk_score, py_min.
    destruct Hc as [Hc|[Hc|[Hc|Hc]]];
      try (apply Qgtb_true in Hc);
      try rewrite Hc;
      destruct (default false (HeartDiseasePredictor.fastingBloodSugar d));
      try destruct (default false (HeartDiseasePredictor.exerciseInducedAngina d));
      qcase; lra.
  - intros d s c fs Hp Hne. apply predict_inv_diabetes in Hp as [-> Hfs].
    pose proof (diabetes_factors_nonempty _ _ _ Hfs Hne) as Hc.
    unfold DiabetesPredictor._calculate_risk_score, py_min.
    destruct Hc as [Hc|Hc]; apply Qgtb_true in Hc; qcase; lra.
  - intros d s c fs Hp Hne. apply predict_inv_stroke in Hp as [-> Hfs].
    pose proof (stroke_factors_nonempty _ _ _ Hfs Hne) as Hc.
    unfold StrokePredictor._calculate_risk_score, py_min.
    destruct Hc as [Hc|[Hc|Hc]]; rewrite Hc;
      try destruct (default false (StrokePredictor.hypertension d));
      try destruct (default false (StrokePredictor.heartDisease d));
      try destruct (StrokePredictor.smoker d);
      qcase; lra.
  - do 2 eexists. split; [vm_compute; reflexivity | reflexivity].
Qed.

(** ** Concerns and recommendations *)

(** X5: the primary concerns are never empty and never more than
    three; each condition's message is listed exactly when its score
    exceeds 0.6, and "Overall health status is good" exactly when no
    score does. *)
Theorem primary_concerns_spec (heart diabetes stroke : Q) :
  let concerns :=
    GeneralRiskPredictor._identify_primary_concerns heart diabetes stroke in
  concerns ≠ []
  ∧ (length concerns <= 3)%nat
  ∧ ("Elevated cardiovascular disease risk" ∈ concerns ↔ 0.6 < heart)
  ∧ ("High diabetes risk" ∈ concerns ↔ 0.6 < diabetes)
  ∧ ("Increased stroke risk" ∈ concerns ↔ 0.6 < stroke)
  ∧ ("Overall health status is good" ∈ concerns
     ↔ heart <= 0.6 ∧ diabetes <= 0.6 ∧ stroke <= 0.6).
Proof.
  unfold GeneralRiskPredictor._identify_primary_concerns.
  qcase; simpl; (split; [discriminate|]); (split; [lia|]);
    rewrite !list_elem_of_In; simpl;
    repeat split; intros; try lra; try tauto;
    repeat match goal with
    | H : _ ∨ _ |- _ => destruct H
    | H : False |- _ => destruct H
    | H : _ = _ |- _ => discriminate H
    end.
Qed.

(** X6: in the combined assessment the recommendations start with
    "Immediate Action" exactly when the overall score is at least 0.6
    (the level HIGH or CRITICAL), and then there is at least one; there
    are never more than three. *)
Theorem immediate_action_first (heart diabetes stroke : Prediction) :
  let r := GeneralRiskPredictor.combine_risks heart diabetes stroke in
  (category <$> head (recommendations r) = Some "Immediate Action"
   ↔ 0.6 <= riskScore r)
  ∧ (0.6 <= riskScore r ↔ riskLevel r = HIGH ∨ riskLevel r = CRITICAL)
  ∧ (length (recommendations r) <= 3)%nat.
Proof.
  destruct heart as [[hs hc] hf], diabetes as [[ds dc] df], stroke as [[ss sc] sf].
  unfold GeneralRiskPredictor.combine_risks. cbv zeta. simpl.
  set (overall := hs * 0.4 + ds * 0.3 + ss * 0.3).
  unfold RiskPredictor.determine_risk_level,
    GeneralRiskPredictor._generate_recommendations. simpl.
  destruct (Qltb overall 0.3) eqn:H3; [|destruct (Qltb overall 0.6) eqn:H6;
    [|destruct (Qltb overall 0.8) eqn:H8]];
    try apply Qltb_true in H3; try apply Qltb_false in H3;
    try apply Qltb_true in H6; try apply Qltb_false in H6;
    try apply Qltb_true in H8; try apply Qltb_false in H8;
    simpl; destruct (Qgtb hs 0.5), (Qgtb ds 0.5); simpl;
    repeat split; intros; try reflexivity; try lra; try lia;
    try discriminate; auto;
    repeat match goal with
    | H : _ ∨ _ |- _ => destruct H
    | H : _ = _ |- _ => discriminate H
    end.
Qed.

(** ** Escalation by the anomaly count *)

(** Case analysis on the conditions of a goal, outermost first. *)
Ltac destruct_ifs :=
  repeat match goal with
  | |- context [if ?c then _ else _] =>
      lazymatch c with
      | context [if _ then _ else _] => fail
      | _ => let E := fresh "E" in destruct c eqn:E
      end
  end.

(** X7: for a known vital type and a mean, the anomalies only ever
    raise the level: the level with anomalies is at least the level
    without, it is "high" with more than 5 anomalies, never "low" with
    more than 2, and unchanged with at most 2; the trend changes the
    message only, never the level. *)
Theorem anomalies_escalate (vital_type : string) (range : NormalRange.t)
    (statistics : gmap string Q) (mean : Q) (anomalies : list Anomaly.t)
    (trend trend' : string) :
  VitalsAnalyzer.normal_ranges !! vital_type = Some range →
  statistics !! "mean" = Some mean →
  ∃ r0 r r',
    VitalsAnalyzer._assess_vital_risk vital_type statistics [] trend = Some r0
    ∧ VitalsAnalyzer._assess_vital_risk vital_type statistics anomalies trend = Some r
    ∧ VitalsAnalyzer._assess_vital_risk vital_type statistics anomalies trend' = Some r'
    ∧ (vital_level_rank (RiskAssessment.riskLevel r0)
       <= vital_level_rank (RiskAssessment.riskLevel r))%nat
    ∧ ((5 < length anomalies)%nat → RiskAssessment.riskLevel r = "high")
    ∧ ((2 < length anomalies)%nat → RiskAssessment.riskLevel r ≠ "low")
    ∧ ((length anomalies <= 2)%nat →
       RiskAssessment.riskLevel r = RiskAssessment.riskLevel r0)
    ∧ RiskAssessment.riskLevel r' = RiskAssessment.riskLevel r.
Proof.
  intros Hrange Hmean.
  unfold VitalsAnalyzer._assess_vital_risk. rewrite Hrange, Hmean.
  cbn [mbind option_bind length].
  change (5 <? 0)%nat with false. change (2 <? 0)%nat with false.
  destruct (5 <? length anomalies)%nat eqn:H5;
    [apply Nat.ltb_lt in H5 | apply Nat.ltb_ge in H5];
    (destruct (2 <? length anomalies)%nat eqn:H2;
      [apply Nat.ltb_lt in H2 | apply Nat.ltb_ge in H2]);
    try lia;
    destruct (Qltb mean (NormalRange.min range));
    destruct (Qgtb mean (NormalRange.max range));
    destruct_ifs;
    do 3 eexists; (split; [reflexivity|]); (split; [reflexivity|]);
    (split; [reflexivity|]); cbn;
    repeat split; intros; try reflexivity; try lia; try discriminate.
Qed.

(** Seven anomalies turn a heart rate with mean 80 from low to high. *)
Lemma anomalies_escalate_witness :
  ∃ r0 r,
    VitalsAnalyzer._assess_vital_risk "heartRate" {[ "mean" := 80 ]} [] "stable" = Some r0
    ∧ VitalsAnalyzer._assess_vital_risk "heartRate" {[ "mean" := 80 ]}
        (replicate 7 {| Anomaly.timestamp := 0; Anomaly.value := 80;
                        Anomaly.severity := "medium"; Anomaly.reason := [];
                        Anomaly.deviation := NaN |}) "stable" = Some r
    ∧ RiskAssessment.riskLevel r0 = "low"
    ∧ RiskAssessment.riskLevel r = "high".
Proof.
  destruct (anomalies_escalate "heartRate"
              {| NormalRange.min := 60; NormalRange.max := 100;
                 NormalRange.unit := "bpm" |}
              {[ "mean" := 80 ]} 80
              (replicate 7 {| Anomaly.timestamp := 0; Anomaly.value := 80;
                              Anomaly.severity := "medium"; Anomaly.reason := [];
                              Anomaly.deviation := NaN |})
              "stable" "stable")
    as (r0 & r & r' & H0 & Hr & _ & _ & Hhigh & _).
  - reflexivity.
  - reflexivity.
  - exists r0, r. split; [exact H0|]. split; [exact Hr|]. split.
    + vm_compute in H0. injection H0 as <-. reflexivity.
    + apply Hhigh. simpl. lia.
Defined.

(** X8: a vital type outside the table of normal ranges is answered
    with the level "unknown" whatever the statistics hold, even none;
    for a type of the table the statistics must hold a mean: without it
    the assessment raises. *)
Theorem unknown_type_or_missing_mean (vital_type : string)
    (statistics : gmap string Q) (anomalies : list Anomaly.t) (trend : string) :
  (VitalsAnalyzer.normal_ranges !! vital_type = None →
   ∃ r, VitalsAnalyzer._assess_vital_risk vital_type statistics anomalies trend = Some r
        ∧ RiskAssessment.riskLevel r = "unknown"
        ∧ RiskAssessment.normalRange r = None
        ∧ RiskAssessment.averageValue r = None)
  ∧ (is_Some (VitalsAnalyzer.normal_ranges !! vital_type) →
     statistics !! "mean" = None →
     VitalsAnalyzer._assess_vital_risk vital_type statistics anomalies trend = None)
  ∧ (VitalsAnalyzer.normal_ranges !! vital_type = None
     ↔ vital_type ∉ ["heartRate"; "bloodPressureSystolic"; "bloodPressureDiastolic";
                     "oxygenSaturation"; "temperature"; "respiratoryRate";
                     "bloodGlucose"]).
Proof.
  split; [|split].
  - intros Hnone. unfold VitalsAnalyzer._assess_vital_risk. rewrite Hnone.
    eexists. repeat split; reflexivity.
  - intros [range Hrange] Hmean. unfold VitalsAnalyzer._assess_vital_risk.
    rewrite Hrange, Hmean. reflexivity.
  - rewrite <- not_elem_of_dom. unfold VitalsAnalyzer.normal_ranges.
    rewrite !dom_insert_L, dom_singleton_L.
    rewrite !not_elem_of_union, !not_elem_of_singleton, !not_elem_of_cons.
    pose proof (not_elem_of_nil vital_type). tauto.
Qed.

(** ** Descriptive statistics *)

Lemma foldl_min_spec (rest : list Q) (v : Q) :
  let m := foldl (fun acc w => if Qltb w acc then w else acc) v rest in
  m <= v ∧ Forall (fun x => m <= x) rest ∧ (m = v ∨ m ∈ rest).
Proof.
  revert v. induction rest as [|w rest IH]; intros v; simpl.
  - split; [lra|]. split; [constructor | left; reflexivity].
  - destruct (Qltb w v) eqn:E;
      [apply Qltb_true in E | apply Qltb_false in E];
      [destruct (IH w) as (H1 & H2 & H3) | destruct (IH v) as (H1 & H2 & H3)].
    + split; [lra|]. split.
      * constructor; [assumption|assumption].
      * right. destruct H3 as [->|H3]; [left | right; assumption].
    + split; [assumption|]. split.
      * constructor; [lra | assumption].
      * destruct H3 as [H3|H3]; [left; assumption | right; right; assumption].
Qed.

Lemma foldl_max_spec (rest : list Q) (v : Q) :
  let m := foldl (fun acc w => if Qgtb w acc then w else acc) v rest in
  v <= m ∧ Forall (fun x => x <= m) rest ∧ (m = v ∨ m ∈ rest).
Proof.
  revert v. induction rest as [|w rest IH]; intros v; simpl.
  - split; [lra|]. split; [constructor | left; reflexivity].
  - destruct (Qgtb w v) eqn:E;
      [apply Qgtb_true in E | apply Qgtb_false in E];
      [destruct (IH w) as (H1 & H2 & H3) | destruct (IH v) as (H1 & H2 & H3)].
    + split; [lra|]. split.
      * constructor; [assumption|assumption].
      * right. destruct H3 as [->|H3]; [left | right; assumption].
    + split; [assumption|]. split.
      * constructor; [lra | assumption].
      * destruct H3 as [H3|H3]; [left; assumption | right; right; assumption].
Qed.

(** [np.min] and [np.max] return elements that bound the array. *)
Lemma np_min_max_spec (values : list Q) :
  values ≠ [] →
  ∃ mn mx, np_min values = Some mn ∧ np_max values = Some mx
           ∧ mn ∈ values ∧ mx ∈ values
           ∧ Forall (fun v => mn <= v <= mx) values.
Proof.
  destruct values as [|v rest]; [contradiction|]. intros _.
  destruct (foldl_min_spec rest v) as (Hm1 & Hm2 & Hm3).
  destruct (foldl_max_spec rest v) as (HM1 & HM2 & HM3).
  do 2 eexists. split; [reflexivity|]. split; [reflexivity|].
  split; [|split].
  - destruct Hm3 as [->|Hm3]; [left | right; assumption].
  - destruct HM3 as [->|HM3]; [left | right; assumption].
  - constructor; [split; assumption|].
    rewrite Forall_forall in Hm2, HM2. apply Forall_forall. intros x Hx.
    split; [apply Hm2 | apply HM2]; assumption.
Qed.

(** ** The forecast *)


(** ** Entries of the statistical detector *)

Lemma np_gt_mono (z : npfloat) (c c' : Q) :
  c <= c' → np_gt z c' = true → np_gt z c = true.
Proof.
  intros Hc. destruct z; simpl; try (intros H; exact H).
  intros H. apply Qgtb_true in H. apply Qgtb_true. lra.
Qed.

Lemma anomaly_of_row_spec (lower_bound upper_bound : Q) (row : Reading.t)
    (z_score : npfloat) :
  VitalsAnalyzer.anomaly_of_row lower_bound upper_bound row z_score = []
  ∨ ∃ a, VitalsAnalyzer.anomaly_of_row lower_bound upper_bound row z_score = [a]
         ∧ Anomaly.timestamp a = Reading.timestamp row
         ∧ Anomaly.value a = Reading.value row
         ∧ Anomaly.deviation a = z_score
         ∧ anomaly_well_formed a.
Proof.
  unfold VitalsAnalyzer.anomaly_of_row, anomaly_well_formed, zscore_reason.
  cbv zeta.
  destruct (np_gt z_score 3) eqn:H3;
    destruct (Qltb (Reading.value row) lower_bound || Qgtb (Reading.value row) upper_bound);
    cbn [app join]; [right | right | right | left; reflexivity];
    eexists; (split; [reflexivity|]);
    cbn [Anomaly.timestamp Anomaly.value Anomaly.deviation Anomaly.severity
         Anomaly.reason];
    (split; [reflexivity|]); (split; [reflexivity|]); (split; [reflexivity|]);
    destruct (np_gt z_score 4) eqn:H4;
    try (apply (np_gt_mono z_score 3 4) in H4; [congruence | lra]);
    repeat split; intros; try discriminate; try congruence; auto;
    try (eexists; reflexivity).
Qed.

Lemma detect_rows_spec (lower_bound upper_bound : Q) (df : list Reading.t)
    (z_scores : list npfloat) :
  let anomalies :=
    concat (zip_with (VitalsAnalyzer.anomaly_of_row lower_bound upper_bound)
                     df z_scores) in
  map (fun a => (Anomaly.timestamp a, Anomaly.value a)) anomalies
    `sublist_of` map (fun row => (Reading.timestamp row, Reading.value row)) df
  ∧ Forall anomaly_well_formed anomalies.
Proof.
  revert z_scores. induction df as [|row df IH]; intros [|z zs]; simpl;
    try (split; [apply sublist_nil_l | constructor]).
  destruct (IH zs) as [Hsub Hwf].
  destruct (anomaly_of_row_spec lower_bound upper_bound row z)
    as [->|(a & -> & Hts & Hv & _ & Ha)]; simpl.
  - split; [apply sublist_cons; exact Hsub | exact Hwf].
  - rewrite Hts, Hv. split; [apply sublist_skip; exact Hsub|].
    constructor; assumption.
Qed.

(** X11: the entries of the statistical detector are readings of the
    series, in the order of the series and at most one per reading; an
    entry is of severity "high" exactly when its z-score exceeds 4 and
    "medium" otherwise, its reason is never empty, and whenever the
    z-score exceeds 3 (so for every "high" entry) the reason starts with
    the z-score rule. *)
Theorem detected_anomalies_well_formed (np_sqrt : Q → Q) (df : list Reading.t) :
  let anomalies := VitalsAnalyzer._detect_anomalies np_sqrt df in
  map (fun a => (Anomaly.timestamp a, Anomaly.value a)) anomalies
    `sublist_of` map (fun row => (Reading.timestamp row, Reading.value row)) df
  ∧ (length anomalies <= length df)%nat
  ∧ Forall anomaly_well_formed anomalies.
Proof.
  unfold VitalsAnalyzer._detect_anomalies. cbv zeta.
  match goal with |- context [zip_with (VitalsAnalyzer.anomaly_of_row ?lo ?hi) df ?zs] =>
    destruct (detect_rows_spec lo hi df zs) as [Hsub Hwf] end.
  split; [exact Hsub|]. split; [|exact Hwf].
  apply sublist_length in Hsub. rewrite !length_map in Hsub. exact Hsub.
Qed.

(** ** Totality of the trend analysis *)

Lemma determine_trend_values (linregress_pvalue : list Q → list Q → Q)
    (values : list Q) (timestamps : list Z) :
  VitalsAnalyzer._determine_trend linregress_pvalue values timestamps
  ∈ ["insufficient_data"; "stable"; "increasing"; "decreasing"].
Proof.
  unfold VitalsAnalyzer._determine_trend. cbv zeta.
  destruct_ifs; rewrite list_elem_of_In; simpl; tauto.
Qed.

Lemma assess_known_level (vital_type : string) (range : NormalRange.t)
    (statistics : gmap string Q) (mean : Q) (anomalies : list Anomaly.t)
    (trend : string) :
  VitalsAnalyzer.normal_ranges !! vital_type = Some range →
  statistics !! "mean" = Some mean →
  ∃ r, VitalsAnalyzer._assess_vital_risk vital_type statistics anomalies trend = Some r
       ∧ RiskAssessment.riskLevel r ∈ ["low"; "medium"; "high"].
Proof.
  intros Hrange Hmean.
  unfold VitalsAnalyzer._assess_vital_risk. rewrite Hrange, Hmean.
  cbn [mbind option_bind].
  destruct (Qltb mean (NormalRange.min range));
    destruct (Qgtb mean (NormalRange.max range));
    destruct_ifs; eexists; (split; [reflexivity|]); cbn;
    rewrite list_elem_of_In; simpl; tauto.
Qed.

Lemma calculate_statistics_mean_count (np_sqrt : Q → Q) (values : list Q) :
  values ≠ [] →
  ∃ stats, VitalsAnalyzer._calculate_statistics np_sqrt values = Some stats
           ∧ stats !! "mean" = Some (np_mean values)
           ∧ stats !! "count" = Some (Qlen values).
Proof.
  intros Hne.
  destruct (np_min_max_spec values Hne) as (mn & mx & Hmin & Hmax & _).
  unfold VitalsAnalyzer._calculate_statistics. rewrite Hmin, Hmax.
  cbn [mbind option_bind]. eexists. split; [reflexivity|].
  split; by simplify_map_eq.
Qed.

Lemma detect_anomalies_length (np_sqrt : Q → Q) (df : list Reading.t) :
  (length (VitalsAnalyzer._detect_anomalies np_sqrt df) <= length df)%nat.
Proof.
  unfold VitalsAnalyzer._detect_anomalies. cbv zeta.
  match goal with |- context [zip_with (VitalsAnalyzer.anomaly_of_row ?lo ?hi) df ?zs] =>
    destruct (detect_rows_spec lo hi df zs) as [Hsub _] end.
  apply sublist_length in Hsub. rewrite !length_map in Hsub. exact Hsub.
Qed.

Lemma generate_forecast_length (np_sqrt : Q → Q) (values : list Q) (periods : nat) :
  length (VitalsAnalyzer._generate_forecast np_sqrt values periods)
  = if (length values <? 3)%nat then 0%nat else periods.
Proof.
  unfold VitalsAnalyzer._generate_forecast.
  destruct (length values <? 3)%nat; [reflexivity|].
  cbv zeta. rewrite length_map, length_seq. reflexivity.
Qed.

(** X12: the trend analysis never raises.  Its trend is "no_data"
    exactly for the empty series, and "insufficient_data" with an empty
    forecast for one or two readings; from three readings on the
    forecast has three points.  For a non-empty series the count is the
    number of readings, there are no more anomalies than readings, and
    the risk level is "unknown" exactly when the vital type is not in
    the table of normal ranges. *)
Theorem analyze_trend_total (np_sqrt : Q → Q)
    (linregress_pvalue : list Q → list Q → Q) (vitals : list Reading.t)
    (vital_type : string) (days : nat) :
  ∃ r,
    VitalsAnalyzer.analyze_trend np_sqrt linregress_pvalue vitals vital_type days
    = Some r
    ∧ (TrendAnalysis.trend r = "no_data" ↔ vitals = [])
    ∧ ((0 < length vitals < 3)%nat →
       TrendAnalysis.trend r = "insufficient_data" ∧ TrendAnalysis.forecast r = [])
    ∧ ((3 <= length vitals)%nat → length (TrendAnalysis.forecast r) = 3%nat)
    ∧ (vitals ≠ [] → TrendAnalysis.statistics r !! "count" = Some (Qlen vitals))
    ∧ (length (TrendAnalysis.anomalies r) <= length vitals)%nat
    ∧ (vitals ≠ [] →
       (RiskAssessment.riskLevel (TrendAnalysis.riskAssessment r) = "unknown"
        ↔ VitalsAnalyzer.normal_ranges !! vital_type = None)).
Proof.
  destruct vitals as [|v rest].
  { eexists. split; [reflexivity|]. simpl.
    repeat split; intros; try reflexivity; try lia; try contradiction. }
  unfold VitalsAnalyzer.analyze_trend.
  set (vitals := v :: rest).
  set (df := sort_values_timestamp vitals).
  assert (Hlen : length df = length vitals) by apply sort_by_length.
  set (values := map Reading.value df).
  assert (Hvlen : length values = length vitals)
    by (unfold values; rewrite length_map; exact Hlen).
  assert (Hne : values ≠ []).
  { intros E. rewrite E in Hvlen. discriminate Hvlen. }
  destruct (calculate_statistics_mean_count np_sqrt values Hne)
    as (stats & Hs & Hmean & Hcount).
  cbv zeta. fold df. fold values. rewrite Hs. cbn [mbind option_bind].
  set (trend := VitalsAnalyzer._determine_trend linregress_pvalue values
                  (map Reading.timestamp df)).
  set (anomalies := VitalsAnalyzer._detect_anomalies np_sqrt df).
  assert (Htrend : trend ≠ "no_data").
  { pose proof (determine_trend_values linregress_pvalue values
                  (map Reading.timestamp df)) as Hin.
    fold trend in Hin. rewrite list_elem_of_In in Hin. simpl in Hin.
    intros E. rewrite E in Hin. intuition discriminate. }
  assert (Hanom : (length anomalies <= length vitals)%nat).
  { rewrite <- Hlen. apply detect_anomalies_length. }
  assert (Hshort : (0 < length vitals < 3)%nat →
            trend = "insufficient_data"
            ∧ VitalsAnalyzer._generate_forecast np_sqrt values 3 = []).
  { intros Hl. split.
    - unfold trend, VitalsAnalyzer._determine_trend.
      assert ((length values <? 3)%nat = true) as -> by (apply Nat.ltb_lt; lia).
      reflexivity.
    - apply length_zero_iff_nil. rewrite generate_forecast_length.
      assert ((length values <? 3)%nat = true) as -> by (apply Nat.ltb_lt; lia).
      reflexivity. }
  assert (Hlong : (3 <= length vitals)%nat →
            length (VitalsAnalyzer._generate_forecast np_sqrt values 3) = 3%nat).
  { intros Hl. rewrite generate_forecast_length.
    assert ((length values <? 3)%nat = false) as -> by (apply Nat.ltb_ge; lia).
    reflexivity. }
  assert (Hcount' : stats !! "count" = Some (Qlen vitals)).
  { rewrite Hcount. unfold Qlen. rewrite Hvlen. reflexivity. }
  destruct (VitalsAnalyzer.normal_ranges !! vital_type) as [range|] eqn:Hrange.
  - destruct (assess_known_level vital_type range stats (np_mean values) anomalies
                trend Hrange Hmean) as (ra & Hra & Hlevel).
    rewrite Hra. cbn [mbind option_bind]. eexists. split; [reflexivity|].
    cbn [TrendAnalysis.trend TrendAnalysis.forecast TrendAnalysis.statistics
         TrendAnalysis.anomalies TrendAnalysis.riskAssessment].
    split; [split; [intros E; contradiction | intros E; discriminate E]|].
    split; [exact Hshort|]. split; [exact Hlong|].
    split; [intros _; exact Hcount'|]. split; [exact Hanom|].
    intros _. split; [|intros E; discriminate E].
    intros E. rewrite E in Hlevel. rewrite list_elem_of_In in Hlevel.
    simpl in Hlevel. intuition discriminate.
  - unfold VitalsAnalyzer._assess_vital_risk. rewrite Hrange.
    cbn [mbind option_bind]. eexists. split; [reflexivity|].
    cbn [TrendAnalysis.trend TrendAnalysis.forecast TrendAnalysis.statistics
         TrendAnalysis.anomalies TrendAnalysis.riskAssessment
         RiskAssessment.riskLevel].
    split; [split; [intros E; contradiction | intros E; discriminate E]|].
    split; [exact Hshort|]. split; [exact Hlong|].
    split; [intros _; exact Hcount'|]. split; [exact Hanom|].
    intros _. split; reflexivity.
Qed.

(** ** Independence of the input order *)

Lemma insert_by_Permutation {A} (le : A → A → bool) (x : A) (l : list A) :
  insert_by le x l ≡ₚ x :: l.
Proof.
  induction l as [|y l IH]; simpl; [reflexivity|].
  destruct (le x y); [reflexivity|].
  rewrite IH. apply Permutation_swap.
Qed.

Lemma sort_by_Permutation {A} (le : A → A → bool) (l : list A) :
  sort_by le l ≡ₚ l.
Proof.
  unfold sort_by. induction l as [|x l IH]; simpl; [reflexivity|].
  rewrite insert_by_Permutation, IH. reflexivity.
Qed.

Section SortedByKey.

Context {A : Type} (le : A → A → bool).
Hypothesis le_total : ∀ x y, le x y = false → le y x = true.
Hypothesis le_trans : ∀ x y z, le x y = true → le y z = true → le x z = true.

Lemma insert_by_sorted (x : A) (l : list A) :
  StronglySorted (fun a b => le a b = true) l →
  StronglySorted (fun a b => le a b = true) (insert_by le x l).
Proof.
  induction 1 as [|y l Hl IH Hy]; simpl.
  - repeat constructor.
  - destruct (le x y) eqn:E.
    + constructor; [constructor; assumption|].
      constructor; [exact E|].
      eapply Forall_impl; [exact Hy|]. intros z Hz. cbv beta in Hz |- *.
      eapply le_trans; eassumption.
    + constructor; [exact IH|].
      apply insert_by_Forall; [apply le_total; exact E | exact Hy].
Qed.

Lemma sort_by_sorted (l : list A) :
  StronglySorted (fun a b => le a b = true) (sort_by le l).
Proof.
  unfold sort_by. induction l as [|x l IH]; simpl; [constructor|].
  apply insert_by_sorted. exact IH.
Qed.

End SortedByKey.

Lemma NoDup_map_inj {A B} (f : A → B) (l : list A) (x y : A) :
  NoDup (map f l) → x ∈ l → y ∈ l → f x = f y → x = y.
Proof.
  induction l as [|z l IH]; simpl; intros Hnd Hx Hy Hf.
  - inversion Hx.
  - apply NoDup_cons in Hnd as [Hz Hnd].
    apply elem_of_cons in Hx as [->|Hx]; apply elem_of_cons in Hy as [->|Hy].
    + reflexivity.
    + exfalso. apply Hz. rewrite Hf. apply list_elem_of_fmap. eauto.
    + exfalso. apply Hz. rewrite <- Hf. apply list_elem_of_fmap. eauto.
    + apply IH; assumption.
Qed.

(** Readings with pairwise distinct timestamps are sorted the same way
    whatever order they arrive in. *)
Lemma sort_values_timestamp_permutation (vitals vitals' : list Reading.t) :
  vitals ≡ₚ vitals' → NoDup (map Reading.timestamp vitals) →
  sort_values_timestamp vitals = sort_values_timestamp vitals'.
Proof.
  intros Hperm Hnd. unfold sort_values_timestamp.
  apply (StronglySorted_unique_strong
           (fun a b => (Reading.timestamp a <=? Reading.timestamp b)%Z = true)).
  - intros x1 x2 H1 H2 H12 H21.
    rewrite sort_by_Permutation in H1, H2. rewrite <- Hperm in H2.
    apply (NoDup_map_inj Reading.timestamp vitals); [assumption.. |].
    apply Z.leb_le in H12, H21. lia.
  - apply sort_by_sorted.
    + intros x y H. apply Z.leb_gt in H. apply Z.leb_le. lia.
    + intros x y z H1 H2. apply Z.leb_le in H1, H2. apply Z.leb_le. lia.
  - apply sort_by_sorted.
    + intros x y H. apply Z.leb_gt in H. apply Z.leb_le. lia.
    + intros x y z H1 H2. apply Z.leb_le in H1, H2. apply Z.leb_le. lia.
  - rewrite !sort_by_Permutation. exact Hperm.
Qed.

(** X13: the trend analysis does not depend on the order in which the
    readings arrive, as long as no two readings share a timestamp: it
    sorts them by timestamp before anything else. *)
Theorem analyze_trend_order_independent (np_sqrt : Q → Q)
    (linregress_pvalue : list Q → list Q → Q) (vitals vitals' : list Reading.t)
    (vital_type : string) (days : nat) :
  vitals ≡ₚ vitals' →
  NoDup (map Reading.timestamp vitals) →
  VitalsAnalyzer.analyze_trend np_sqrt linregress_pvalue vitals vital_type days
  = VitalsAnalyzer.analyze_trend np_sqrt linregress_pvalue vitals' vital_type days.
Proof.
  intros Hperm Hnd.
  pose proof (sort_values_timestamp_permutation vitals vitals' Hperm Hnd) as Hsort.
  unfold VitalsAnalyzer.analyze_trend.
  destruct vitals as [|v rest], vitals' as [|v' rest'].
  - reflexivity.
  - apply Permutation_nil in Hperm. discriminate Hperm.
  - symmetry in Hperm. apply Permutation_nil in Hperm. discriminate Hperm.
  - cbv zeta. rewrite Hsort. reflexivity.
Qed.

(** Three readings, in two orders. *)
Lemma analyze_trend_order_independent_witness :
  VitalsAnalyzer.analyze_trend Qsqrt_approx exact_fit_pvalue
    three_equal_readings "oxygenSaturation" 7
  = VitalsAnalyzer.analyze_trend Qsqrt_approx exact_fit_pvalue
      (reverse three_equal_readings) "oxygenSaturation" 7.
Proof.
  apply analyze_trend_order_independent.
  - apply Permutation_sym, reverse_Permutation.
  - simpl. repeat constructor; rewrite ?list_elem_of_In; simpl; intuition discriminate.
Defined.

(** ** Sudden changes, one reading at a time *)

Lemma sudden_change_step_app {T} (values : list Q) (v : Q) (timestamps : list T)
    (threshold : Q) (changes : list (AnomalyDetector.Change T)) (i : nat) :
  (1 <= i < length values)%nat →
  AnomalyDetector.sudden_change_step (values ++ [v]) timestamps threshold changes i
  = AnomalyDetector.sudden_change_step values timestamps threshold changes i.
Proof.
  intros Hi. unfold AnomalyDetector.sudden_change_step.
  rewrite !lookup_app_l by lia. reflexivity.
Qed.

Lemma sudden_change_loop_app {T} (values : list Q) (v : Q) (timestamps : list T)
    (threshold : Q) (indices : list nat) :
  Forall (fun i => (1 <= i < length values)%nat) indices →
  ∀ acc,
    foldl (fun acc i =>
             changes ← acc;
             AnomalyDetector.sudden_change_step (values ++ [v]) timestamps threshold
               changes i)
          acc indices
    = foldl (fun acc i =>
               changes ← acc;
               AnomalyDetector.sudden_change_step values timestamps threshold changes i)
            acc indices.
Proof.
  induction 1 as [|i rest Hi _ IH]; intros acc; simpl; [reflexivity|].
  rewrite IH. f_equal. destruct acc as [changes|]; [|reflexivity].
  cbn [mbind option_bind]. apply sudden_change_step_app. exact Hi.
Qed.

(** Detection on a series with one more reading: the detection on the
    series so far, then one step for the new reading. *)
Lemma detect_sudden_changes_snoc {T} (values : list Q) (v : Q)
    (timestamps : list T) (threshold : Q) :
  values ≠ [] →
  AnomalyDetector.detect_sudden_changes (values ++ [v]) timestamps threshold
  = changes ← AnomalyDetector.detect_sudden_changes values timestamps threshold;
    AnomalyDetector.sudden_change_step (values ++ [v]) timestamps threshold changes
      (length values).
Proof.
  intros Hne. unfold AnomalyDetector.detect_sudden_changes.
  rewrite length_app. simpl length.
  replace (length values + 1 - 1)%nat with (S (length values - 1)) by
    (destruct values; [contradiction | simpl; lia]).
  rewrite seq_S, foldl_app. simpl foldl.
  rewrite sudden_change_loop_app.
  - replace (S (length values - 1)) with (length values) by
      (destruct values; [contradiction | simpl; lia]).
    reflexivity.
  - apply Forall_forall. intros i Hi. apply elem_of_seq in Hi. lia.
Qed.

(** X15: a new reading never changes what was detected before it: the
    detection on a series extended by one reading, when it returns,
    returns the entries of the series so far followed by at most one
    entry, the one of the new reading. *)
Theorem detection_is_prefix_stable {T} (values : list Q) (v : Q)
    (timestamps : list T) (threshold : Q) (changes' : list (AnomalyDetector.Change T)) :
  values ≠ [] →
  AnomalyDetector.detect_sudden_changes (values ++ [v]) timestamps threshold
  = Some changes' →
  ∃ changes extra,
    AnomalyDetector.detect_sudden_changes values timestamps threshold = Some changes
    ∧ changes' = changes ++ extra
    ∧ (length extra <= 1)%nat
    ∧ Forall (fun c => AnomalyDetector.current_value c = v
                       ∧ Some (AnomalyDetector.previous_value c) = last values) extra.
Proof.
  intros Hne. rewrite detect_sudden_changes_snoc by assumption.
  destruct (AnomalyDetector.detect_sudden_changes values timestamps threshold)
    as [changes|]; [|discriminate].
  cbn [mbind option_bind]. unfold AnomalyDetector.sudden_change_step.
  rewrite (lookup_app_r values [v] (length values)) by lia.
  rewrite Nat.sub_diag. change ([v] !! 0%nat) with (Some v).
  cbn [mbind option_bind].
  assert (Hlast : (values ++ [v]) !! (length values - 1)%nat = last values).
  { rewrite lookup_app_l by (destruct values; [contradiction | simpl; lia]).
    rewrite last_lookup. f_equal. lia. }
  rewrite Hlast. destruct (last values) as [previous|]; [|discriminate].
  cbn [mbind option_bind]. destruct (np_gt _ threshold).
  - destruct (timestamps !! length values) as [ts|]; [|discriminate].
    cbn [mbind option_bind]. intros [= <-].
    exists changes. eexists. split; [reflexivity|]. split; [reflexivity|].
    split; [simpl; lia|]. repeat constructor.
  - intros [= <-]. exists changes, []. split; [reflexivity|].
    split; [rewrite app_nil_r; reflexivity|]. split; [simpl; lia | constructor].
Qed.

(** The series 100, 100 extended by 150. *)
Lemma detection_is_prefix_stable_witness :
  ∃ changes extra,
    AnomalyDetector.detect_sudden_changes [100; 100] [0; 1; 2]%nat 0.2 = Some changes
    ∧ AnomalyDetector.detect_sudden_changes [100; 100; 150] [0; 1; 2]%nat 0.2
      = Some (changes ++ extra)
    ∧ (length extra <= 1)%nat.
Proof.
  destruct (AnomalyDetector.detect_sudden_changes [100; 100; 150] [0; 1; 2]%nat 0.2)
    as [changes'|] eqn:E; [|vm_compute in E; discriminate E].
  destruct (detection_is_prefix_stable [100; 100] 150 [0; 1; 2]%nat 0.2 changes')
    as (changes & extra & H1 & H2 & H3 & _).
  - discriminate.
  - exact E.
  - exists changes, extra. subst changes'. repeat split; assumption.
Defined.

Lemma Qabs_zero_iff (x : Q) : Qabs x == 0 ↔ x == 0.
Proof.
  apply (Qabs_case x (fun y => y == 0 ↔ x == 0)); intros H; split; intros E; lra.
Qed.

(** ** The multivariate rule *)

Lemma existsb_zip_with {A B} (f : A → B → bool) (l : list A) (k : list B) :
  existsb id (zip_with f l k) = true
  ↔ ∃ i x y, l !! i = Some x ∧ k !! i = Some y ∧ f x y = true.
Proof.
  revert k. induction l as [|x l IH]; intros [|y k]; simpl.
  - split; [discriminate|]. intros (i & ? & ? & H & _). destruct i; discriminate H.
  - split; [discriminate|]. intros (i & ? & ? & H & _). destruct i; discriminate H.
  - split; [discriminate|]. intros (i & ? & ? & _ & H & _). destruct i; discriminate H.
  - rewrite orb_true_iff, IH. split.
    + intros [Hf|(i & x' & y' & Hx & Hy & Hf)].
      * exists 0%nat, x, y. auto.
      * exists (S i), x', y'. auto.
    + intros (i & x' & y' & Hx & Hy & Hf). destruct i as [|i]; simpl in Hx, Hy.
      * injection Hx as <-. injection Hy as <-. left. exact Hf.
      * right. exists i, x', y'. auto.
Qed.

(** X17: the multivariate check returns at most one entry, of
    severity "high", and it returns one exactly when the frame has both
    a heart rate and an oxygen saturation column and some row has a heart
    rate above 100 together with a saturation below 92. *)
Theorem multivariate_flag_iff (vitals_data : gmap string (list Q)) :
  let result := MultivariateAnomalies.detect_multivariate_anomalies vitals_data in
  (length result <= 1)%nat
  ∧ Forall (fun e => MultivariateAnomalies.severity e = "high"
                     ∧ MultivariateAnomalies.vitals e
                       = ["heartRate"; "oxygenSaturation"]) result
  ∧ (result ≠ []
     ↔ ∃ hr o2 i h o,
         vitals_data !! "heartRate" = Some hr
         ∧ vitals_data !! "oxygenSaturation" = Some o2
         ∧ hr !! i = Some h ∧ o2 !! i = Some o
         ∧ 100 < h ∧ o < 92).
Proof.
  unfold MultivariateAnomalies.detect_multivariate_anomalies. cbv zeta.
  destruct (vitals_data !! "heartRate") as [hr|] eqn:Hhr.
  2:{ simpl. split; [lia|]. split; [constructor|]. split; [contradiction|].
      intros (? & ? & ? & ? & ? & H & _). discriminate H. }
  destruct (vitals_data !! "oxygenSaturation") as [o2|] eqn:Ho2.
  2:{ simpl. split; [lia|]. split; [constructor|]. split; [contradiction|].
      intros (? & ? & ? & ? & ? & _ & H & _). discriminate H. }
  destruct (existsb id (zip_with (fun h o => Qgtb h 100 && Qltb o 92) hr o2)) eqn:E.
  - simpl. split; [lia|]. split; [repeat constructor|]. split; [|discriminate].
    intros _. apply existsb_zip_with in E as (i & h & o & Hh & Ho & Hf).
    apply andb_true_iff in Hf as [H1 H2].
    apply Qgtb_true in H1. apply Qltb_true in H2.
    exists hr, o2, i, h, o. auto 10.
  - simpl. split; [lia|]. split; [constructor|]. split; [contradiction|].
    intros (hr' & o2' & i & h & o & [= <-] & [= <-] & Hh & Ho & H1 & H2).
    apply not_true_iff_false in E. exfalso. apply E.
    apply existsb_zip_with. exists i, h, o. split; [exact Hh|]. split; [exact Ho|].
    apply andb_true_iff. split; [apply Qgtb_true | apply Qltb_true]; assumption.
Qed.

(** ** Comparison with a population *)

Section ComparisonEdges.

Variable np_sqrt : Q → Q.
Variable norm_cdf : Q → Q.

Lemma interpret_zero (z : Q) :
  z == 0 → VitalsComparison._interpret_comparison (Finite z) = "within_normal_range".
Proof.
  intros Hz. unfold VitalsComparison._interpret_comparison. cbn [np_abs np_lt].
  assert (Qltb (Qabs z) 1 = true) as ->; [|reflexivity].
  apply Qltb_true. apply Qabs_zero_iff in Hz. lra.
Qed.


End ComparisonEdges.


(** ** The latest vital of a newest-first list *)

Lemma most_recent_reading_elem (vitals_data : list Vital.t) (vital_type : string)
    (r : Vital.t) :
  most_recent_reading vitals_data vital_type = Some r → r ∈ vitals_data.
Proof.
  revert r. induction vitals_data as [|vital rest IH]; intros r; simpl;
    [discriminate|].
  destruct (bool_decide (Vital.type vital = Some vital_type)).
  - destruct (most_recent_reading rest vital_type) as [later|].
    + destruct (Vital.timestamp vital <=? Vital.timestamp later)%Z;
        intros [= <-]; [right; apply IH; reflexivity | left].
    + intros [= <-]. left.
  - intros H. right. apply IH. exact H.
Qed.

(** X19: on a list of readings that is newest first, with strictly
    decreasing timestamps, [_get_latest_vital] does return the value of
    the most recent reading of the type (the default, if that reading
    has no value or there is no such reading); and readings of other
    types never matter: the result is that on the readings of the type
    alone. *)
Theorem get_latest_vital_newest_first (vitals_data : list Vital.t)
    (vital_type : string) (default_value : Q) :
  StronglySorted (fun a b => (Vital.timestamp b < Vital.timestamp a)%Z) vitals_data →
  GeneralRiskPredictor._get_latest_vital vitals_data vital_type default_value
  = match most_recent_reading vitals_data vital_type with
    | Some r => default default_value (Vital.value r)
    | None => default_value
    end
  ∧ GeneralRiskPredictor._get_latest_vital vitals_data vital_type default_value
    = GeneralRiskPredictor._get_latest_vital
        (filter (fun v => Vital.type v = Some vital_type) vitals_data)
        vital_type default_value.
Proof.
  induction 1 as [|vital rest Hrest IH Hnewer]; [split; reflexivity|].
  destruct IH as [IH1 IH2]. simpl. rewrite filter_cons.
  case_bool_decide as Hty.
  - rewrite decide_True by assumption. simpl.
    rewrite bool_decide_eq_true_2 by assumption. split; [|reflexivity].
    destruct (most_recent_reading rest vital_type) as [later|] eqn:Hlater;
      [|reflexivity].
    apply most_recent_reading_elem in Hlater.
    rewrite Forall_forall in Hnewer. specialize (Hnewer later Hlater).
    assert ((Vital.timestamp vital <=? Vital.timestamp later)%Z = false) as ->
      by (apply Z.leb_gt; lia).
    reflexivity.
  - rewrite decide_False by assumption. split; assumption.
Qed.

(** The heart rates 95 at instant 2 and 72 at instant 1, newest first. *)
Lemma get_latest_vital_newest_first_witness :
  GeneralRiskPredictor._get_latest_vital (reverse two_heart_rates) "heartRate" 150
  = 95.
Proof.
  destruct (get_latest_vital_newest_first (reverse two_heart_rates) "heartRate" 150)
    as [Hlatest _].
  - repeat constructor.
  - rewrite Hlatest. reflexivity.
Defined.

(** ** The handlers of the condition scorers *)

Lemma response_new_Some (patient_id prediction_id : string) (now : Z)
    (level : RiskLevel) (score conf : Q) (factors : list RiskFactor)
    (concerns : list string) (recs : option (list Recommendation))
    (version : string) :
  0 <= score <= 1 → 0 <= conf <= 1 →
  ∃ r, PredictionsApi.RiskPredictionResponse_new patient_id prediction_id now level
         score conf factors concerns recs version = Some r
       ∧ PredictionsApi.patientId r = patient_id
       ∧ PredictionsApi.riskScore r = score
       ∧ PredictionsApi.riskLevel r = level
       ∧ PredictionsApi.riskFactors r = factors
       ∧ PredictionsApi.recommendations r = recs.
Proof.
  intros [Hs0 Hs1] [Hc0 Hc1]. unfold PredictionsApi.RiskPredictionResponse_new.
  apply Qle_bool_iff in Hs0, Hs1, Hc0, Hc1. rewrite Hs0, Hs1, Hc0, Hc1.
  eexists. split; [reflexivity|]. repeat split; reflexivity.
Qed.

(** X20: the handlers of the three condition scorers never answer with
    the HTTP error 500: for every request the score and the confidence
    pass the validation of the response schema, and the response carries
    the patient of the request, a score in [0,1] with the level derived
    from it, factors with impacts in [0,1], and no recommendations. *)
Theorem condition_handlers_return (heart : PredictionsApi.HeartDiseaseRiskRequest)
    (diabetes : PredictionsApi.DiabetesRiskRequest)
    (stroke : PredictionsApi.StrokeRiskRequest) (prediction_id : string) (now : Z) :
  handler_returns (PredictionsApi.predict_heart_disease_risk heart prediction_id now)
    (PredictionsApi.hd_patientId heart)
  ∧ handler_returns (PredictionsApi.predict_diabetes_risk diabetes prediction_id now)
      (PredictionsApi.db_patientId diabetes)
  ∧ handler_returns (PredictionsApi.predict_stroke_risk stroke prediction_id now)
      (PredictionsApi.st_patientId stroke).
Proof.
  unfold handler_returns. split; [|split].
  - unfold PredictionsApi.predict_heart_disease_risk. cbv zeta.
    destruct (heart_predict_total (PredictionsApi.heart_dict heart)) as (fs & -> & Hfs).
    pose proof (heart_score_bounded (PredictionsApi.heart_dict heart)) as Hs.
    cbn [mbind option_bind].
    match goal with |- context [PredictionsApi.RiskPredictionResponse_new
                                  ?p ?i ?n ?l ?s ?c ?f ?cs ?rs ?v] =>
      destruct (response_new_Some p i n l s c f cs rs v) as (r & -> & H1 & H2 & H3 & H4 & H5);
        [exact Hs | split; apply Qle_bool_iff; reflexivity |] end.
    exists r. cbn [try_or_500]. rewrite H1, H2, H3, H4, H5. auto 10.
  - unfold PredictionsApi.predict_diabetes_risk. cbv zeta.
    destruct (diabetes_predict_total (PredictionsApi.diabetes_dict diabetes))
      as (fs & -> & Hfs).
    pose proof (diabetes_score_bounded (PredictionsApi.diabetes_dict diabetes)) as Hs.
    cbn [mbind option_bind].
    match goal with |- context [PredictionsApi.RiskPredictionResponse_new
                                  ?p ?i ?n ?l ?s ?c ?f ?cs ?rs ?v] =>
      destruct (response_new_Some p i n l s c f cs rs v) as (r & -> & H1 & H2 & H3 & H4 & H5);
        [exact Hs | split; apply Qle_bool_iff; reflexivity |] end.
    exists r. cbn [try_or_500]. rewrite H1, H2, H3, H4, H5. auto 10.
  - unfold PredictionsApi.predict_stroke_risk. cbv zeta.
    destruct (stroke_predict_total (PredictionsApi.stroke_dict stroke))
      as (fs & -> & Hfs).
    pose proof (stroke_score_bounded (PredictionsApi.stroke_dict stroke)) as Hs.
    cbn [mbind option_bind].
    match goal with |- context [PredictionsApi.RiskPredictionResponse_new
                                  ?p ?i ?n ?l ?s ?c ?f ?cs ?rs ?v] =>
      destruct (response_new_Some p i n l s c f cs rs v) as (r & -> & H1 & H2 & H3 & H4 & H5);
        [exact Hs | split; apply Qle_bool_iff; reflexivity |] end.
    exists r. cbn [try_or_500]. rewrite H1, H2, H3, H4, H5. auto 10.
Qed.

(** * Properties of the binary64 embedding *)

(** ** Sudden changes *)

Lemma sudden_change_step_flagged {T} (values : list float) (timestamps : list T)
    (threshold : float) (changes : list (Binary64.AnomalyDetector.Change T)) (i : nat) :
  (length values <= length timestamps)%nat →
  (1 <= i < length values)%nat →
  Binary64.AnomalyDetector.sudden_change_step values timestamps threshold changes i
  = Some (changes ++ flagged_change values timestamps threshold i).
Proof.
  intros Hts Hi.
  destruct (lookup_lt_is_Some_2 values i) as [current Hcur]; [lia|].
  destruct (lookup_lt_is_Some_2 values (i - 1)) as [previous Hprev]; [lia|].
  destruct (lookup_lt_is_Some_2 timestamps i) as [ts Hi_ts]; [lia|].
  unfold Binary64.AnomalyDetector.sudden_change_step, flagged_change, Binary64.gtb.
  rewrite Hcur, Hprev, Hi_ts. cbn [mbind option_bind].
  destruct (threshold <? _)%float; [reflexivity|].
  rewrite app_nil_r. reflexivity.
Qed.

Lemma sudden_change_loop_flagged {T} (values : list float) (timestamps : list T)
    (threshold : float) (indices : list nat) :
  (length values <= length timestamps)%nat →
  Forall (fun i => (1 <= i < length values)%nat) indices →
  ∀ changes,
    foldl (fun acc i =>
             changes ← acc;
             Binary64.AnomalyDetector.sudden_change_step values timestamps threshold
               changes i)
          (Some changes) indices
    = Some (changes ++ flat_map (flagged_change values timestamps threshold) indices).
Proof.
  intros Hts. induction 1 as [|i rest Hi _ IH]; intros changes; simpl.
  - rewrite app_nil_r. reflexivity.
  - rewrite sudden_change_step_flagged by assumption.
    rewrite IH, <- app_assoc. reflexivity.
Qed.

(** C6: for every series (with an array of timestamps at least as
    long) and every threshold, sudden change detection returns exactly
    the entries of the indices i >= 1 whose ratio
    |v[i] - v[i-1]| / v[i-1], as binary64 arithmetic computes it, is above
    the threshold, in order, each with that ratio times 100 as
    change_percent and the severity "high" when the ratio exceeds 0.3 and
    "medium" otherwise; on [100, 100, 150] with threshold 0.2 it returns
    the single entry of index 2, with change_percent 50 and severity
    "high". *)
Theorem detect_sudden_changes_spec {T} (values : list float) (timestamps : list T)
    (threshold : float) :
  (length values <= length timestamps)%nat →
  Binary64.AnomalyDetector.detect_sudden_changes values timestamps threshold
  = Some (sudden_changes_spec values timestamps threshold)
  ∧ ∃ c,
      Binary64.AnomalyDetector.detect_sudden_changes
        [100; 100; 150]%float [0; 1; 2]%nat 0.2%float
      = Some [c]
      ∧ Binary64.AnomalyDetector.timestamp c = 2%nat
      ∧ Binary64.AnomalyDetector.change_percent c = 50%float
      ∧ Binary64.AnomalyDetector.severity c = "high".
Proof.
  intros Hts. split.
  - unfold Binary64.AnomalyDetector.detect_sudden_changes, sudden_changes_spec.
    rewrite sudden_change_loop_flagged; [reflexivity | assumption |].
    apply Forall_forall. intros i Hi. apply elem_of_seq in Hi. lia.
  - eexists. vm_compute. repeat split; reflexivity.
Qed.

(** The series [100, 100, 150] at threshold 0.2: index 2 only. *)
Lemma detect_sudden_changes_spec_witness :
  length (sudden_changes_spec [100; 100; 150]%float [0; 1; 2]%nat 0.2%float) = 1%nat
  ∧ Binary64.AnomalyDetector.detect_sudden_changes
      [100; 100; 150]%float [0; 1; 2]%nat 0.2%float
    = Some (sudden_changes_spec [100; 100; 150]%float [0; 1; 2]%nat 0.2%float).
Proof.
  split; [reflexivity|].
  apply (detect_sudden_changes_spec [100; 100; 150]%float [0; 1; 2]%nat 0.2%float).
  simpl. lia.
Defined.

(** The ratio is the rounded one: from 30.5 to 36.6 the exact change
    is 20 percent, the computed ratio is just above 0.2, and the pair is
    flagged at the threshold 0.2. *)
Example rounded_ratio_is_flagged :
  Binary64.AnomalyDetector.detect_sudden_changes
    [30.5; 36.6]%float ["t0"; "t1"] 0.2%float
  = Some [ {| Binary64.AnomalyDetector.timestamp := "t1";
              Binary64.AnomalyDetector.previous_value := 30.5%float;
              Binary64.AnomalyDetector.current_value := 36.6%float;
              Binary64.AnomalyDetector.change_percent := 20.000000000000004%float;
              Binary64.AnomalyDetector.severity := "medium" |} ].
Proof. vm_compute. reflexivity. Qed.

(** ** When sudden change detection raises *)

Lemma sudden_change_step_cases {T} (values : list float) (timestamps : list T)
    (threshold : float) (changes : list (Binary64.AnomalyDetector.Change T)) (i : nat) :
  (1 <= i < length values)%nat →
  (change_flagged values threshold i = false
   ∧ Binary64.AnomalyDetector.sudden_change_step values timestamps threshold changes i
     = Some changes)
  ∨ (change_flagged values threshold i = true
     ∧ (length timestamps <= i)%nat
     ∧ Binary64.AnomalyDetector.sudden_change_step values timestamps threshold changes i
       = None)
  ∨ (change_flagged values threshold i = true
     ∧ (i < length timestamps)%nat
     ∧ ∃ c, Binary64.AnomalyDetector.sudden_change_step values timestamps threshold
              changes i
            = Some (changes ++ [c])).
Proof.
  intros Hi.
  destruct (lookup_lt_is_Some_2 values i) as [current Hcur]; [lia|].
  destruct (lookup_lt_is_Some_2 values (i - 1)) as [previous Hprev]; [lia|].
  unfold Binary64.AnomalyDetector.sudden_change_step, change_flagged.
  rewrite Hcur, Hprev. cbn [mbind option_bind].
  destruct (Binary64.gtb _ threshold); [|left; split; reflexivity].
  right. destruct (timestamps !! i) as [ts|] eqn:Hts.
  - right. split; [reflexivity|]. split; [eapply lookup_lt_Some; eassumption|].
    eexists. reflexivity.
  - left. split; [reflexivity|]. split; [|reflexivity].
    apply lookup_ge_None. exact Hts.
Qed.

Lemma sudden_change_loop_none {T} (values : list float) (timestamps : list T)
    (threshold : float) (indices : list nat) :
  foldl (fun acc i =>
           changes ← acc;
           Binary64.AnomalyDetector.sudden_change_step values timestamps threshold
             changes i)
        None indices = None.
Proof. induction indices as [|i rest IH]; simpl; [reflexivity | exact IH]. Qed.

Lemma sudden_change_loop_cases {T} (values : list float) (timestamps : list T)
    (threshold : float) (indices : list nat) :
  Forall (fun i => (1 <= i < length values)%nat) indices →
  ∀ changes,
    let result :=
      foldl (fun acc i =>
               changes ← acc;
               Binary64.AnomalyDetector.sudden_change_step values timestamps threshold
                 changes i)
            (Some changes) indices in
    (result = None
     ↔ ∃ i, i ∈ indices ∧ change_flagged values threshold i = true
            ∧ (length timestamps <= i)%nat)
    ∧ (∀ res, result = Some res →
         (length res <= length changes + length indices)%nat).
Proof.
  induction 1 as [|i rest Hi _ IH]; intros changes; simpl.
  - split.
    + split; [discriminate|]. intros (i & Hin & _). inversion Hin.
    + intros res [= <-]. lia.
  - destruct (sudden_change_step_cases values timestamps threshold changes i Hi)
      as [(Hf & ->)|[(Hf & Hts & ->)|(Hf & Hts & c & ->)]]; cbn [mbind option_bind].
    + destruct (IH changes) as [Hnone Hlen]. split.
      * rewrite Hnone. split.
        -- intros (j & Hj & Hfj & Htj). exists j. split; [right; exact Hj | auto].
        -- intros (j & Hj & Hfj & Htj). apply elem_of_cons in Hj as [->|Hj].
           ++ congruence.
           ++ exists j. auto.
      * intros res Hres. apply Hlen in Hres. lia.
    + rewrite sudden_change_loop_none. split.
      * split; [|reflexivity]. intros _. exists i. split; [left | auto].
      * discriminate.
    + destruct (IH (changes ++ [c])) as [Hnone Hlen]. split.
      * rewrite Hnone. split.
        -- intros (j & Hj & Hfj & Htj). exists j. split; [right; exact Hj | auto].
        -- intros (j & Hj & Hfj & Htj). apply elem_of_cons in Hj as [->|Hj].
           ++ lia.
           ++ exists j. auto.
      * intros res Hres. apply Hlen in Hres. rewrite length_app in Hres.
        simpl in Hres. lia.
Qed.

(** X14: the detection handler answers with the HTTP error 500 exactly
    when some index from 1 on has a change above the threshold (in
    binary64 arithmetic, as the loop tests it) and no timestamp (the
    timestamps array is too short there); with at least as many
    timestamps as values it always returns.  A returned response counts
    its own anomalies, at most one per consecutive pair.  From 30.5 to
    36.6 at the threshold 0.2 and with no timestamps it answers 500:
    the computed ratio is just above 0.2. *)
Theorem detect_handler_fails_iff
    (request : Binary64.AnomaliesApi.AnomalyDetectionRequest) (now : Z) :
  let values := Binary64.AnomaliesApi.values request in
  let timestamps := Binary64.AnomaliesApi.timestamps request in
  (Binary64.AnomaliesApi.detect_anomalies request now = HTTPException 500
   ↔ ∃ i, (1 <= i < length values)%nat
          ∧ change_flagged values (Binary64.AnomaliesApi.threshold request) i = true
          ∧ (length timestamps <= i)%nat)
  ∧ ((length values <= length timestamps)%nat →
     ∃ response, Binary64.AnomaliesApi.detect_anomalies request now = Returned response)
  ∧ (∀ response, Binary64.AnomaliesApi.detect_anomalies request now = Returned response →
       Binary64.AnomaliesApi.anomaliesDetected response
       = length (Binary64.AnomaliesApi.anomalies response)
       ∧ (Binary64.AnomaliesApi.anomaliesDetected response <= length values - 1)%nat)
  ∧ Binary64.AnomaliesApi.detect_anomalies
      {| Binary64.AnomaliesApi.patientId := "p";
         Binary64.AnomaliesApi.vitalType := "temperature";
         Binary64.AnomaliesApi.values := [30.5; 36.6]%float;
         Binary64.AnomaliesApi.timestamps := [];
         Binary64.AnomaliesApi.threshold := 0.2%float |} now
    = HTTPException 500.
Proof.
  intros values timestamps.
  assert (Hin : Forall (fun i => (1 <= i < length values)%nat)
                  (seq 1 (length values - 1))).
  { apply Forall_forall. intros i Hi. apply elem_of_seq in Hi. lia. }
  destruct (sudden_change_loop_cases values timestamps
              (Binary64.AnomaliesApi.threshold request) _ Hin []) as [Hnone Hlen].
  assert (Hiff : Binary64.AnomalyDetector.detect_sudden_changes values timestamps
                   (Binary64.AnomaliesApi.threshold request) = None
                 ↔ ∃ i, (1 <= i < length values)%nat
                        ∧ change_flagged values
                            (Binary64.AnomaliesApi.threshold request) i = true
                        ∧ (length timestamps <= i)%nat).
  { unfold Binary64.AnomalyDetector.detect_sudden_changes. rewrite Hnone. split.
    - intros (i & Hi & Hf & Ht). exists i. apply elem_of_seq in Hi.
      split; [lia | auto].
    - intros (i & Hi & Hf & Ht). exists i. split; [apply elem_of_seq; lia | auto]. }
  unfold Binary64.AnomaliesApi.detect_anomalies at 1 2 3. fold values. fold timestamps.
  destruct (Binary64.AnomalyDetector.detect_sudden_changes values timestamps
              (Binary64.AnomaliesApi.threshold request)) as [res|] eqn:Hres;
    cbn [mbind option_bind try_or_500].
  - split; [|split; [|split]].
    + split; [discriminate|]. intros Hex. apply Hiff in Hex. discriminate Hex.
    + intros _. eexists. reflexivity.
    + intros response [= <-]. cbn. split; [reflexivity|].
      unfold Binary64.AnomalyDetector.detect_sudden_changes in Hres.
      apply Hlen in Hres. rewrite length_seq in Hres. simpl in Hres. exact Hres.
    + vm_compute. reflexivity.
  - split; [|split; [|split]].
    + split; [intros _; apply Hiff; reflexivity | reflexivity].
    + intros Hts. exfalso. destruct (proj1 Hiff eq_refl) as (i & Hi & _ & Ht). lia.
    + discriminate.
    + vm_compute. reflexivity.
Qed.

(** ** Binary64 comparisons, zeros and signs *)

Lemma SFcompare_antisym (x y : spec_float) :
  SFcompare y x = option_map CompOpp (SFcompare x y).
Proof.
  destruct x as [sx|sx| |sx mx ex], y as [sy|sy| |sy my ey]; simpl;
    try reflexivity;
    try (destruct sx; reflexivity); try (destruct sy; reflexivity);
    try (destruct sx, sy; reflexivity).
  destruct sx, sy; try reflexivity;
    rewrite (Z.compare_antisym ex ey); destruct (ex ?= ey)%Z; simpl;
    try reflexivity;
    rewrite (Pos.compare_cont_antisym mx my Eq); simpl;
    try rewrite CompOpp_involutive; reflexivity.
Qed.

(** [a <= b] excludes [a > b]. *)
Lemma leb_not_gtb (a b : float) : (a <=? b)%float = true → Binary64.gtb a b = false.
Proof.
  unfold Binary64.gtb. rewrite FloatAxioms.leb_spec, FloatAxioms.ltb_spec. unfold SFleb, SFltb.
  rewrite (SFcompare_antisym (Prim2SF a) (Prim2SF b)).
  destruct (SFcompare (Prim2SF a) (Prim2SF b)) as [[| |]|]; simpl; congruence.
Qed.

(** [a <= b] excludes [b < a]. *)
Lemma leb_not_ltb (a b : float) : (a <=? b)%float = true → (b <? a)%float = false.
Proof. exact (leb_not_gtb a b). Qed.

(** A float equal to zero is one of the two zeros. *)
Lemma eqb_zero_inv (x : float) :
  (x =? 0)%float = true → ∃ s, Prim2SF x = S754_zero s.
Proof.
  rewrite FloatAxioms.eqb_spec. change (Prim2SF 0) with (S754_zero false).
  destruct (Prim2SF x) as [s|s| |s m e]; simpl; try discriminate.
  - eauto.
  - destruct s; discriminate.
  - destruct s; discriminate.
Qed.

(** A float below zero is negative and not a zero. *)
Lemma ltb_zero_inv (x : float) :
  (x <? 0)%float = true →
  Prim2SF x = S754_infinity true ∨ ∃ m e, Prim2SF x = S754_finite true m e.
Proof.
  rewrite FloatAxioms.ltb_spec. change (Prim2SF 0) with (S754_zero false).
  destruct (Prim2SF x) as [s|s| |s m e]; simpl; try discriminate.
  - destruct s; [auto | discriminate].
  - destruct s; [eauto | discriminate].
Qed.

(** A float that is at least zero is a zero or positive. *)
Lemma leb_zero_inv (x : float) :
  (0 <=? x)%float = true →
  (∃ s, Prim2SF x = S754_zero s) ∨ Prim2SF x = S754_infinity false
  ∨ ∃ m e, Prim2SF x = S754_finite false m e.
Proof.
  rewrite FloatAxioms.leb_spec. change (Prim2SF 0) with (S754_zero false).
  destruct (Prim2SF x) as [s|s| |s m e]; simpl; try discriminate.
  - eauto.
  - destruct s; [discriminate | auto].
  - destruct s; [discriminate | eauto].
Qed.

(** A float that is neither zero nor [nan] is an infinity or a finite
    number that is not zero. *)
Lemma nonzero_inv (x : float) :
  (x =? 0)%float = false → (x =? x)%float = true →
  (∃ s, Prim2SF x = S754_infinity s) ∨ ∃ s m e, Prim2SF x = S754_finite s m e.
Proof.
  rewrite !FloatAxioms.eqb_spec. change (Prim2SF 0) with (S754_zero false).
  destruct (Prim2SF x) as [s|s| |s m e]; simpl; try discriminate; eauto.
Qed.

Lemma SFabs_signed (x : spec_float) : nan_or_signed false (SFabs x).
Proof. destruct x; simpl; auto. Qed.

(** Rounding keeps the sign it is given. *)
Lemma binary_round_aux_signed (s : bool) (m e : Z) (l : location) :
  nan_or_signed s (binary_round_aux prec emax s m e l).
Proof.
  unfold binary_round_aux.
  destruct (shr_fexp prec emax m e l) as [mrs' e'].
  destruct (shr_fexp prec emax _ e' loc_Exact) as [mrs'' e''].
  destruct (shr_m mrs''); simpl; [reflexivity| |exact I].
  destruct (e'' <=? emax - prec)%Z; reflexivity.
Qed.

(** A quotient of a number that is not negative by a negative number is
    [nan] or has the negative sign. *)
Lemma SFdiv_by_negative (x y : spec_float) :
  nan_or_signed false x →
  y = S754_infinity true ∨ (∃ m e, y = S754_finite true m e) →
  nan_or_signed true (SF64div x y).
Proof.
  intros Hx [->|(m & e & ->)]; destruct x as [sx|sx| |sx mx ex]; simpl in *;
    subst; try exact I; try reflexivity.
  destruct (SFdiv_core_binary prec emax (Z.pos mx) ex (Z.pos m) e) as [[mz ez] lz].
  apply binary_round_aux_signed.
Qed.

(** Nothing that is at least zero is below a negative number or [nan]. *)
Lemma not_gtb_negative (x t : float) :
  nan_or_signed true (Prim2SF x) → (0 <=? t)%float = true →
  Binary64.gtb x t = false.
Proof.
  intros Hx Ht. unfold Binary64.gtb. rewrite FloatAxioms.ltb_spec.
  destruct (leb_zero_inv t Ht) as [(s & ->)|[->|(m & e & ->)]];
    destruct (Prim2SF x) as [sx|sx| |sx mx ex]; simpl in Hx; subst; reflexivity.
Qed.

(** Nothing is above negative infinity or [nan]. *)
Lemma not_gtb_neg_infinity (x t : float) :
  Prim2SF x = S754_nan ∨ Prim2SF x = S754_infinity true →
  Binary64.gtb x t = false.
Proof.
  intros Hx. unfold Binary64.gtb. rewrite FloatAxioms.ltb_spec.
  destruct Hx as [-> | ->]; destruct (Prim2SF t) as [s|s| |s m e];
    try reflexivity; destruct s; reflexivity.
Qed.

(** The relative change the loop of [detect_sudden_changes] computes,
    for each kind of previous value. *)
Lemma ratio_after_zero (current previous : float) :
  (previous = 0%float →
   (current =? 0)%float = false → (current =? current)%float = true →
   (abs (current - previous) / previous)%float = infinity)
  ∧ (previous = (-0)%float →
     let ratio := Prim2SF (abs (current - previous) / previous)%float in
     ratio = S754_nan ∨ ratio = S754_infinity true)
  ∧ ((previous =? 0)%float = true → (current =? 0)%float = true →
     Prim2SF (abs (current - previous) / previous)%float = S754_nan)
  ∧ ((previous <? 0)%float = true →
     nan_or_signed true (Prim2SF (abs (current - previous) / previous)%float)).
Proof.
  rewrite div_spec, abs_spec, sub_spec.
  split; [|split; [|split]].
  - intros -> Hnz Hnn. apply Prim2SF_inj. rewrite div_spec, abs_spec, sub_spec.
    change (Prim2SF 0) with (S754_zero false).
    change (Prim2SF infinity) with (S754_infinity false).
    destruct (nonzero_inv current Hnz Hnn) as [(s & ->)|(s & m & e & ->)];
      reflexivity.
  - intros ->. change (Prim2SF (-0)) with (S754_zero true).
    destruct (Prim2SF current) as [s|s| |s m e]; simpl; auto.
    destruct s; simpl; auto.
  - intros Hp Hc. destruct (eqb_zero_inv _ Hp) as (sp & ->).
    destruct (eqb_zero_inv _ Hc) as (sc & ->).
    destruct sc, sp; reflexivity.
  - intros Hp. apply SFdiv_by_negative; [apply SFabs_signed|].
    apply ltb_zero_inv. exact Hp.
Qed.

(** ** A previous value of zero, and a negative one *)

Lemma sudden_change_step_snoc {T} (values : list float) (v : float)
    (timestamps : list T) (threshold : float)
    (changes : list (Binary64.AnomalyDetector.Change T)) (i : nat) :
  (1 <= i < length values)%nat →
  Binary64.AnomalyDetector.sudden_change_step (values ++ [v]) timestamps threshold
    changes i
  = Binary64.AnomalyDetector.sudden_change_step values timestamps threshold changes i.
Proof.
  intros Hi. unfold Binary64.AnomalyDetector.sudden_change_step.
  rewrite !lookup_app_l by lia. reflexivity.
Qed.

Lemma sudden_change_loop_snoc {T} (values : list float) (v : float)
    (timestamps : list T) (threshold : float) (indices : list nat) :
  Forall (fun i => (1 <= i < length values)%nat) indices →
  ∀ acc,
    foldl (fun acc i =>
             changes ← acc;
             Binary64.AnomalyDetector.sudden_change_step (values ++ [v]) timestamps
               threshold changes i)
          acc indices
    = foldl (fun acc i =>
               changes ← acc;
               Binary64.AnomalyDetector.sudden_change_step values timestamps threshold
                 changes i)
            acc indices.
Proof.
  induction 1 as [|i rest Hi _ IH]; intros acc; simpl; [reflexivity|].
  rewrite IH. f_equal. destruct acc as [changes|]; [|reflexivity].
  cbn [mbind option_bind]. apply sudden_change_step_snoc. exact Hi.
Qed.

(** Detection on a series with one more reading: the detection on the
    series so far, then one step for the new reading. *)
Lemma detect_sudden_changes_extend {T} (values : list float) (v : float)
    (timestamps : list T) (threshold : float) :
  values ≠ [] →
  Binary64.AnomalyDetector.detect_sudden_changes (values ++ [v]) timestamps threshold
  = changes ← Binary64.AnomalyDetector.detect_sudden_changes values timestamps threshold;
    Binary64.AnomalyDetector.sudden_change_step (values ++ [v]) timestamps threshold
      changes (length values).
Proof.
  intros Hne. unfold Binary64.AnomalyDetector.detect_sudden_changes.
  rewrite length_app. simpl length.
  replace (length values + 1 - 1)%nat with (S (length values - 1)) by
    (destruct values; [contradiction | simpl; lia]).
  rewrite seq_S, foldl_app. simpl foldl.
  rewrite sudden_change_loop_snoc.
  - replace (S (length values - 1)) with (length values) by
      (destruct values; [contradiction | simpl; lia]).
    reflexivity.
  - apply Forall_forall. intros i Hi. apply elem_of_seq in Hi. lia.
Qed.

(** X16: a previous value of zero is no fault, and its sign decides.
    After [+0.0] the change to a value that is neither zero nor [nan] is
    flagged at every threshold below infinity, with an infinite
    change_percent and the severity "high"; after [-0.0] nothing is ever
    flagged (the ratio is negative infinity or [nan]); the change from a
    zero to a zero (the [nan] of 0 / 0) is never flagged; and after a
    negative previous value nothing is flagged at a threshold that is
    not negative, however large the change. *)
Theorem zero_and_negative_previous {T} (values : list float) (previous current : float)
    (timestamps : list T) (threshold : float)
    (changes : list (Binary64.AnomalyDetector.Change T)) (ts : T) :
  Binary64.AnomalyDetector.detect_sudden_changes (values ++ [previous]) timestamps
    threshold = Some changes →
  timestamps !! S (length values) = Some ts →
  let extended :=
    Binary64.AnomalyDetector.detect_sudden_changes (values ++ [previous; current])
      timestamps threshold in
  (previous = 0%float →
   (current =? 0)%float = false → (current =? current)%float = true →
   (threshold <? infinity)%float = true →
   extended = Some (changes ++ [ {|
     Binary64.AnomalyDetector.timestamp := ts;
     Binary64.AnomalyDetector.previous_value := previous;
     Binary64.AnomalyDetector.current_value := current;
     Binary64.AnomalyDetector.change_percent := infinity;
     Binary64.AnomalyDetector.severity := "high" |} ]))
  ∧ (previous = (-0)%float → extended = Some changes)
  ∧ ((previous =? 0)%float = true → (current =? 0)%float = true →
     extended = Some changes)
  ∧ ((previous <? 0)%float = true → (0 <=? threshold)%float = true →
     extended = Some changes).
Proof.
  intros Hprefix Hts extended. unfold extended.
  replace (values ++ [previous; current]) with ((values ++ [previous]) ++ [current])
    by (rewrite <- app_assoc; reflexivity).
  rewrite detect_sudden_changes_extend by (destruct values; discriminate).
  rewrite Hprefix. cbn [mbind option_bind].
  set (series := values ++ [previous]).
  assert (Hlen : length series = S (length values)).
  { unfold series. rewrite length_app. simpl. lia. }
  assert (Hcur : (series ++ [current]) !! length series = Some current)
    by (apply list_lookup_middle; reflexivity).
  assert (Hprev : (series ++ [current]) !! (length series - 1)%nat = Some previous).
  { rewrite Hlen. replace (S (length values) - 1)%nat with (length values) by lia.
    rewrite lookup_app_l by (rewrite Hlen; lia). unfold series.
    apply list_lookup_middle. reflexivity. }
  unfold Binary64.AnomalyDetector.sudden_change_step.
  rewrite Hcur, Hprev. cbn [mbind option_bind]. rewrite Hlen, Hts.
  cbn [mbind option_bind].
  destruct (ratio_after_zero current previous) as (Hpos & Hneg & Hzero & Hbelow).
  split; [|split; [|split]].
  - intros Hp Hnz Hnn Hthr. rewrite (Hpos Hp Hnz Hnn).
    unfold Binary64.gtb at 1. rewrite Hthr. reflexivity.
  - intros Hp. rewrite (not_gtb_neg_infinity _ threshold (Hneg Hp)). reflexivity.
  - intros Hp Hc. rewrite (not_gtb_neg_infinity _ threshold); [reflexivity|].
    left. exact (Hzero Hp Hc).
  - intros Hp Hthr. rewrite (not_gtb_negative _ threshold (Hbelow Hp) Hthr).
    reflexivity.
Qed.

(** The series 0, 5: the change is flagged with an infinite percentage;
    the series -0.0, 5 is not flagged. *)
Lemma zero_and_negative_previous_witness :
  Binary64.AnomalyDetector.detect_sudden_changes [0; 5]%float [0; 1]%nat 0.2%float
  = Some [ {| Binary64.AnomalyDetector.timestamp := 1%nat;
              Binary64.AnomalyDetector.previous_value := 0%float;
              Binary64.AnomalyDetector.current_value := 5%float;
              Binary64.AnomalyDetector.change_percent := infinity;
              Binary64.AnomalyDetector.severity := "high" |} ]
  ∧ Binary64.AnomalyDetector.detect_sudden_changes [-0; 5]%float [0; 1]%nat 0.2%float
    = Some [].
Proof.
  split.
  - destruct (zero_and_negative_previous [] 0%float 5%float [0; 1]%nat 0.2%float
                [] 1%nat) as (Hjump & _ & _ & _).
    + reflexivity.
    + reflexivity.
    + apply Hjump; reflexivity.
  - destruct (zero_and_negative_previous [] (-0)%float 5%float [0; 1]%nat 0.2%float
                [] 1%nat) as (_ & Hneg & _ & _).
    + reflexivity.
    + reflexivity.
    + apply Hneg. reflexivity.
Defined.

(** ** The vitals risk assessor *)

(** Above 20 is above 10. *)
Lemma above_20_above_10 (x : float) : (20 <? x)%float = true → (10 <? x)%float = true.
Proof.
  rewrite !FloatAxioms.ltb_spec.
  set (c20 := Prim2SF 20). set (c10 := Prim2SF 10).
  vm_compute in c20, c10. subst c20 c10.
  destruct (Prim2SF x) as [s|s| |s m e]; cbn [SFltb SFcompare]; try discriminate.
  - destruct s; [discriminate | reflexivity].
  - destruct s; [discriminate|].
    destruct (Z.compare_spec (-48) e) as [<-|Hlt|Hgt].
    + intros _. reflexivity.
    + intros _. destruct (Z.compare_spec (-49) e); [lia | reflexivity | lia].
    + discriminate.
Qed.

Ltac level_cases :=
  repeat split; intros; try reflexivity; try congruence; exfalso;
  repeat match goal with
  | H : (_ <=? _)%float = true |- _ => apply leb_not_ltb in H
  | H : (20 <? _)%float = true |- _ => apply above_20_above_10 in H
  end; congruence.

(** C7: for a known vital type, a mean value and at most two anomalies
    (so that the anomaly count escalates nothing), the assessor returns
    the level "high" when the percent deviation of the mean from the
    violated range boundary, as binary64 arithmetic computes it, exceeds
    20, "medium" when it exceeds 10 but not 20, and "low" otherwise, a
    mean within the range included; the heart rate with mean 130 and no
    anomaly is "high". *)
Theorem vital_risk_by_deviation (vital_type : string)
    (range : Binary64.NormalRange.t) (statistics : gmap string float) (mean : float)
    (anomalies : list Binary64.Anomaly.t) (trend : string) :
  Binary64.VitalsAnalyzer.normal_ranges !! vital_type = Some range →
  statistics !! "mean" = Some mean →
  (length anomalies <= 2)%nat →
  (∃ r, Binary64.VitalsAnalyzer._assess_vital_risk vital_type statistics anomalies trend
        = Some r
        ∧ ((20 <? percent_deviation range mean)%float = true →
           Binary64.RiskAssessment.riskLevel r = "high")
        ∧ ((10 <? percent_deviation range mean)%float = true →
           (20 <? percent_deviation range mean)%float = false →
           Binary64.RiskAssessment.riskLevel r = "medium")
        ∧ ((10 <? percent_deviation range mean)%float = false →
           Binary64.RiskAssessment.riskLevel r = "low")
        ∧ ((Binary64.NormalRange.min range <=? mean)%float = true →
           (mean <=? Binary64.NormalRange.max range)%float = true →
           Binary64.RiskAssessment.riskLevel r = "low"))
  ∧ (Binary64.RiskAssessment.riskLevel <$>
       Binary64.VitalsAnalyzer._assess_vital_risk "heartRate"
         {[ "mean" := 130%float ]} [] "stable")
    = Some "high".
Proof.
  intros Hrange Hmean Hlen. split; [|vm_compute; reflexivity].
  unfold Binary64.VitalsAnalyzer._assess_vital_risk, percent_deviation, Binary64.gtb.
  rewrite Hrange, Hmean. cbn [mbind option_bind].
  assert (H5 : (5 <? length anomalies)%nat = false) by (apply Nat.ltb_ge; lia).
  assert (H2 : (2 <? length anomalies)%nat = false) by (apply Nat.ltb_ge; lia).
  set (lo := Binary64.NormalRange.min range).
  set (hi := Binary64.NormalRange.max range).
  destruct (mean <? lo)%float eqn:Hlo; [|destruct (hi <? mean)%float eqn:Hhi].
  - destruct (20 <? (lo - mean) / lo * 100)%float eqn:H20;
      [|destruct (10 <? (lo - mean) / lo * 100)%float eqn:H10];
      rewrite H5, H2; eexists; (split; [reflexivity|]); cbn;
      level_cases.
  - destruct (20 <? (mean - hi) / hi * 100)%float eqn:H20;
      [|destruct (10 <? (mean - hi) / hi * 100)%float eqn:H10];
      rewrite H5, H2; eexists; (split; [reflexivity|]); cbn;
      level_cases.
  - rewrite H5, H2. eexists. split; [reflexivity|]. cbn.
    repeat split; intros; try reflexivity; discriminate.
Qed.

(** The heart rate with mean 130 deviates by 30 percent and is "high". *)
Lemma vital_risk_by_deviation_witness :
  percent_deviation
    {| Binary64.NormalRange.min := 60; Binary64.NormalRange.max := 100;
       Binary64.NormalRange.unit := "bpm" |} 130
  = 30%float
  ∧ ∃ r, Binary64.VitalsAnalyzer._assess_vital_risk "heartRate"
           {[ "mean" := 130%float ]} [] "stable"
         = Some r
         ∧ Binary64.RiskAssessment.riskLevel r = "high".
Proof.
  split; [reflexivity|].
  destruct (vital_risk_by_deviation "heartRate"
              {| Binary64.NormalRange.min := 60; Binary64.NormalRange.max := 100;
                 Binary64.NormalRange.unit := "bpm" |}
              {[ "mean" := 130%float ]} 130%float [] "stable")
    as [(r & Hr & Hhigh & _) _].
  - reflexivity.
  - reflexivity.
  - simpl. lia.
  - exists r. split; [exact Hr|]. apply Hhigh. reflexivity.
Defined.

(** At the boundary the level is that of the computed deviation: a
    respiratory rate of mean 9.6 deviates by 20.000000000000004 percent
    and is "high"; a temperature of mean 29.2 deviates by 20 percent as
    computed and is "medium". *)
Example deviation_at_the_boundary :
  percent_deviation
    {| Binary64.NormalRange.min := 12; Binary64.NormalRange.max := 20;
       Binary64.NormalRange.unit := "brpm" |} 9.6
  = 20.000000000000004%float
  ∧ (Binary64.RiskAssessment.riskLevel <$>
       Binary64.VitalsAnalyzer._assess_vital_risk "respiratoryRate"
         {[ "mean" := 9.6%float ]} [] "stable") = Some "high"
  ∧ percent_deviation
      {| Binary64.NormalRange.min := 36.5; Binary64.NormalRange.max := 37.5;
         Binary64.NormalRange.unit := "Â°C" |} 29.2
    = 20%float
  ∧ (Binary64.RiskAssessment.riskLevel <$>
       Binary64.VitalsAnalyzer._assess_vital_risk "temperature"
         {[ "mean" := 29.2%float ]} [] "stable") = Some "medium".
Proof. vm_compute. repeat split; reflexivity. Qed.

(** ** Series of equal values *)

(** The z-score of a reading that equals the mean: 0, or [nan] when the
    standard deviation is a zero or [nan]; never above 3. *)
Lemma zscore_of_zero_deviation (d std : float) :
  (d =? 0)%float = true →
  Binary64.gtb (abs (d / std)) 3 = false
  ∧ ((std =? 0)%float = true → Prim2SF (abs (d / std)) = S754_nan).
Proof.
  intros Hd. destruct (eqb_zero_inv d Hd) as (s & Hs).
  unfold Binary64.gtb. rewrite FloatAxioms.ltb_spec, abs_spec, div_spec, Hs. split.
  - destruct (Prim2SF std) as [s'|s'| |s' m e]; reflexivity.
  - intros Hstd. destruct (eqb_zero_inv std Hstd) as (s' & ->). reflexivity.
Qed.

(** A row whose z-score is not above 3 gives no entry of the z-score
    rule. *)
Lemma anomaly_of_row_not_triggered (lower_bound upper_bound : float)
    (row : Binary64.Reading.t) (z_score : float) :
  Binary64.gtb z_score 3 = false →
  Forall (fun a => ¬ zscore_triggered a ∧ Binary64.Anomaly.deviation a = z_score)
    (Binary64.VitalsAnalyzer.anomaly_of_row lower_bound upper_bound row z_score).
Proof.
  intros Hz. unfold Binary64.VitalsAnalyzer.anomaly_of_row. rewrite Hz.
  destruct (_ || _); [|constructor].
  constructor; [|constructor]. split; [|reflexivity].
  intros (rest & Hrest). discriminate Hrest.
Qed.

Lemma detect_rows_not_triggered (lower_bound upper_bound mean std : float)
    (df : list Binary64.Reading.t) :
  Forall (fun v => (v - mean =? 0)%float = true) (map Binary64.Reading.value df) →
  Forall (fun a => ¬ zscore_triggered a
                   ∧ ((std =? 0)%float = true →
                      Prim2SF (Binary64.Anomaly.deviation a) = S754_nan))
    (concat (zip_with (Binary64.VitalsAnalyzer.anomaly_of_row lower_bound upper_bound)
               df
               (map (fun v => abs ((v - mean) / std))%float
                  (map Binary64.Reading.value df)))).
Proof.
  induction df as [|row rest IH]; intros Hall; [constructor|].
  apply Forall_cons in Hall as [Hrow Hrest]. simpl.
  apply Forall_app. split; [|exact (IH Hrest)].
  destruct (zscore_of_zero_deviation _ std Hrow) as [Hz Hnan].
  eapply Forall_impl; [apply anomaly_of_row_not_triggered; exact Hz|].
  intros a [Hnot Hdev]. split; [exact Hnot|]. rewrite Hdev. exact Hnan.
Qed.

(** C5, as amended: for every series whose values all equal the
    computed mean (every deviation value - mean is zero), the detector
    flags no point by the z-score rule, whatever the summation, the
    percentiles and the standard deviation are; with a standard
    deviation of 0 the z-score of every entry is the [nan] of 0 / 0. *)
Theorem zero_deviations_not_flagged (np_sum : list float → float)
    (np_percentile : list float → float → float) (df : list Binary64.Reading.t) :
  Forall (fun v => (v - Binary64.VitalsAnalyzer.np_mean np_sum
                          (map Binary64.Reading.value df) =? 0)%float = true)
    (map Binary64.Reading.value df) →
  Forall (fun a => ¬ zscore_triggered a
                   ∧ ((Binary64.VitalsAnalyzer.np_std np_sum
                         (map Binary64.Reading.value df) =? 0)%float = true →
                      Prim2SF (Binary64.Anomaly.deviation a) = S754_nan))
    (Binary64.VitalsAnalyzer._detect_anomalies np_sum np_percentile df).
Proof.
  intros Hall. unfold Binary64.VitalsAnalyzer._detect_anomalies. cbv zeta.
  apply detect_rows_not_triggered. exact Hall.
Qed.

(** Three readings of 100: the mean is 100, the standard deviation 0,
    and nothing is flagged. *)
Lemma zero_deviations_not_flagged_witness :
  Binary64.VitalsAnalyzer.np_mean Binary64.np_sum_short
    (map Binary64.Reading.value (equal_readings 100)) = 100%float
  ∧ Binary64.VitalsAnalyzer.np_std Binary64.np_sum_short
      (map Binary64.Reading.value (equal_readings 100)) = 0%float
  ∧ Forall (fun a => ¬ zscore_triggered a
                     ∧ ((Binary64.VitalsAnalyzer.np_std Binary64.np_sum_short
                           (map Binary64.Reading.value (equal_readings 100))
                         =? 0)%float = true →
                        Prim2SF (Binary64.Anomaly.deviation a) = S754_nan))
      (Binary64.VitalsAnalyzer._detect_anomalies Binary64.np_sum_short
         Binary64.np_percentile_linear (equal_readings 100)).
Proof.
  split; [reflexivity|]. split; [reflexivity|].
  apply (zero_deviations_not_flagged Binary64.np_sum_short
           Binary64.np_percentile_linear (equal_readings 100)).
  repeat constructor.
Defined.

(** Three equal readings whose mean is not computed exactly: the
    population standard deviation is 0 (the squared deviations underflow)
    and yet each reading is flagged by the z-score rule, with an infinite
    z-score and the severity "high". *)
Lemma equal_values_flagged :
  let values := map Binary64.Reading.value (equal_readings tiny_value) in
  let anomalies :=
    Binary64.VitalsAnalyzer._detect_anomalies Binary64.np_sum_short
      Binary64.np_percentile_linear (equal_readings tiny_value) in
  values = [tiny_value; tiny_value; tiny_value]
  ∧ Binary64.VitalsAnalyzer.np_std Binary64.np_sum_short values = 0%float
  ∧ Binary64.VitalsAnalyzer.np_mean Binary64.np_sum_short values ≠ tiny_value
  ∧ length anomalies = 3%nat
  ∧ Forall zscore_triggered anomalies
  ∧ map Binary64.Anomaly.deviation anomalies = [infinity; infinity; infinity]
  ∧ map Binary64.Anomaly.severity anomalies = ["high"; "high"; "high"].
Proof.
  cbv zeta. split; [reflexivity|]. split; [vm_compute; reflexivity|].
  split; [vm_compute; intros H; discriminate H|].
  split; [vm_compute; reflexivity|].
  split; [|split; vm_compute; reflexivity].
  vm_compute. repeat constructor; eexists; reflexivity.
Qed.

(** Rounding of the mean shows at ordinary values too: the mean of three
    readings of 98.6 is computed below 98.6. *)
Example mean_below_the_values :
  Binary64.VitalsAnalyzer.np_mean Binary64.np_sum_short [98.6; 98.6; 98.6]%float
  = 98.59999999999998%float.
Proof. vm_compute. reflexivity. Qed.

(** ** Binary64 arithmetic: differences and quotients that are not negative *)

Lemma iter_pos_invariant {A} (P : A → Prop) (f : A → A) :
  (∀ x, P x → P (f x)) → ∀ p x, P x → P (SpecFloat.iter_pos f p x).
Proof.
  intros Hf. induction p as [p IH|p IH|]; intros x Hx; simpl; auto.
Qed.

Lemma shr_1_nonneg (mrs : shr_record) : (0 <= shr_m mrs)%Z → (0 <= shr_m (shr_1 mrs))%Z.
Proof.
  destruct mrs as [m r s]. simpl. destruct m as [|[p|p|]|p]; simpl; lia.
Qed.

Lemma shr_fexp_nonneg (m e : Z) (l : location) :
  (0 <= m)%Z → (0 <= shr_m (fst (shr_fexp prec emax m e l)))%Z.
Proof.
  intros Hm. unfold shr_fexp, shr.
  assert (H0 : (0 <= shr_m (shr_record_of_loc m l))%Z).
  { destruct l as [|[| |]]; exact Hm. }
  destruct (fexp prec emax (Zdigits2 m + e) - e)%Z; simpl; try exact H0.
  apply iter_pos_invariant; [exact shr_1_nonneg | exact H0].
Qed.

Lemma round_nearest_even_nonneg (m : Z) (l : location) :
  (0 <= m)%Z → (0 <= round_nearest_even m l)%Z.
Proof.
  intros Hm. destruct l as [|[| |]]; simpl; try lia.
  destruct (Z.even m); lia.
Qed.

(** Rounding a magnitude that is not negative to the sign [+] gives a
    value that is not negative: never [nan]. *)
Lemma binary_round_aux_nonneg (m e : Z) (l : location) :
  (0 <= m)%Z → sf_nonneg (binary_round_aux prec emax false m e l).
Proof.
  intros Hm. unfold binary_round_aux.
  pose proof (shr_fexp_nonneg m e l Hm) as H1.
  destruct (shr_fexp prec emax m e l) as [mrs' e']. simpl in H1.
  pose proof (shr_fexp_nonneg _ e' loc_Exact
                (round_nearest_even_nonneg _ (loc_of_shr_record mrs') H1)) as H2.
  destruct (shr_fexp prec emax _ e' loc_Exact) as [mrs'' e'']. simpl in H2.
  destruct (shr_m mrs''); simpl; [exact I | | lia].
  destruct (e'' <=? emax - prec)%Z; reflexivity.
Qed.

Lemma binary_round_nonneg (m : positive) (e : Z) :
  sf_nonneg (binary_round prec emax false m e).
Proof.
  unfold binary_round. destruct (shl_align m e _) as [mz ez].
  apply binary_round_aux_nonneg. lia.
Qed.

Lemma digits2_pos_lower (p : positive) :
  (2 ^ (Z.pos (digits2_pos p) - 1) <= Z.pos p)%Z.
Proof.
  induction p as [p IH|p IH|]; simpl digits2_pos.
  - rewrite Pos2Z.inj_succ.
    replace (Z.succ (Z.pos (digits2_pos p)) - 1)%Z
      with (Z.succ (Z.pos (digits2_pos p) - 1)) by lia.
    rewrite Z.pow_succ_r by lia. lia.
  - rewrite Pos2Z.inj_succ.
    replace (Z.succ (Z.pos (digits2_pos p)) - 1)%Z
      with (Z.succ (Z.pos (digits2_pos p) - 1)) by lia.
    rewrite Z.pow_succ_r by lia. lia.
  - simpl. lia.
Qed.

Lemma digits2_pos_upper (p : positive) :
  (Z.pos p < 2 ^ Z.pos (digits2_pos p))%Z.
Proof.
  induction p as [p IH|p IH|]; simpl digits2_pos.
  - rewrite Pos2Z.inj_succ, Z.pow_succ_r by lia. lia.
  - rewrite Pos2Z.inj_succ, Z.pow_succ_r by lia. lia.
  - simpl. lia.
Qed.

Lemma iter_xO_value (m d : positive) :
  Z.pos (Pos.iter xO m d) = (Z.pos m * 2 ^ Z.pos d)%Z.
Proof.
  revert m. induction d as [|d IH] using Pos.peano_ind; intros m.
  - simpl. lia.
  - rewrite Pos.iter_succ, Pos2Z.inj_succ, Z.pow_succ_r by lia.
    rewrite Pos2Z.inj_xO, IH. lia.
Qed.

(** The mantissa of a valid number above the smallest exponent has 53
    bits; every valid mantissa has at most 53. *)
Lemma valid_mantissa_bounds (s : bool) (m : positive) (e : Z) :
  valid_binary (S754_finite s m e) = true →
  (Z.pos m < 2 ^ 53)%Z ∧ (-1074 <= e)%Z ∧ ((-1074 < e)%Z → (2 ^ 52 <= Z.pos m)%Z).
Proof.
  unfold SpecFloat.valid_binary, bounded, canonical_mantissa, fexp, SpecFloat.emin.
  intros H. apply andb_true_iff in H as [Hc _]. apply Z.eqb_eq in Hc.
  change prec with 53%Z in Hc. change emax with 1024%Z in Hc.
  pose proof (digits2_pos_lower m) as Hlo. pose proof (digits2_pos_upper m) as Hup.
  set (d := Z.pos (digits2_pos m)) in *.
  assert (Hd : (0 < d)%Z) by (unfold d; lia).
  split; [|split].
  - assert (d <= 53)%Z by lia.
    eapply Z.lt_le_trans; [exact Hup|]. apply Z.pow_le_mono_r; lia.
  - lia.
  - intros He. assert (d = 53%Z) as Hd53 by lia. rewrite Hd53 in Hlo. exact Hlo.
Qed.

(** [x - c] for [x > c > 0] is not negative. *)
Lemma SFsub_above_nonneg (x c : float) (mc : positive) (ec : Z) :
  Prim2SF c = S754_finite false mc ec →
  (c <? x)%float = true →
  sf_nonneg (Prim2SF (x - c)).
Proof.
  intros Hc Hlt. rewrite sub_spec, Hc.
  rewrite FloatAxioms.ltb_spec, Hc in Hlt.
  pose proof (Prim2SF_valid c) as Vc. rewrite Hc in Vc.
  pose proof (Prim2SF_valid x) as Vx.
  destruct (Prim2SF x) as [s|s| |s m e]; cbn [SFltb SFcompare] in Hlt;
    try discriminate.
  - destruct s; [discriminate | reflexivity].
  - destruct s; [discriminate|].
    destruct (valid_mantissa_bounds _ _ _ Vc) as (Hmc & Hec & _).
    destruct (valid_mantissa_bounds _ _ _ Vx) as (_ & _ & Hm).
    unfold SF64sub, SFsub, cond_Zopp.
    assert (Hpos : ∃ p, (Z.pos (fst (shl_align m e (Z.min e ec)))
                         - Z.pos (fst (shl_align mc ec (Z.min e ec))))%Z = Z.pos p).
    { unfold shl_align.
      destruct (Z.compare_spec ec e) as [Heq|Hlt'|Hgt]; [| |discriminate].
      - subst ec. rewrite Z.min_id, Z.sub_diag. cbn [fst].
        change (Pos.compare_cont Eq mc m) with (mc ?= m)%positive in Hlt.
        destruct (mc ?= m)%positive eqn:Hcmp; try discriminate.
        apply Pos.compare_lt_iff in Hcmp.
        exists (m - mc)%positive. rewrite Pos2Z.inj_sub by exact Hcmp. reflexivity.
      - rewrite Z.min_r by lia. rewrite Z.sub_diag.
        destruct (ec - e)%Z as [|q|q] eqn:Hq; try lia. cbn [fst].
        rewrite iter_xO_value.
        assert (Hq' : Z.pos q = (e - ec)%Z) by lia.
        assert (2 ^ 53 <= Z.pos m * 2 ^ Z.pos q)%Z.
        { specialize (Hm ltac:(lia)).
          assert (2 <= 2 ^ Z.pos q)%Z.
          { change 2%Z with (2 ^ 1)%Z at 1. apply Z.pow_le_mono_r; lia. }
          change (2 ^ 53)%Z with (2 ^ 52 * 2)%Z. nia. }
        exists (Z.to_pos (Z.pos m * 2 ^ Z.pos q - Z.pos mc)). lia. }
    destruct Hpos as (p & ->). cbn [binary_normalize]. apply binary_round_nonneg.
Qed.

(** A quotient of a value that is not negative by a positive number is
    not negative. *)
Lemma SFdiv_nonneg (x : spec_float) (md : positive) (ed : Z) :
  sf_nonneg x → sf_nonneg (SF64div x (S754_finite false md ed)).
Proof.
  destruct x as [s|s| |s m e]; simpl; intros Hx; try exact I; try contradiction;
    subst; try reflexivity.
  unfold SFdiv_core_binary.
  set (m' := match (e - ed - _)%Z with Z0 => Z.pos m | Z.pos _ => _ | Z.neg _ => 0%Z end).
  assert (Hm' : (0 <= m')%Z).
  { unfold m'. destruct (e - ed - _)%Z; try lia. apply Z.shiftl_nonneg. lia. }
  pose proof (Z.div_eucl_eq m' (Z.pos md) ltac:(lia)) as Heq.
  pose proof (Z.mod_pos_bound m' (Z.pos md) ltac:(lia)) as Hr.
  unfold Z.modulo in Hr.
  destruct (Z.div_eucl m' (Z.pos md)) as [q r].
  apply binary_round_aux_nonneg. nia.
Qed.

(** ** The impacts pass the validation of the schema *)

Lemma sf_nonneg_leb_zero (y : float) : sf_nonneg (Prim2SF y) → (0 <=? y)%float = true.
Proof.
  rewrite FloatAxioms.leb_spec. change (Prim2SF 0) with (S754_zero false).
  destruct (Prim2SF y) as [s|s| |s m e]; simpl; intros H; subst;
    [reflexivity | reflexivity | contradiction | reflexivity].
Qed.

(** [min((x - c) / d, k)] for [x > c > 0], [d > 0] and a cap [k] below
    1/2 lies in the unit interval. *)
Lemma linear_impact_valid (x c d k : float) (mc md mk : positive) (ec ed ek : Z) :
  Prim2SF c = S754_finite false mc ec →
  Prim2SF d = S754_finite false md ed →
  Prim2SF k = S754_finite false mk ek → (ek < -52)%Z →
  Binary64.gtb x c = true →
  unit_interval (Binary64.py_min ((x - c) / d) k) = true.
Proof.
  intros Hc Hd Hk Hek Hx. unfold Binary64.gtb in Hx.
  assert (Hy : sf_nonneg (Prim2SF ((x - c) / d))).
  { rewrite div_spec, Hd. apply SFdiv_nonneg. eapply SFsub_above_nonneg; eassumption. }
  assert (Hk1 : unit_interval k = true).
  { unfold unit_interval. rewrite !FloatAxioms.leb_spec, Hk.
    change (Prim2SF 0) with (S754_zero false).
    change (Prim2SF 1) with (S754_finite false 4503599627370496 (-52)).
    cbn [SFleb SFcompare andb].
    destruct (Z.compare_spec ek (-52)); [lia | reflexivity | lia]. }
  unfold Binary64.py_min.
  destruct (k <? (x - c) / d)%float eqn:Hcap; [exact Hk1|].
  unfold unit_interval. rewrite (sf_nonneg_leb_zero _ Hy). cbn [andb].
  rewrite FloatAxioms.ltb_spec, Hk in Hcap. rewrite FloatAxioms.leb_spec.
  change (Prim2SF 1) with (S754_finite false 4503599627370496 (-52)).
  destruct (Prim2SF ((x - c) / d)) as [s|s| |s m e]; cbn [sf_nonneg] in Hy;
    try contradiction; subst; cbn [SFltb SFleb SFcompare] in *;
    try reflexivity; try discriminate.
  destruct (Z.compare_spec ek e); try discriminate;
    (destruct (Z.compare_spec e (-52)); [lia | reflexivity | lia]).
Qed.

Lemma RiskFactor_new_valid (f : string) (i : float) (d : Binary64.text) :
  unit_interval i = true →
  Binary64.RiskFactor_new f i d
  = Some {| Binary64.factor := f; Binary64.impact := i; Binary64.description := d |}.
Proof.
  unfold unit_interval, Binary64.RiskFactor_new. intros ->. reflexivity.
Qed.

Lemma append_if_valid (cond : bool) (f : string) (i : float) (d : Binary64.text)
    (factors : list Binary64.RiskFactor) :
  (cond = true → unit_interval i = true) →
  impacts_in_unit_interval factors →
  ∃ factors',
    Binary64.append_if cond (Binary64.RiskFactor_new f i d) factors = Some factors'
    ∧ impacts_in_unit_interval factors'.
Proof.
  intros Hi Hfs. unfold Binary64.append_if. destruct cond.
  - rewrite RiskFactor_new_valid by auto. cbn [mbind option_bind].
    eexists. split; [reflexivity|].
    apply Forall_app. split; [exact Hfs|]. constructor; [|constructor]. cbn. auto.
  - eexists. split; [reflexivity | exact Hfs].
Qed.

(** One [factors.append] of the scorers, with its bound. *)
Ltac factor_step :=
  match goal with
  | |- context [Binary64.append_if ?c (Binary64.RiskFactor_new ?f ?i ?d) ?fs] =>
      let fs' := fresh "factors" in
      let Hfs := fresh "Hfactors" in
      destruct (append_if_valid c f i d fs) as (fs' & -> & Hfs);
      [ intros ?;
        first [ reflexivity
              | eapply linear_impact_valid;
                [ vm_compute; reflexivity | vm_compute; reflexivity
                | vm_compute; reflexivity | lia | eassumption ] ]
      | assumption
      | cbn [mbind option_bind] ]
  end.

Lemma heart_factors_valid (data : Binary64.HeartDiseasePredictor.Data) (s : float) :
  ∃ factors,
    Binary64.HeartDiseasePredictor._identify_risk_factors data s = Some factors
    ∧ impacts_in_unit_interval factors.
Proof.
  unfold Binary64.HeartDiseasePredictor._identify_risk_factors. cbv zeta.
  assert (Hnil : impacts_in_unit_interval []) by constructor.
  do 4 factor_step. eexists. split; [reflexivity | assumption].
Qed.

Lemma diabetes_factors_valid (data : Binary64.DiabetesPredictor.Data) (s : float) :
  Binary64.DiabetesPredictor.bmi data ≠ Some None →
  ∃ factors,
    Binary64.DiabetesPredictor._identify_risk_factors data s = Some factors
    ∧ impacts_in_unit_interval factors.
Proof.
  intros Hbmi. unfold Binary64.DiabetesPredictor._identify_risk_factors. cbv zeta.
  assert (Hnil : impacts_in_unit_interval []) by constructor.
  destruct (Binary64.DiabetesPredictor.bmi data) as [[bmi|]|]; [|contradiction|];
    cbn [default from_option id mbind option_bind];
    do 2 factor_step; eexists; (split; [reflexivity | assumption]).
Qed.

Lemma stroke_factors_valid (data : Binary64.StrokePredictor.Data) (s : float) :
  ∃ factors,
    Binary64.StrokePredictor._identify_risk_factors data s = Some factors
    ∧ impacts_in_unit_interval factors.
Proof.
  unfold Binary64.StrokePredictor._identify_risk_factors. cbv zeta.
  assert (Hnil : impacts_in_unit_interval []) by constructor.
  do 3 factor_step. eexists. split; [reflexivity | assumption].
Qed.

(** ** The scores of the condition scorers *)

Lemma float_in_elem (x : float) (l : list float) : float_in x l = true → x ∈ l.
Proof.
  unfold float_in. intros H. apply existsb_exists in H as (y & Hy & Heq).
  apply FloatAxioms.Leibniz.eqb_spec in Heq. subst y.
  apply list_elem_of_In. exact Hy.
Qed.

Lemma forallb_elem (P : float → bool) (l : list float) (x : float) :
  forallb P l = true → x ∈ l → P x = true.
Proof.
  intros H Hx. rewrite forallb_forall in H. apply H. apply list_elem_of_In. exact Hx.
Qed.

Ltac score_cases :=
  repeat match goal with
  | |- context [Binary64.gtb ?x ?c] =>
      lazymatch c with
      | context [Binary64.gtb] => fail
      | _ => destruct (Binary64.gtb x c)
      end
  | |- context [default false ?o] => destruct (default false o)
  | |- context [Binary64.StrokePredictor.smoker ?d] =>
      destruct (Binary64.StrokePredictor.smoker d)
  end.

Lemma heart_score_elem (data : Binary64.HeartDiseasePredictor.Data) :
  Binary64.HeartDiseasePredictor._calculate_risk_score data ∈ heart_scores.
Proof.
  apply float_in_elem.
  unfold Binary64.HeartDiseasePredictor._calculate_risk_score. cbv zeta.
  score_cases; vm_compute; reflexivity.
Qed.

Lemma diabetes_score_elem (data : Binary64.DiabetesPredictor.Data) :
  Binary64.DiabetesPredictor.bmi data ≠ Some None →
  ∃ s, Binary64.DiabetesPredictor._calculate_risk_score data = Some s
       ∧ s ∈ diabetes_scores.
Proof.
  intros Hbmi. unfold Binary64.DiabetesPredictor._calculate_risk_score. cbv zeta.
  destruct (Binary64.DiabetesPredictor.bmi data) as [[bmi|]|]; [|contradiction|];
    cbn [default from_option id mbind option_bind];
    (eexists; split; [reflexivity|]); apply float_in_elem;
    score_cases; vm_compute; reflexivity.
Qed.

Lemma stroke_score_elem (data : Binary64.StrokePredictor.Data) :
  Binary64.StrokePredictor.bmi data ≠ Some None →
  ∃ s, Binary64.StrokePredictor._calculate_risk_score data = Some s
       ∧ s ∈ stroke_scores.
Proof.
  intros Hbmi. unfold Binary64.StrokePredictor._calculate_risk_score. cbv zeta.
  destruct (Binary64.StrokePredictor.bmi data) as [[bmi|]|]; [|contradiction|];
    cbn [default from_option id mbind option_bind];
    (eexists; split; [reflexivity|]); apply float_in_elem;
    score_cases; vm_compute; reflexivity.
Qed.

(** Every score a scorer can return lies in the unit interval. *)
Lemma scores_in_unit_interval :
  forallb unit_interval heart_scores = true
  ∧ forallb unit_interval diabetes_scores = true
  ∧ forallb unit_interval stroke_scores = true.
Proof. vm_compute. auto. Qed.

(** ** The condition scorers and a bmi of None *)

Lemma heart_predict_valid (data : Binary64.HeartDiseasePredictor.Data) :
  ∃ factors,
    Binary64.HeartDiseasePredictor.predict data
    = Some (Binary64.HeartDiseasePredictor._calculate_risk_score data, 0.85%float,
            factors)
    ∧ impacts_in_unit_interval factors.
Proof.
  unfold Binary64.HeartDiseasePredictor.predict. cbv zeta.
  destruct (heart_factors_valid data
              (Binary64.HeartDiseasePredictor._calculate_risk_score data))
    as (factors & -> & Hfactors).
  exists factors. split; [reflexivity | exact Hfactors].
Qed.

Lemma diabetes_predict_cases (data : Binary64.DiabetesPredictor.Data) :
  (Binary64.DiabetesPredictor.bmi data = Some None
   ∧ Binary64.DiabetesPredictor.predict data = None)
  ∨ (Binary64.DiabetesPredictor.bmi data ≠ Some None
     ∧ ∃ s factors,
         Binary64.DiabetesPredictor.predict data = Some (s, 0.82%float, factors)
         ∧ s ∈ diabetes_scores ∧ impacts_in_unit_interval factors).
Proof.
  assert (Hcases : Binary64.DiabetesPredictor.bmi data = Some None
                   ∨ Binary64.DiabetesPredictor.bmi data ≠ Some None).
  { destruct (Binary64.DiabetesPredictor.bmi data) as [[b|]|];
      [right; discriminate | left; reflexivity | right; discriminate]. }
  destruct Hcases as [Hnone|Hbmi].
  - left. split; [exact Hnone|].
    unfold Binary64.DiabetesPredictor.predict,
      Binary64.DiabetesPredictor._calculate_risk_score.
    rewrite Hnone. reflexivity.
  - right. split; [exact Hbmi|].
    destruct (diabetes_score_elem data Hbmi) as (s & Hs & Hin).
    destruct (diabetes_factors_valid data s Hbmi) as (factors & Hf & Hfactors).
    exists s, factors. unfold Binary64.DiabetesPredictor.predict.
    rewrite Hs. cbn [mbind option_bind]. rewrite Hf. auto.
Qed.

Lemma stroke_predict_cases (data : Binary64.StrokePredictor.Data) :
  (Binary64.StrokePredictor.bmi data = Some None
   ∧ Binary64.StrokePredictor.predict data = None)
  ∨ (Binary64.StrokePredictor.bmi data ≠ Some None
     ∧ ∃ s factors,
         Binary64.StrokePredictor.predict data = Some (s, 0.80%float, factors)
         ∧ s ∈ stroke_scores ∧ impacts_in_unit_interval factors).
Proof.
  assert (Hcases : Binary64.StrokePredictor.bmi data = Some None
                   ∨ Binary64.StrokePredictor.bmi data ≠ Some None).
  { destruct (Binary64.StrokePredictor.bmi data) as [[b|]|];
      [right; discriminate | left; reflexivity | right; discriminate]. }
  destruct Hcases as [Hnone|Hbmi].
  - left. split; [exact Hnone|].
    unfold Binary64.StrokePredictor.predict,
      Binary64.StrokePredictor._calculate_risk_score.
    rewrite Hnone. reflexivity.
  - right. split; [exact Hbmi|].
    destruct (stroke_score_elem data Hbmi) as (s & Hs & Hin).
    destruct (stroke_factors_valid data s) as (factors & Hf & Hfactors).
    exists s, factors. unfold Binary64.StrokePredictor.predict.
    rewrite Hs. cbn [mbind option_bind]. rewrite Hf. auto.
Qed.

(** C3: the metabolic and the cerebrovascular scorer raise on a
    feature map whose [bmi] key holds [None], the map the aggregator
    builds for a patient history without bmi; they raise on no other
    map.  On every map they do not raise on, and the cardiovascular
    scorer on every map, the score, the confidence and every impact lie
    in [0,1].  The score is the sum of the weights cut at 1.0: the
    weights 0.2 and 0.15 of a moderate cardiovascular map give 0.35 and
    all the weights (1.1 in all) give 1.0. *)
Theorem scorers_raise_on_none_bmi :
  Binary64.DiabetesPredictor.predict diabetes_features_without_bmi = None
  ∧ Binary64.StrokePredictor.predict stroke_features_without_bmi = None
  ∧ Binary64.GeneralRiskPredictor._assess_diabetes_risk patient_without_bmi []
    = Binary64.DiabetesPredictor.predict diabetes_features_without_bmi
  ∧ Binary64.GeneralRiskPredictor._assess_stroke_risk patient_without_bmi []
    = Binary64.StrokePredictor.predict stroke_features_without_bmi
  ∧ (∀ data, Binary64.DiabetesPredictor.predict data = None
             ↔ Binary64.DiabetesPredictor.bmi data = Some None)
  ∧ (∀ data, Binary64.StrokePredictor.predict data = None
             ↔ Binary64.StrokePredictor.bmi data = Some None)
  ∧ (∀ data, ∃ s c factors,
       Binary64.HeartDiseasePredictor.predict data = Some (s, c, factors)
       ∧ unit_interval s = true ∧ unit_interval c = true
       ∧ impacts_in_unit_interval factors)
  ∧ (∀ data s c factors,
       Binary64.DiabetesPredictor.predict data = Some (s, c, factors) →
       unit_interval s = true ∧ unit_interval c = true
       ∧ impacts_in_unit_interval factors)
  ∧ (∀ data s c factors,
       Binary64.StrokePredictor.predict data = Some (s, c, factors) →
       unit_interval s = true ∧ unit_interval c = true
       ∧ impacts_in_unit_interval factors)
  ∧ Binary64.HeartDiseasePredictor._calculate_risk_score heart_features_moderate
    = 0.35%float
  ∧ Binary64.HeartDiseasePredictor._calculate_risk_score heart_features_maximal
    = 1%float.
Proof.
  destruct scores_in_unit_interval as (Hheart & Hdiabetes & Hstroke).
  split; [reflexivity|]. split; [reflexivity|]. split; [reflexivity|].
  split; [reflexivity|]. split; [|split; [|split; [|split; [|split]]]].
  - intros data.
    destruct (diabetes_predict_cases data) as [[Hnone Hp]|(Hbmi & s & fs & Hp & _)];
      rewrite Hp; split; try discriminate; try contradiction; auto.
  - intros data.
    destruct (stroke_predict_cases data) as [[Hnone Hp]|(Hbmi & s & fs & Hp & _)];
      rewrite Hp; split; try discriminate; try contradiction; auto.
  - intros data. destruct (heart_predict_valid data) as (factors & Hp & Hfactors).
    do 3 eexists. split; [exact Hp|]. split; [|split; [reflexivity | exact Hfactors]].
    exact (forallb_elem _ _ _ Hheart (heart_score_elem data)).
  - intros data s c factors Hp.
    destruct (diabetes_predict_cases data)
      as [[_ Hn]|(_ & s' & fs & Hp' & Hin & Hfs)]; rewrite Hp in *;
      [discriminate|]. injection Hp' as -> -> ->.
    split; [exact (forallb_elem _ _ _ Hdiabetes Hin)|].
    split; [reflexivity | exact Hfs].
  - intros data s c factors Hp.
    destruct (stroke_predict_cases data)
      as [[_ Hn]|(_ & s' & fs & Hp' & Hin & Hfs)]; rewrite Hp in *;
      [discriminate|]. injection Hp' as -> -> ->.
    split; [exact (forallb_elem _ _ _ Hstroke Hin)|].
    split; [reflexivity | exact Hfs].
  - split; vm_compute; reflexivity.
Qed.

(** ** The risk aggregator and a bmi of None *)

Lemma assess_diabetes_cases (patient_data : Binary64.Patient.t)
    (vitals_data : list Binary64.Vital.t) :
  (Binary64.Patient.bmi patient_data = Some None
   ∧ Binary64.GeneralRiskPredictor._assess_diabetes_risk patient_data vitals_data = None)
  ∨ (Binary64.Patient.bmi patient_data ≠ Some None
     ∧ ∃ s factors,
         Binary64.GeneralRiskPredictor._assess_diabetes_risk patient_data vitals_data
         = Some (s, 0.82%float, factors)
         ∧ s ∈ diabetes_scores ∧ impacts_in_unit_interval factors).
Proof.
  unfold Binary64.GeneralRiskPredictor._assess_diabetes_risk. cbv zeta.
  match goal with |- context [Binary64.DiabetesPredictor.predict ?d] =>
    destruct (diabetes_predict_cases d) as [[Hnone Hp]|(Hbmi & Hp)] end;
    cbn [Binary64.DiabetesPredictor.bmi] in *.
  - left. split; [|exact Hp].
    destruct (Binary64.Patient.bmi patient_data) as [[b|]|]; try discriminate.
    reflexivity.
  - right. split; [|exact Hp]. intros E. rewrite E in Hbmi. apply Hbmi. reflexivity.
Qed.

Lemma assess_stroke_cases (patient_data : Binary64.Patient.t)
    (vitals_data : list Binary64.Vital.t) :
  (Binary64.Patient.bmi patient_data = Some None
   ∧ Binary64.GeneralRiskPredictor._assess_stroke_risk patient_data vitals_data = None)
  ∨ (Binary64.Patient.bmi patient_data ≠ Some None
     ∧ ∃ s factors,
         Binary64.GeneralRiskPredictor._assess_stroke_risk patient_data vitals_data
         = Some (s, 0.80%float, factors)
         ∧ s ∈ stroke_scores ∧ impacts_in_unit_interval factors).
Proof.
  unfold Binary64.GeneralRiskPredictor._assess_stroke_risk. cbv zeta.
  match goal with |- context [Binary64.StrokePredictor.predict ?d] =>
    destruct (stroke_predict_cases d) as [[Hnone Hp]|(Hbmi & Hp)] end;
    cbn [Binary64.StrokePredictor.bmi] in *.
  - left. split; [|exact Hp].
    destruct (Binary64.Patient.bmi patient_data) as [[b|]|]; try discriminate.
    reflexivity.
  - right. split; [|exact Hp]. intros E. rewrite E in Hbmi. apply Hbmi. reflexivity.
Qed.

Lemma assess_heart_elem (patient_data : Binary64.Patient.t)
    (vitals_data : list Binary64.Vital.t) :
  ∃ s factors,
    Binary64.GeneralRiskPredictor._assess_heart_risk patient_data vitals_data
    = Some (s, 0.85%float, factors)
    ∧ s ∈ aggregator_heart_scores ∧ impacts_in_unit_interval factors.
Proof.
  unfold Binary64.GeneralRiskPredictor._assess_heart_risk. cbv zeta.
  match goal with |- context [Binary64.HeartDiseasePredictor.predict ?d] =>
    destruct (heart_predict_valid d) as (factors & -> & Hfactors) end.
  do 2 eexists. split; [reflexivity|]. split; [|exact Hfactors].
  apply float_in_elem.
  unfold Binary64.HeartDiseasePredictor._calculate_risk_score. cbv zeta.
  cbn [Binary64.HeartDiseasePredictor.age Binary64.HeartDiseasePredictor.restingBP
       Binary64.HeartDiseasePredictor.cholesterol
       Binary64.HeartDiseasePredictor.fastingBloodSugar
       Binary64.HeartDiseasePredictor.exerciseInducedAngina default from_option id].
  change (Binary64.gtb 200 240) with false.
  change (Binary64.gtb 200 200) with false.
  cbv iota.
  score_cases; vm_compute; reflexivity.
Qed.

(** C2: the aggregator raises on a patient history whose [bmi] key
    holds [None] (what the request schema gives when the bmi is
    omitted) and on no other; the same history with a bmi is assessed.
    Whenever an assessment is returned, its overall score is
    heart * 0.4 + metabolic * 0.3 + stroke * 0.3 in binary64 arithmetic,
    its confidence (0.85 + 0.82 + 0.80) / 3, its factors the three lists
    appended in that order and its level the level of its score; the
    condition scores 0.8, 0.3 and 0.3 combine to 0.5 and MEDIUM. *)
Theorem comprehensive_risk_raises_without_bmi :
  Binary64.GeneralRiskPredictor.predict_comprehensive_risk patient_without_bmi [] = None
  ∧ is_Some
      (Binary64.GeneralRiskPredictor.predict_comprehensive_risk patient_with_bmi [])
  ∧ (∀ patient_data vitals_data,
       Binary64.GeneralRiskPredictor.predict_comprehensive_risk patient_data vitals_data
       = None
       ↔ Binary64.Patient.bmi patient_data = Some None)
  ∧ (∀ patient_data vitals_data r,
       Binary64.GeneralRiskPredictor.predict_comprehensive_risk patient_data vitals_data
       = Some r →
       ∃ hs hf ds df ss sf,
         Binary64.GeneralRiskPredictor._assess_heart_risk patient_data vitals_data
         = Some (hs, 0.85%float, hf)
         ∧ Binary64.GeneralRiskPredictor._assess_diabetes_risk patient_data vitals_data
           = Some (ds, 0.82%float, df)
         ∧ Binary64.GeneralRiskPredictor._assess_stroke_risk patient_data vitals_data
           = Some (ss, 0.80%float, sf)
         ∧ Binary64.riskScore r = weighted_score hs ds ss
         ∧ Binary64.confidence r = ((0.85 + 0.82 + 0.80) / 3)%float
         ∧ Binary64.riskFactors r = hf ++ df ++ sf
         ∧ Binary64.riskLevel r
           = Binary64.RiskPredictor.determine_risk_level (Binary64.riskScore r))
  ∧ (let r := Binary64.GeneralRiskPredictor.combine_risks
                (0.8%float, 0.85%float, []) (0.3%float, 0.82%float, [])
                (0.3%float, 0.80%float, []) in
     Binary64.riskScore r = 0.5%float ∧ Binary64.riskLevel r = MEDIUM).
Proof.
  split; [reflexivity|]. split; [vm_compute; eauto|].
  split; [|split; [|split; vm_compute; reflexivity]].
  - intros patient_data vitals_data.
    unfold Binary64.GeneralRiskPredictor.predict_comprehensive_risk.
    destruct (assess_heart_elem patient_data vitals_data) as (hs & hf & -> & _).
    cbn [mbind option_bind].
    destruct (assess_diabetes_cases patient_data vitals_data)
      as [[Hnone ->]|(Hbmi & ds & df & -> & _)]; cbn [mbind option_bind].
    + split; auto.
    + destruct (assess_stroke_cases patient_data vitals_data)
        as [[Hnone _]|(_ & ss & sf & -> & _)]; [contradiction|].
      cbn [mbind option_bind]. split; [discriminate | contradiction].
  - intros patient_data vitals_data r.
    unfold Binary64.GeneralRiskPredictor.predict_comprehensive_risk.
    destruct (assess_heart_elem patient_data vitals_data) as (hs & hf & -> & _).
    cbn [mbind option_bind].
    destruct (assess_diabetes_cases patient_data vitals_data)
      as [[Hnone ->]|(Hbmi & ds & df & -> & _)]; cbn [mbind option_bind];
      [discriminate|].
    destruct (assess_stroke_cases patient_data vitals_data)
      as [[Hnone _]|(_ & ss & sf & -> & _)]; [contradiction|].
    cbn [mbind option_bind]. intros [= <-].
    exists hs, hf, ds, df, ss, sf. repeat split; reflexivity.
Qed.

(** ** The aggregator's range *)

Lemma aggregator_ranges :
  forallb (fun h =>
    (h <=? 0.55)%float && negb (Binary64.gtb h 0.6)
    && forallb (fun d =>
         forallb (fun s =>
           (0 <=? weighted_score h d s)%float
           && (weighted_score h d s <=? 0.8200000000000001)%float)
           stroke_scores)
         diabetes_scores)
    aggregator_heart_scores = true.
Proof. vm_compute. reflexivity. Qed.

(** X4: for every patient whose bmi is not [None] and every vitals
    list the comprehensive assessment is returned; its cardiovascular
    part is at most 0.55 (the aggregator feeds the scorer a fixed
    cholesterol and no flags), its overall score lies between 0 and
    0.8200000000000001, the double that 0.55 * 0.4 + 0.3 + 0.3 rounds
    to, and "Elevated cardiovascular disease risk" is never among its
    primary concerns. *)
Theorem comprehensive_risk_range (patient_data : Binary64.Patient.t)
    (vitals_data : list Binary64.Vital.t) :
  Binary64.Patient.bmi patient_data ≠ Some None →
  ∃ hs hc hf r,
    Binary64.GeneralRiskPredictor._assess_heart_risk patient_data vitals_data
    = Some (hs, hc, hf)
    ∧ Binary64.GeneralRiskPredictor.predict_comprehensive_risk patient_data vitals_data
      = Some r
    ∧ (hs <=? 0.55)%float = true
    ∧ (0 <=? Binary64.riskScore r)%float = true
    ∧ (Binary64.riskScore r <=? 0.8200000000000001)%float = true
    ∧ "Elevated cardiovascular disease risk" ∉ Binary64.primaryConcerns r.
Proof.
  intros Hbmi.
  unfold Binary64.GeneralRiskPredictor.predict_comprehensive_risk.
  destruct (assess_heart_elem patient_data vitals_data) as (hs & hf & -> & Hhs & _).
  destruct (assess_diabetes_cases patient_data vitals_data)
    as [[Hnone _]|(_ & ds & df & -> & Hds & _)]; [contradiction|].
  destruct (assess_stroke_cases patient_data vitals_data)
    as [[Hnone _]|(_ & ss & sf & -> & Hss & _)]; [contradiction|].
  cbn [mbind option_bind].
  pose proof (forallb_elem _ _ _ aggregator_ranges Hhs) as Hh. cbv beta in Hh.
  apply andb_true_iff in Hh as [Hh Hall]. apply andb_true_iff in Hh as [Hle Hconcern].
  pose proof (forallb_elem _ _ _ (forallb_elem _ _ _ Hall Hds) Hss) as Hscore.
  cbv beta in Hscore. apply andb_true_iff in Hscore as [Hlo Hhi].
  apply negb_true_iff in Hconcern.
  exists hs, 0.85%float, hf. eexists. split; [reflexivity|]. split; [reflexivity|].
  cbn [Binary64.riskScore Binary64.primaryConcerns
       Binary64.GeneralRiskPredictor.combine_risks].
  split; [exact Hle|]. split; [exact Hlo|]. split; [exact Hhi|].
  unfold Binary64.GeneralRiskPredictor._identify_primary_concerns.
  rewrite Hconcern.
  destruct (Binary64.gtb ds 0.6), (Binary64.gtb ss 0.6); simpl;
    rewrite list_elem_of_In; simpl; intuition discriminate.
Qed.

(** The maximal patient reaches the bound: the overall score is
    0.8200000000000001. *)
Lemma comprehensive_risk_range_witness :
  ∃ r,
    Binary64.GeneralRiskPredictor.predict_comprehensive_risk maximal_patient
      maximal_vitals = Some r
    ∧ Binary64.riskScore r = 0.8200000000000001%float
    ∧ (Binary64.riskScore r <=? 0.8200000000000001)%float = true.
Proof.
  destruct (comprehensive_risk_range maximal_patient maximal_vitals)
    as (hs & hc & hf & r & _ & Hr & _ & _ & Hhi & _); [discriminate|].
  exists r. split; [exact Hr|]. split; [|exact Hhi].
  assert (Hscore : Binary64.riskScore
                     <$> Binary64.GeneralRiskPredictor.predict_comprehensive_risk
                           maximal_patient maximal_vitals
                   = Some 0.8200000000000001%float) by (vm_compute; reflexivity).
  rewrite Hr in Hscore. injection Hscore as ->. reflexivity.
Defined.

(** The level is that of the computed sum: the weighted scores of the
    smoker of 70 add up to 0.3 exactly and to 0.29999999999999993 in
    binary64, below the threshold of MEDIUM. *)
Example rounded_sum_lowers_the_level :
  ∃ r,
    Binary64.GeneralRiskPredictor.predict_comprehensive_risk smoker_of_seventy []
    = Some r
    ∧ Binary64.riskScore r = 0.29999999999999993%float
    ∧ Binary64.riskLevel r = LOW.
Proof. eexists. vm_compute. repeat split; reflexivity. Qed.
